(** * GTC [UncertainArray]: the elementwise dispatch engine

    A shallow embedding of [GTC/uncertain_array.py].  The class
    [UncertainArray] subclasses [numpy.ndarray]; array objects live in a
    store and are passed by reference, because [__array_ufunc__] writes the
    attribute [_broadcasted_shape] of [self] and a later call reads it.

    Layout: Python values and exceptions; the store monad; the part of
    numpy the class calls (shapes, broadcasting, [empty], [itemset],
    [flat], [asarray], reductions); the class itself, method by method;
    an executable scalar environment over plain numbers; the theorems. *)

From Stdlib Require Import ZArith Floats Uint63 Lia.
From stdpp Require Import base option list strings pretty.

Set Default Proof Using "Type".
Local Open Scope Z_scope.
Local Open Scope nat_scope.

(** ** Python values *)

(** The objects an array element can be: [None], [bool], [int], [float]
    (binary64), [complex], [str], or an uncertain number of [GTC.lib]
    ([UncertainReal] or [UncertainComplex]), whose representation [U] is
    not part of this module. *)
Inductive pyval (U : Type) : Type :=
| VNone
| VBool (b : bool)
| VInt (z : Z)
| VFloat (f : float)
| VComplex (re im : float)
| VStr (s : string)
| VUncertain (u : U).

Arguments VNone {U}.
Arguments VBool {U} b.
Arguments VInt {U} z.
Arguments VFloat {U} f.
Arguments VComplex {U} re im.
Arguments VStr {U} s.
Arguments VUncertain {U} u.

(** Exception classes raised by the module or by the numpy and Python
    primitives it calls.  [Unmodelled] is not a Python exception: it marks
    a scalar function that an executable environment cannot evaluate. *)
Inductive exn_class :=
| TypeError | ValueError | NotImplementedError | AttributeError
| IndexError | AssertionError | OverflowError | ZeroDivisionError
| Unmodelled.

Record exn := Raise { exn_kind : exn_class; exn_msg : string }.

Inductive result (A : Type) : Type :=
| Ok (a : A)
| Err (e : exn).

Arguments Ok {A} a.
Arguments Err {A} e.

Definition result_bind {A B} (r : result A) (k : A -> result B) : result B :=
  match r with
  | Ok a => k a
  | Err e => Err e
  end.

(** ** Array objects and the store *)

(** [type(obj)]: exactly [numpy.ndarray], or the subclass. *)
Inductive klass := Ndarray | Uarray.

(** Element kinds.  [DObject] is [numpy.dtype('O')]. *)
Inductive dtype := DObject | DBool | DInt | DFloat | DComplex | DStr.

Global Instance klass_eq_dec : EqDecision klass.
Proof. solve_decision. Defined.

Global Instance dtype_eq_dec : EqDecision dtype.
Proof. solve_decision. Defined.

Definition shape_t := list nat.

(** An array object.  [data] is the buffer in C (row-major) order.  The
    attributes [_label] and [_broadcasted_shape] exist on [UncertainArray]
    instances only; on a plain [ndarray] the fields stay [None]. *)
Record arrobj (U : Type) := ArrObj {
  cls : klass;
  shape : shape_t;
  dtype_of : dtype;
  data : list (pyval U);
  _label : option string;
  _broadcasted_shape : option shape_t
}.

Arguments ArrObj {U}.
Arguments cls {U}.
Arguments shape {U}.
Arguments dtype_of {U}.
Arguments data {U}.
Arguments _label {U}.
Arguments _broadcasted_shape {U}.

(** A reference is an index into the store. *)
Abbreviation ref := nat.

(** What a call can be given, and what it can return. *)
Inductive pyarg (U : Type) : Type :=
| Arr (r : ref)                    (* an ndarray or UncertainArray object *)
| Obj (v : pyval U)                (* one Python object that is not a sequence *)
| Seq (l : list (pyval U))         (* a flat list or tuple of such objects *)
| FlatIter (l : list (pyval U)).   (* a numpy.flatiter of np.broadcast(...).iters *)

Arguments Arr {U} r.
Arguments Obj {U} v.
Arguments Seq {U} l.
Arguments FlatIter {U} l.

Record state (U : Type) := State {
  heap : list (arrobj U);
  warnings : list (list (string * pyarg U))
}.

Arguments State {U}.
Arguments heap {U}.
Arguments warnings {U}.

(** The store monad: an exception leaves the store as it was when raised. *)
Definition M (U A : Type) : Type := state U -> result A * state U.

Definition ret {U A} (a : A) : M U A := fun st => (Ok a, st).

Definition bind {U A B} (m : M U A) (k : A -> M U B) : M U B :=
  fun st =>
    match m st with
    | (Ok a, st') => k a st'
    | (Err e, st') => (Err e, st')
    end.

Definition raise {U A} (c : exn_class) (msg : string) : M U A :=
  fun st => (Err (Raise c msg), st).

Definition lift {U A} (r : result A) : M U A := fun st => (r, st).

Declare Scope py_scope.
Delimit Scope py_scope with py.
Notation "'let*' x ':=' m 'in' k" := (bind m (fun x => k))
  (at level 10, x name, m at level 100, k at level 200) : py_scope.
Notation "'let*' ' p ':=' m 'in' k" :=
  (bind m (fun x => match x with p => k end))
  (at level 10, p pattern, m at level 100, k at level 200) : py_scope.
Local Open Scope py_scope.

(** ** Shapes and indices (numpy, C order) *)

(** Number of elements of an array of shape [sh]. *)
Definition size_of (sh : shape_t) : nat := foldr Nat.mul 1 sh.

(** Multi-index of flat position [i] in shape [sh]. *)
Fixpoint unravel (sh : shape_t) (i : nat) : list nat :=
  match sh with
  | [] => []
  | d :: t => (i / size_of t) mod d :: unravel t (i mod size_of t)
  end.

(** Flat position of a multi-index in shape [sh]. *)
Fixpoint ravel (sh : shape_t) (idx : list nat) : nat :=
  match sh, idx with
  | d :: t, k :: ks => k * size_of t + ravel t ks
  | _, _ => 0
  end.

(** numpy's broadcasting rule on shapes read from the last axis: two
    lengths agree when they are equal or one of them is 1. *)
Fixpoint broadcast_rev (r1 r2 : list nat) : option (list nat) :=
  match r1, r2 with
  | [], r => Some r
  | r, [] => Some r
  | d1 :: t1, d2 :: t2 =>
      match broadcast_rev t1 t2 with
      | None => None
      | Some t =>
          if d1 =? d2 then Some (d1 :: t)
          else if d1 =? 1 then Some (d2 :: t)
          else if d2 =? 1 then Some (d1 :: t)
          else None
      end
  end.

Definition broadcast_shapes (s1 s2 : shape_t) : option shape_t :=
  match broadcast_rev (rev s1) (rev s2) with
  | Some r => Some (rev r)
  | None => None
  end.

(** Index in the source array of the element that a broadcast view of
    target shape [tgt] shows at flat position [i]: the leading target axes
    the source lacks are dropped and every source axis of length 1 is read
    at 0. *)
Definition clamp_index (src : shape_t) (idx : list nat) : list nat :=
  zip_with (fun d k => if d =? 1 then 0 else k) src idx.

Definition source_index (src tgt : shape_t) (i : nat) : nat :=
  ravel src (clamp_index src (drop (length tgt - length src) (unravel tgt i))).

(** ** The scalar environment

    What the array engine asks of its elements and of numpy's element
    conversion.  The Python operators, the attributes of uncertain numbers
    and the functions of [GTC.core] are outside this module: the engine
    only routes elements to them. *)

Inductive binop := Add | Sub | Mul | TrueDiv | Pow | Eq | Ne | Lt | Le | Gt | Ge.

Inductive unop := Pos | Neg | Abs.

(** [x.real], [x.imag], [x.r], [x.conjugate()]. *)
Inductive attr := AttrReal | AttrImag | AttrR | Conjugate.

(** One-argument functions imported from [GTC.core]. *)
Inductive corefn :=
| Value | Uncertainty | Variance | Dof
| Cos | Sin | Tan | Acos | Asin | Atan
| Exp | Log | Log10 | Sqrt
| Sinh | Cosh | Tanh | Acosh | Asinh | Atanh
| MagSquared | Magnitude | Phase.

Class Scalar (U : Type) := {
  (* a + b, a < b, ...: the Python binary operators *)
  py_binop : binop -> pyval U -> pyval U -> result (pyval U);
  (* +a, -a, abs(a) *)
  py_unop : unop -> pyval U -> result (pyval U);
  (* bool(a), the truth value used by [and], [or], [not] and [if] *)
  py_bool : pyval U -> result bool;
  py_attr : attr -> pyval U -> result (pyval U);
  core_fn : corefn -> pyval U -> result (pyval U);
  core_atan2 : pyval U -> pyval U -> result (pyval U);
  (* GTC.core.result(x, label) *)
  core_result : pyval U -> option (pyval U) -> result (pyval U);
  (* str(a), as used by str.format *)
  py_str : pyval U -> result string;
  (* numpy: the element stored when [v] is assigned into an array of a
     typed (non-object, non-bool) element kind *)
  np_convert : dtype -> pyval U -> result (pyval U);
  (* numpy: the element kind discovered for a sequence when none is asked *)
  np_discover : list (pyval U) -> dtype
}.

(** ** numpy: the primitives the class calls *)

Section Numpy.
Context {U : Type} `{Scalar U}.

Definition get_obj (r : ref) : M U (arrobj U) :=
  fun st =>
    match heap st !! r with
    | Some o => (Ok o, st)
    | None => (Err (Raise Unmodelled "dangling reference"), st)
    end.

(** A new object gets the next free reference. *)
Definition alloc (o : arrobj U) : M U ref :=
  fun st => (Ok (length (heap st)), State (heap st ++ [o]) (warnings st)).

Definition update_obj (r : ref) (f : arrobj U -> arrobj U) : M U unit :=
  fun st =>
    match heap st !! r with
    | Some o => (Ok tt, State (<[r := f o]> (heap st)) (warnings st))
    | None => (Err (Raise Unmodelled "dangling reference"), st)
    end.

(** [warnings.warn(...)]: the call goes on. *)
Definition warn (kwargs : list (string * pyarg U)) : M U unit :=
  fun st => (Ok tt, State (heap st) (warnings st ++ [kwargs])).

Fixpoint map_result {A B} (f : A -> result B) (l : list A) : result (list B) :=
  match l with
  | [] => Ok []
  | x :: t =>
      result_bind (f x) (fun y =>
      result_bind (map_result f t) (fun ys => Ok (y :: ys)))
  end.

(** Content of a fresh [np.empty] buffer: [None] for object arrays;
    numpy leaves typed buffers unspecified and the model fixes zero. *)
Definition uninit (d : dtype) : pyval U :=
  match d with
  | DObject => VNone
  | DBool => VBool false
  | DInt => VInt 0
  | DFloat => VFloat 0
  | DComplex => VComplex 0 0
  | DStr => VStr EmptyString
  end.

(** The element stored when [v] is assigned into an array of kind [d]:
    an object array keeps the reference, a bool array takes the truth
    value. *)
Definition cast (d : dtype) (v : pyval U) : result (pyval U) :=
  match d, v with
  | DObject, _ => Ok v
  | DBool, _ => result_bind (py_bool v) (fun b => Ok (VBool b))
  | DFloat, VFloat _ => Ok v
  | DStr, VStr _ => Ok v
  | _, _ => np_convert d v
  end.

(** [np.empty(shape, dtype=d)] *)
Definition np_empty (sh : shape_t) (d : dtype) : M U ref :=
  alloc (ArrObj Ndarray sh d (replicate (size_of sh) (uninit d)) None None).

(** [np.full(shape, v, dtype=object)] *)
Definition np_full (sh : shape_t) (v : pyval U) : M U ref :=
  alloc (ArrObj Ndarray sh DObject (replicate (size_of sh) v) None None).

(** [a.itemset(i, v)] with a flat index. *)
Definition itemset (a : ref) (i : nat) (v : pyval U) : M U unit :=
  let* o := get_obj a in
  if i <? length (data o) then
    let* v' := lift (cast (dtype_of o) v) in
    update_obj a (fun o =>
      ArrObj (cls o) (shape o) (dtype_of o) (<[i := v']> (data o))
             (_label o) (_broadcasted_shape o))
  else raise IndexError "index out of bounds".

(** [isinstance(x, np.ndarray)] *)
Definition is_ndarray (x : pyarg U) : bool :=
  match x with Arr _ => true | _ => false end.

(** [x.shape] *)
Definition shape_of (x : pyarg U) : M U shape_t :=
  match x with
  | Arr r => let* o := get_obj r in ret (shape o)
  | _ => raise AttributeError "object has no attribute 'shape'"
  end.

(** [x.flat] *)
Definition flat (x : pyarg U) : M U (list (pyval U)) :=
  match x with
  | Arr r => let* o := get_obj r in ret (data o)
  | _ => raise AttributeError "object has no attribute 'flat'"
  end.

(** [x.item(0)] *)
Definition item0 (x : pyarg U) : M U (pyval U) :=
  match x with
  | Arr r =>
      let* o := get_obj r in
      match data o !! 0 with
      | Some v => ret v
      | None => raise IndexError "index 0 is out of bounds for size 0"
      end
  | _ => raise AttributeError "object has no attribute 'item'"
  end.

(** [inputs[k]] on a tuple or list of arguments. *)
Definition nth_input (inputs : list (pyarg U)) (k : nat) : M U (pyarg U) :=
  match inputs !! k with
  | Some x => ret x
  | None => raise IndexError "tuple index out of range"
  end.

Definition is_str (v : pyval U) : bool :=
  match v with VStr _ => true | _ => false end.

(** The element kind numpy finds for a sequence: a string kind for a
    non-empty sequence of [str], else what the environment says. *)
Definition discover (l : list (pyval U)) : dtype :=
  match l with
  | _ :: _ => if forallb is_str l then DStr else np_discover l
  | [] => np_discover l
  end.

(** [np.asarray(x, dtype=d)]: an [ndarray] of the asked kind is returned
    as it is; a subclass instance or another kind gives a new base-class
    array; anything else is converted, a single object to a
    0-dimensional array. *)
Definition np_asarray (x : pyarg U) (d : option dtype) : M U ref :=
  match x with
  | Arr r =>
      let* o := get_obj r in
      let d' := default (dtype_of o) d in
      if decide (dtype_of o = d') then
        if decide (cls o = Ndarray) then ret r
        else alloc (ArrObj Ndarray (shape o) d' (data o) None None)
      else
        let* l := lift (map_result (cast d') (data o)) in
        alloc (ArrObj Ndarray (shape o) d' l None None)
  | Obj v =>
      let d' := default (discover [v]) d in
      let* v' := lift (cast d' v) in
      alloc (ArrObj Ndarray [] d' [v'] None None)
  | Seq l | FlatIter l =>
      let d' := default (discover l) d in
      let* l' := lift (map_result (cast d') l) in
      alloc (ArrObj Ndarray [length l] d' l' None None)
  end.

(** The flat iterator of the broadcast view of an array at shape [tgt]. *)
Definition broadcast_iter (o : arrobj U) (tgt : shape_t) : list (pyval U) :=
  map (fun i => nth (source_index (shape o) tgt i) (data o) VNone)
      (seq 0 (size_of tgt)).

(** [np.broadcast(a, b)]: the resolved shape and [.iters]. *)
Definition np_broadcast (a b : ref)
  : M U (shape_t * (list (pyval U) * list (pyval U))) :=
  let* oa := get_obj a in
  let* ob := get_obj b in
  match broadcast_shapes (shape oa) (shape ob) with
  | Some s => ret (s, (broadcast_iter oa s, broadcast_iter ob s))
  | None =>
      raise ValueError
        "shape mismatch: objects cannot be broadcast to a single shape"
  end.

End Numpy.

(** ** numpy: [sum] and [mean] of an object array

    For an object array numpy adds the elements with the Python [+], from
    the first element on, and an empty sum is the [int] 0.  The sums of
    numpy's typed arrays use its own pairwise scheme on machine numbers
    and are not modelled: they answer [Unmodelled]. *)

Section Reductions.
Context {U : Type} `{Scalar U}.

Definition reduce_add (l : list (pyval U)) : result (pyval U) :=
  match l with
  | [] => Ok (VInt 0)
  | a :: t =>
      foldl (fun acc b => result_bind acc (fun s => py_binop Add s b))
            (Ok a) t
  end.

Definition remove_axis (k : nat) (sh : shape_t) : shape_t :=
  take k sh ++ drop (S k) sh.

(** The elements along axis [k] that fold into position [j] of the
    result. *)
Definition lane (o : arrobj U) (k j : nat) : list (pyval U) :=
  let idx := unravel (remove_axis k (shape o)) j in
  map (fun t => nth (ravel (shape o) (take k idx ++ t :: drop k idx))
                    (data o) VNone)
      (seq 0 (nth k (shape o) 0)).

(** [a.sum(axis)]: every axis when [axis] is [None].  A result without
    axes is the element itself, not an array. *)
Definition np_sum (a : ref) (axis : option nat) : M U (pyarg U) :=
  let* o := get_obj a in
  if decide (dtype_of o = DObject) then
    match axis with
    | None =>
        let* s := lift (reduce_add (data o)) in
        ret (Obj s)
    | Some k =>
        if k <? length (shape o) then
          let rsh := remove_axis k (shape o) in
          let* l := lift (map_result (fun j => reduce_add (lane o k j))
                                     (seq 0 (size_of rsh))) in
          match rsh, l with
          | [], [s] => ret (Obj s)
          | _, _ =>
              let* r := alloc (ArrObj Ndarray rsh DObject l None None) in
              ret (Arr r)
          end
        else raise ValueError "axis is out of bounds"
    end
  else raise Unmodelled "reduction of a typed array".

(** [a.mean(axis)]: the sum, divided by the number of elements folded
    into each position.  numpy holds that number as a numpy integer.
    For a positive count the quotient is that of the element's own
    division by the count.  For a count of 0 numpy warns (a
    [RuntimeWarning], which is displayed and not raised, and is not
    recorded in the store) and goes on: the sum without axes is then the
    [int] 0, and 0 divided by the numpy integer 0 is NaN, not a
    [ZeroDivisionError]; the division of an array of sums by the count
    0 is outside the model.  [VFloat] stands for a binary64 number,
    Python's [float] and numpy's [float64] alike. *)
Definition np_mean (a : ref) (axis : option nat) : M U (pyarg U) :=
  let* o := get_obj a in
  let rcount :=
    match axis with
    | None => size_of (shape o)
    | Some k => nth k (shape o) 0
    end in
  let divide (s : pyval U) := py_binop TrueDiv s (VInt (Z.of_nat rcount)) in
  let* ret_ := np_sum a axis in
  match ret_ with
  | Arr r =>
      if rcount =? 0 then raise Unmodelled "mean of empty slices"
      else
        let* t := get_obj r in
        let* l := lift (map_result divide (data t)) in
        let* _ := update_obj r (fun t =>
          ArrObj (cls t) (shape t) (dtype_of t) l (_label t)
                 (_broadcasted_shape t)) in
        ret (Arr r)
  | Obj s =>
      if rcount =? 0 then ret (Obj (VFloat nan))
      else
        let* q := lift (divide s) in
        ret (Obj q)
  | _ => ret ret_
  end.

End Reductions.

(** ** Module-level helpers of [uncertain_array.py] *)

Module Helpers.
Section Helpers.
Context {U : Type} `{Scalar U}.

(** [isinstance(val, numbers.Real)]: [bool], [int] and [float]. *)
Definition is_Real (val : pyval U) : bool :=
  match val with
  | VBool _ | VInt _ | VFloat _ => true
  | _ => false
  end.

(** [isinstance(val, numbers.Complex)]: the reals and [complex]. *)
Definition is_Complex (val : pyval U) : bool :=
  match val with
  | VBool _ | VInt _ | VFloat _ | VComplex _ _ => true
  | _ => false
  end.

(** An [int] converts to [float] by rounding to nearest; the conversion
    raises [OverflowError] from [2^1024 - 2^970] on. *)
Definition float_overflows (z : Z) : bool :=
  (2 ^ 1024 - 2 ^ 970 <=? Z.abs z)%Z.

Definition overflow {A} : result A :=
  Err (Raise OverflowError "int too large to convert to float").

(** [math.isnan], [math.isinf] on a real. *)
Definition math_isnan (val : pyval U) : result bool :=
  match val with
  | VBool _ => Ok false
  | VInt z => if float_overflows z then overflow else Ok false
  | VFloat f => Ok (PrimFloat.is_nan f)
  | _ => Err (Raise TypeError "must be real number")
  end.

Definition math_isinf (val : pyval U) : result bool :=
  match val with
  | VBool _ => Ok false
  | VInt z => if float_overflows z then overflow else Ok false
  | VFloat f => Ok (PrimFloat.is_infinity f)
  | _ => Err (Raise TypeError "must be real number")
  end.

(** [cmath.isnan], [cmath.isinf]: either part. *)
Definition cmath_isnan (val : pyval U) : result bool :=
  match val with
  | VComplex re im => Ok (PrimFloat.is_nan re || PrimFloat.is_nan im)
  | _ => math_isnan val
  end.

Definition cmath_isinf (val : pyval U) : result bool :=
  match val with
  | VComplex re im =>
      Ok (PrimFloat.is_infinity re || PrimFloat.is_infinity im)
  | _ => math_isinf val
  end.

(** [_isnan(number)], lines 65-72. *)
Definition _isnan (number : pyval U) : result bool :=
  result_bind (core_fn Value number) (fun val =>
    if is_Real val then math_isnan val
    else if is_Complex val then cmath_isnan val
    else Err (Raise TypeError "cannot calculate isnan of type")).

(** [_isinf(number)], lines 74-81. *)
Definition _isinf (number : pyval U) : result bool :=
  result_bind (core_fn Value number) (fun val =>
    if is_Real val then math_isinf val
    else if is_Complex val then cmath_isinf val
    else Err (Raise TypeError "cannot calculate isinf of type")).

(** Modelled from the spec: [GTC.is_sequence] is not in this module's
    file; a label that is one string, or any single object, is "a single
    shared (non-sequence) label", and a list, tuple or array is a
    "sequence of labels". *)
Definition is_sequence (x : pyarg U) : bool :=
  match x with
  | Obj _ => false
  | Arr _ | Seq _ | FlatIter _ => true
  end.

(** [isinstance(x, (Number, UncertainReal, UncertainComplex))] *)
Definition is_number_or_uncertain (x : pyarg U) : option (pyval U) :=
  match x with
  | Obj ((VBool _ | VInt _ | VFloat _ | VComplex _ _ | VUncertain _) as v) =>
      Some v
  | _ => None
  end.

End Helpers.
End Helpers.

(** ** Methods of the elements and of plain arrays

    The methods [sensitivity], [u_component] and [_round] of an uncertain
    number are defined in [GTC.lib], [round] is a builtin, and the
    reductions other than [sum] and [mean] are left to numpy as they
    are. *)

Class ElementMethods (U : Type) := {
  (* getattr(y, name) for a method of an element: AttributeError when
     [y] has none of that name, else what a call of the bound method
     does with its arguments *)
  bound_method : string -> pyval U -> result (list (pyval U) -> result (pyval U));
  (* round(item, digits) *)
  py_round : pyval U -> pyval U -> result (pyval U)
}.

Class NdarrayMethods (U : Type) := {
  (* a.name(args, kwargs) on a plain ndarray [a] *)
  ndarray_method :
    string -> ref -> list (pyarg U) -> list (string * pyarg U) -> M U (pyarg U)
}.

(** ** The class [UncertainArray] *)

(** What an iteration yields: one element of a flat iterator, or the tuple
    that [izip] builds. *)
Inductive item (U : Type) : Type :=
| One (v : pyval U)
| Tup (vs : list (pyval U)).

Arguments One {U} v.
Arguments Tup {U} vs.

Module UncertainArray.
Section Class.
Context {U : Type} `{Scalar U}.


(** [self._broadcasted_shape = s] *)
Definition set_broadcasted_shape (self : ref) (s : option shape_t) : M U unit :=
  update_obj self (fun o =>
    ArrObj (cls o) (shape o) (dtype_of o) (data o) (_label o) s).

(** [x.view(UncertainArray)] followed by [__array_finalize__], lines
    128-137: the view takes the label of an [UncertainArray] base and
    starts with no broadcast shape. *)
Definition view (r : ref) : M U ref :=
  let* o := get_obj r in
  let label := if decide (cls o = Uarray) then _label o else None in
  alloc (ArrObj Uarray (shape o) (dtype_of o) (data o) label None).

(** [UncertainArray.__new__(cls, array, dtype=None, label=None)], lines
    114-126. *)
Definition __new__ (array : pyarg U) (dtype : option dtype)
    (label : option string) : M U ref :=
  let* dtype :=
    match array with
    | Arr r =>
        let* o := get_obj r in
        if decide (cls o = Ndarray) then ret (Some (dtype_of o))
        else ret (Some (default DObject dtype))
    | _ => ret (Some (default DObject dtype))
    end in
  let* a := np_asarray array dtype in
  let* obj := view a in
  let* _ := update_obj obj (fun o =>
    ArrObj (cls o) (shape o) (dtype_of o) (data o) label
           (_broadcasted_shape o)) in
  ret obj.

(** [izip] over the inputs: tuples of the heads, up to the shortest input. *)
Fixpoint izip (ls : list (list (pyval U))) : list (list (pyval U)) :=
  match ls with
  | [] => []
  | [l] => map (fun x => [x]) l
  | l :: rest => zip_with cons l (izip rest)
  end.

(** Iterating a [str] yields its one-character strings. *)
Fixpoint chars (s : string) : list (pyval U) :=
  match s with
  | EmptyString => []
  | String c t => VStr (String c EmptyString) :: chars t
  end.

(** [iter(x)] for an argument of [izip]. *)
Definition iter_of (x : pyarg U) : M U (list (pyval U)) :=
  match x with
  | FlatIter l | Seq l => ret l
  | Arr r =>
      let* o := get_obj r in
      match shape o with
      | [] => raise TypeError "iteration over a 0-d array"
      | [_] => ret (data o)
      | _ => raise Unmodelled "iteration over sub-arrays"
      end
  | Obj (VStr s) => ret (chars s)
  | Obj _ => raise TypeError "object is not iterable"
  end.

Fixpoint iter_all (inputs : list (pyarg U)) : M U (list (list (pyval U))) :=
  match inputs with
  | [] => ret []
  | x :: t =>
      let* l := iter_of x in
      let* ls := iter_all t in
      ret (l :: ls)
  end.

(** [_create_empty(self, inputs=None, dtype=None, order='C')], lines
    208-220.  Returns the new array and the iterator; [a.itemset] is
    [itemset a].  The memory order does not show in the flat view. *)
Definition _create_empty (self : ref) (inputs : option (list (pyarg U)))
    (dtype : option dtype) : M U (ref * list (item U)) :=
  let dtype := default DObject dtype in
  let* o := get_obj self in
  let shape :=
    match _broadcasted_shape o with
    | None => shape o
    | Some s => s
    end in
  let* a := np_empty shape dtype in
  match inputs with
  | None =>
      let* it := flat (Arr self) in
      ret (a, map One it)
  | Some inputs =>
      if length inputs =? 1 then
        let* x := nth_input inputs 0 in
        let* it := flat x in
        ret (a, map One it)
      else
        let* x0 := nth_input inputs 0 in
        if is_ndarray x0 then
          let* f0 := flat x0 in
          let* x1 := nth_input inputs 1 in
          let* f1 := flat x1 in
          ret (a, map Tup (izip [f0; f1]))
        else
          (* then the inputs are already broadcasted iterators *)
          let* ls := iter_all inputs in
          ret (a, map Tup (izip ls))
  end.

(** [for i, item in enumerate(iterator): itemset(i, f(item))] *)
Fixpoint fill_from (arr : ref) (i : nat) (iterator : list (item U))
    (f : item U -> result (pyval U)) : M U unit :=
  match iterator with
  | [] => ret tt
  | x :: t =>
      let* v := lift (f x) in
      let* _ := itemset arr i v in
      fill_from arr (S i) t f
  end.

Definition fill (arr : ref) (iterator : list (item U))
    (f : item U -> result (pyval U)) : M U unit :=
  fill_from arr 0 iterator f.

(** A scalar operation applied to what the loop variable holds: a tuple
    is no operand of any of them. *)
Definition on_item (f : pyval U -> result (pyval U)) (x : item U)
  : result (pyval U) :=
  match x with
  | One v => f v
  | Tup _ => Err (Raise TypeError "bad operand type: 'tuple'")
  end.

(** The unpacking [(a, b) = item] of a [for] target. *)
Definition unpack2 (x : item U) : result (pyval U * pyval U) :=
  match x with
  | Tup [a; b] => Ok (a, b)
  | Tup _ => Err (Raise ValueError "wrong number of values to unpack")
  | One (VStr (String c1 (String c2 EmptyString))) =>
      Ok (VStr (String c1 EmptyString), VStr (String c2 EmptyString))
  | One (VStr _) => Err (Raise ValueError "wrong number of values to unpack")
  | One _ => Err (Raise TypeError "cannot unpack non-iterable object")
  end.

Definition on_pair (f : pyval U -> pyval U -> result (pyval U)) (x : item U)
  : result (pyval U) :=
  result_bind (unpack2 x) (fun '(a, b) => f a b).

(** [return UncertainArray(arr)] *)
Definition wrap (arr : ref) : M U (pyarg U) :=
  let* r := __new__ (Arr arr) None None in
  ret (Arr r).

(** [inputs[k].item(0)] *)
Definition item_of (inputs : list (pyarg U)) (k : nat) : M U (pyval U) :=
  let* x := nth_input inputs k in
  item0 x.

(** [self.ndim] *)
Definition ndim (self : ref) : M U nat :=
  let* o := get_obj self in
  ret (length (shape o)).

(** The body shared by the properties, the accessors and the handlers
    that ignore their inputs ([real], [value], [_exp], [_negative], ...):
<<
    if self.shape == ():
        return op(self.item(0))
    arr, itemset, iterator = self._create_empty(dtype=dtype)
    for i, item in enumerate(iterator):
        itemset(i, op(item))
    return UncertainArray(arr)
>> *)
Definition elementwise_self (self : ref) (op : pyval U -> result (pyval U))
    (dtype : option dtype) : M U (pyarg U) :=
  let* sh := shape_of (Arr self) in
  if decide (sh = []) then
    let* x := item0 (Arr self) in
    let* v := lift (op x) in
    ret (Obj v)
  else
    let* '(arr, iterator) := _create_empty self None dtype in
    let* _ := fill arr iterator (on_item op) in
    wrap arr.

(** The body shared by the one-input handlers that iterate over their
    inputs ([_isinf], [_isnan], [_isfinite], [_reciprocal], [_absolute]):
<<
    if self.ndim == 0:
        return op0(self.item(0))
    arr, itemset, iterator = self._create_empty(inputs, dtype=dtype)
    for i, item in enumerate(iterator):
        itemset(i, op(item))
    return arr                   # or UncertainArray(arr)
>>
    [op0] and [op] are separate because [_isfinite] uses two different
    tests. *)
Definition elementwise_inputs (self : ref) (inputs : list (pyarg U))
    (op0 op : pyval U -> result (pyval U)) (dtype : option dtype)
    (wrapped : bool) : M U (pyarg U) :=
  let* nd := ndim self in
  if nd =? 0 then
    let* x := item0 (Arr self) in
    let* v := lift (op0 x) in
    ret (Obj v)
  else
    let* '(arr, iterator) := _create_empty self (Some inputs) dtype in
    let* _ := fill arr iterator (on_item op) in
    if wrapped then wrap arr else ret (Arr arr).

(** The body shared by the two-input handlers:
<<
    if self.ndim == 0:
        return <scalar0>                  # on inputs[0].item(0), inputs[1].item(0)
    arr, itemset, iterator = self._create_empty(inputs, dtype=dtype)
    for i, (a, b) in enumerate(iterator):
        itemset(i, op(a, b))
    return UncertainArray(arr)            # or arr
>> *)
Definition pairwise (self : ref) (inputs : list (pyarg U))
    (scalar0 : M U (pyval U)) (op : pyval U -> pyval U -> result (pyval U))
    (dtype : option dtype) (wrapped : bool) : M U (pyarg U) :=
  let* nd := ndim self in
  if nd =? 0 then
    let* v := scalar0 in
    ret (Obj v)
  else
    let* '(arr, iterator) := _create_empty self (Some inputs) dtype in
    let* _ := fill arr iterator (on_pair op) in
    if wrapped then wrap arr else ret (Arr arr).

(** [op(inputs[0].item(0), inputs[1].item(0))] *)
Definition strict0 (inputs : list (pyarg U))
    (op : pyval U -> pyval U -> result (pyval U)) : M U (pyval U) :=
  let* a := item_of inputs 0 in
  let* b := item_of inputs 1 in
  lift (op a b).

Definition of_bool (r : result bool) : result (pyval U) :=
  result_bind r (fun b => Ok (VBool b)).

(** *** Properties and accessors, lines 236-459 *)

Definition real (self : ref) := elementwise_self self (py_attr AttrReal) None.
Definition imag (self : ref) := elementwise_self self (py_attr AttrImag) None.
Definition r (self : ref) := elementwise_self self (py_attr AttrR) (Some DFloat).
Definition value (self : ref) (dtype : option dtype) :=
  elementwise_self self (core_fn Value) dtype.
Definition x (self : ref) := value self None.
Definition uncertainty (self : ref) (dtype : option dtype) :=
  elementwise_self self (core_fn Uncertainty) dtype.
Definition u (self : ref) := uncertainty self None.
Definition variance (self : ref) (dtype : option dtype) :=
  elementwise_self self (core_fn Variance) dtype.
Definition v (self : ref) := variance self None.
Definition dof (self : ref) (dtype : option dtype) :=
  elementwise_self self (core_fn Dof) dtype.
Definition df (self : ref) := dof self None.

(** *** Handlers of one input that iterate over [self], lines 515-540
    and 596-798 *)

Definition _conjugate (self : ref) (ignore : list (pyarg U)) :=
  elementwise_self self (py_attr Conjugate) None.
Definition conjugate (self : ref) := _conjugate self [].
Definition _positive (self : ref) (ignore : list (pyarg U)) :=
  elementwise_self self (py_unop Pos) None.
Definition _negative (self : ref) (ignore : list (pyarg U)) :=
  elementwise_self self (py_unop Neg) None.

Definition core_handler (f : corefn) (self : ref) :=
  elementwise_self self (core_fn f) None.

Definition _exp (self : ref) (ignore : list (pyarg U)) := core_handler Exp self.
Definition _log (self : ref) (ignore : list (pyarg U)) := core_handler Log self.
Definition _log10 (self : ref) (ignore : list (pyarg U)) := core_handler Log10 self.
Definition _sqrt (self : ref) (ignore : list (pyarg U)) := core_handler Sqrt self.
Definition _cos (self : ref) (ignore : list (pyarg U)) := core_handler Cos self.
Definition _sin (self : ref) (ignore : list (pyarg U)) := core_handler Sin self.
Definition _tan (self : ref) (ignore : list (pyarg U)) := core_handler Tan self.
Definition _acos (self : ref) := core_handler Acos self.
Definition _arccos (self : ref) (ignore : list (pyarg U)) := _acos self.
Definition _asin (self : ref) := core_handler Asin self.
Definition _arcsin (self : ref) (ignore : list (pyarg U)) := _asin self.
Definition _atan (self : ref) := core_handler Atan self.
Definition _arctan (self : ref) (ignore : list (pyarg U)) := _atan self.
Definition _sinh (self : ref) (ignore : list (pyarg U)) := core_handler Sinh self.
Definition _cosh (self : ref) (ignore : list (pyarg U)) := core_handler Cosh self.
Definition _tanh (self : ref) (ignore : list (pyarg U)) := core_handler Tanh self.
Definition _acosh (self : ref) := core_handler Acosh self.
Definition _arccosh (self : ref) (ignore : list (pyarg U)) := _acosh self.
Definition _asinh (self : ref) := core_handler Asinh self.
Definition _arcsinh (self : ref) (ignore : list (pyarg U)) := _asinh self.
Definition _atanh (self : ref) := core_handler Atanh self.
Definition _arctanh (self : ref) (ignore : list (pyarg U)) := _atanh self.
Definition _mag_squared (self : ref) := core_handler MagSquared self.
Definition _square (self : ref) (ignore : list (pyarg U)) := _mag_squared self.
Definition _magnitude (self : ref) := core_handler Magnitude self.
Definition _phase (self : ref) := core_handler Phase self.

(** *** Arithmetic handlers, lines 542-594 *)

Definition arith (o : binop) (self : ref) (inputs : list (pyarg U)) :=
  pairwise self inputs (strict0 inputs (py_binop o)) (py_binop o) None true.

Definition _add := arith Add.
Definition _subtract := arith Sub.
Definition _multiply := arith Mul.
Definition _divide := arith TrueDiv.
Definition _true_divide := arith TrueDiv.
Definition _power := arith Pow.

(** [_atan2(self, *inputs)], lines 698-705: pairs [self] with
    [inputs[0]]. *)
Definition _atan2 (self : ref) (inputs : list (pyarg U)) : M U (pyarg U) :=
  let* nd := ndim self in
  if nd =? 0 then
    let* a := item0 (Arr self) in
    let* b := item_of inputs 0 in
    let* v := lift (core_atan2 a b) in
    ret (Obj v)
  else
    let* x0 := nth_input inputs 0 in
    let* '(arr, iterator) := _create_empty self (Some [Arr self; x0]) None in
    let* _ := fill arr iterator (on_pair core_atan2) in
    wrap arr.

(** [_arctan2(self, *inputs)], lines 695-696. *)
Definition _arctan2 (self : ref) (inputs : list (pyarg U)) : M U (pyarg U) :=
  let* x1 := nth_input inputs 1 in
  _atan2 self [x1].

(** *** Comparisons, lines 830-882: a [bool] buffer, returned bare *)

Definition comparison (o : binop) (self : ref) (inputs : list (pyarg U)) :=
  pairwise self inputs (strict0 inputs (py_binop o)) (py_binop o)
           (Some DBool) false.

Definition _equal := comparison Eq.
Definition _not_equal := comparison Ne.
Definition _less := comparison Lt.
Definition _less_equal := comparison Le.
Definition _greater := comparison Gt.
Definition _greater_equal := comparison Ge.

(** *** Maximum and minimum, lines 884-918 *)

(** [a if a OP b else b] *)
Definition select (o : binop) (a b : pyval U) : result (pyval U) :=
  result_bind (py_binop o a b) (fun c =>
  result_bind (py_bool c) (fun t =>
  Ok (if t then a else b))).

(** The loop body: a NaN operand is stored as soon as it is seen, the
    first operand before the second. *)
Definition select_nan (o : binop) (a b : pyval U) : result (pyval U) :=
  result_bind (Helpers._isnan a) (fun na =>
  if na then Ok a
  else
    result_bind (Helpers._isnan b) (fun nb =>
    if nb then Ok b
    else select o a b)).

Definition _maximum (self : ref) (inputs : list (pyarg U)) :=
  pairwise self inputs (strict0 inputs (select Gt)) (select_nan Gt) None true.

Definition _minimum (self : ref) (inputs : list (pyarg U)) :=
  pairwise self inputs (strict0 inputs (select Lt)) (select_nan Lt) None true.

(** *** Logical handlers, lines 920-951 *)

(** [a and b], [a or b] on two values. *)
Definition py_and (a b : pyval U) : result (pyval U) :=
  result_bind (py_bool a) (fun t => Ok (if t then b else a)).

Definition py_or (a b : pyval U) : result (pyval U) :=
  result_bind (py_bool a) (fun t => Ok (if t then a else b)).

(** [inputs[0].item(0) and inputs[1].item(0)]: the second operand is
    evaluated only when the first is true. *)
Definition and0 (inputs : list (pyarg U)) : M U (pyval U) :=
  let* a := item_of inputs 0 in
  let* t := lift (py_bool a) in
  if t then item_of inputs 1 else ret a.

Definition or0 (inputs : list (pyarg U)) : M U (pyval U) :=
  let* a := item_of inputs 0 in
  let* t := lift (py_bool a) in
  if t then ret a else item_of inputs 1.

Definition _logical_and (self : ref) (inputs : list (pyarg U)) :=
  pairwise self inputs (and0 inputs) py_and (Some DObject) true.

Definition _logical_or (self : ref) (inputs : list (pyarg U)) :=
  pairwise self inputs (or0 inputs) py_or (Some DObject) true.

Definition _logical_xor (self : ref) (inputs : list (pyarg U))
  : M U (pyarg U) :=
  raise TypeError
    "Boolean bitwise operations are not defined for `UncertainArray`".

(** [not bool(item)]; a tuple from [izip] is true when it is not
    empty. *)
Definition not_bool (x : item U) : result (pyval U) :=
  match x with
  | One v => result_bind (py_bool v) (fun b => Ok (VBool (negb b)))
  | Tup vs => Ok (VBool (match vs with [] => true | _ => false end))
  end.

(** [_logical_not(self, *inputs)], lines 947-951: no branch for a
    0-dimensional [self]. *)
Definition _logical_not (self : ref) (inputs : list (pyarg U))
  : M U (pyarg U) :=
  let* '(arr, iterator) := _create_empty self (Some inputs) (Some DBool) in
  let* _ := fill arr iterator not_bool in
  ret (Arr arr).

(** *** Predicates on the value, lines 953-979 *)

Definition isinf_item (v : pyval U) := of_bool (Helpers._isinf v).
Definition isnan_item (v : pyval U) := of_bool (Helpers._isnan v).

(** [not (_isnan(item) or _isinf(item))] *)
Definition isfinite_item (v : pyval U) : result (pyval U) :=
  result_bind (Helpers._isnan v) (fun n =>
  if n then Ok (VBool false)
  else result_bind (Helpers._isinf v) (fun i => Ok (VBool (negb i)))).

Definition _isinf (self : ref) (inputs : list (pyarg U)) :=
  elementwise_inputs self inputs isinf_item isinf_item (Some DBool) false.

Definition _isnan (self : ref) (inputs : list (pyarg U)) :=
  elementwise_inputs self inputs isnan_item isnan_item (Some DBool) false.

(** [_isfinite], lines 971-979: the 0-dimensional branch returns
    [_isinf(self.item(0))]. *)
Definition _isfinite (self : ref) (inputs : list (pyarg U)) :=
  elementwise_inputs self inputs isinf_item isfinite_item (Some DBool) false.

(** [1.0 / item] *)
Definition reciprocal_item (v : pyval U) : result (pyval U) :=
  py_binop TrueDiv (VFloat 1) v.

Definition _reciprocal (self : ref) (inputs : list (pyarg U)) :=
  elementwise_inputs self inputs reciprocal_item reciprocal_item None true.

Definition _absolute (self : ref) (inputs : list (pyarg U)) :=
  elementwise_inputs self inputs (py_unop Abs) (py_unop Abs) None true.

(** *** [_intermediate(self, labels)], lines 800-828 *)

(** [str(labels)] inside [format], for a label that is no sequence; a
    [str] is its own text. *)
Definition label_text (labels : pyarg U) : result string :=
  match labels with
  | Obj (VStr s) => Ok s
  | Obj v => py_str v
  | _ => Err (Raise Unmodelled "text of a sequence")
  end.

(** ["{}[{}]".format(labels, i)] *)
Definition indexed_label (base : string) (i : nat) : pyval U :=
  VStr (base +:+ "[" +:+ pretty i +:+ "]").

Definition _intermediate (self : ref) (labels : option (pyarg U))
  : M U (pyarg U) :=
  match labels with
  | None =>
      let* sh := shape_of (Arr self) in
      if decide (sh = []) then
        let* x := item0 (Arr self) in
        let* v := lift (core_result x None) in
        ret (Obj v)
      else
        let* '(arr, iterator) := _create_empty self None None in
        let* _ := fill arr iterator (on_item (fun x => core_result x None)) in
        wrap arr
  | Some labels =>
      let* o := get_obj self in
      let* labels :=
        if (1 <? size_of (shape o)) && negb (Helpers.is_sequence labels) then
          (* Add index notation to the label base *)
          let* text := lift (label_text labels) in
          np_asarray
            (Seq (map (indexed_label text) (seq 0 (size_of (shape o)))))
            None
        else np_asarray labels None in
      if decide (shape o = []) then
        let* x := item0 (Arr self) in
        let* l := item0 (Arr labels) in
        let* v := lift (core_result x (Some l)) in
        ret (Obj v)
      else
        let* '(arr, iterator) :=
          _create_empty self (Some [Arr self; Arr labels]) None in
        let* _ := fill arr iterator
                       (on_pair (fun x lbl => core_result x (Some lbl))) in
        wrap arr
  end.

(** *** [copy] and the reductions, lines 999-1040 *)

Definition copy (self : ref) : M U (pyarg U) :=
  let* '(arr, iterator) := _create_empty self None None in
  let* _ := fill arr iterator (on_item (py_unop Pos)) in
  let* o := get_obj self in
  let* c := __new__ (Arr arr) None (_label o) in
  ret (Arr c).

(** [if hasattr(result, 'shape') and result.shape != (): return
    UncertainArray(result) else: return result] *)
Definition rewrap (result : pyarg U) : M U (pyarg U) :=
  match result with
  | Arr a =>
      let* o := get_obj a in
      if decide (shape o = []) then ret result else wrap a
  | _ => ret result
  end.

(** [sum(self, *args, **kwargs)]; the arguments numpy is handed are
    modelled by the optional [axis]. *)
Definition sum (self : ref) (axis : option nat) : M U (pyarg U) :=
  let* a := np_asarray (Arr self) None in
  let* result := np_sum a axis in
  rewrap result.

Definition mean (self : ref) (axis : option nat) : M U (pyarg U) :=
  let* a := np_asarray (Arr self) None in
  let* result := np_mean a axis in
  rewrap result.

(** [std] and [var] take any arguments and raise, lines 1030-1040. *)
Definition std (self : ref) (args : list (pyarg U))
    (kwargs : list (string * pyarg U)) : M U (pyarg U) :=
  raise TypeError "`std` is not defined for `UncertainArray`".

Definition var (self : ref) (args : list (pyarg U))
    (kwargs : list (string * pyarg U)) : M U (pyarg U) :=
  raise TypeError "`var` is not defined for `UncertainArray`".

(** *** The dispatcher, lines 139-183 *)

(** The methods whose name is [_] followed by the name of a numpy
    ufunc: what [getattr(self, '_' + ufunc.__name__)] can find. *)
Definition methods : list (string * (ref -> list (pyarg U) -> M U (pyarg U))) :=
  [ ("_conjugate", _conjugate); ("_positive", _positive);
    ("_negative", _negative); ("_add", _add); ("_subtract", _subtract);
    ("_multiply", _multiply); ("_divide", _divide);
    ("_true_divide", _true_divide); ("_power", _power); ("_exp", _exp);
    ("_log", _log); ("_log10", _log10); ("_sqrt", _sqrt); ("_cos", _cos);
    ("_sin", _sin); ("_tan", _tan); ("_arccos", _arccos);
    ("_arcsin", _arcsin); ("_arctan", _arctan); ("_arctan2", _arctan2);
    ("_sinh", _sinh); ("_cosh", _cosh); ("_tanh", _tanh);
    ("_arccosh", _arccosh); ("_arcsinh", _arcsinh);
    ("_arctanh", _arctanh); ("_square", _square); ("_equal", _equal);
    ("_not_equal", _not_equal); ("_less", _less);
    ("_less_equal", _less_equal); ("_greater", _greater);
    ("_greater_equal", _greater_equal); ("_maximum", _maximum);
    ("_minimum", _minimum); ("_logical_and", _logical_and);
    ("_logical_or", _logical_or); ("_logical_xor", _logical_xor);
    ("_logical_not", _logical_not); ("_isinf", _isinf);
    ("_isnan", _isnan); ("_isfinite", _isfinite);
    ("_reciprocal", _reciprocal); ("_absolute", _absolute) ].

Fixpoint getattr {A} (table : list (string * A)) (name : string) : option A :=
  match table with
  | [] => None
  | (n, a) :: t => if String.eqb n name then Some a else getattr t name
  end.

(** [inputs[k] = x] on the list copy of the inputs. *)
Definition set_input (inputs : list (pyarg U)) (k : nat) (x : pyarg U)
  : list (pyarg U) := <[k := x]> inputs.

(** [__array_ufunc__(self, ufunc, method, *inputs, **kwargs)]; [ufunc]
    stands for [ufunc.__name__]. *)
Definition __array_ufunc__ (self : ref) (ufunc method : string)
    (inputs : list (pyarg U)) (kwargs : list (string * pyarg U))
  : M U (pyarg U) :=
  match getattr methods ("_" +:+ ufunc) with
  | None =>
      raise NotImplementedError
        ("The <ufunc '" +:+ ufunc +:+ "'> function has not been implemented")
  | Some attr =>
      let* _ := match kwargs with
                | [] => ret tt
                | _ => warn kwargs
                end in
      let case := length inputs in
      if case =? 1 then
        (* Must be an UncertainArray *)
        attr self inputs
      else if case =? 2 then
        let* x0 := nth_input inputs 0 in
        let* x1 := nth_input inputs 1 in
        let not0 := negb (is_ndarray x0) in
        let* inputs :=
          if not0 || negb (is_ndarray x1) then
            (* convert the input that is not an ndarray *)
            let '(convert, keep) := if not0 then (0, 1) else (1, 0) in
            let* xc := nth_input inputs convert in
            match Helpers.is_number_or_uncertain xc with
            | Some number =>
                let* xk := nth_input inputs keep in
                let* sh := shape_of xk in
                let* a := np_full sh number in
                ret (set_input inputs convert (Arr a))
            | None =>
                let* a := np_asarray xc (Some DObject) in
                ret (set_input inputs convert (Arr a))
            end
          else ret inputs in
        let* _ := set_broadcasted_shape self None in
        let* y0 := nth_input inputs 0 in
        let* y1 := nth_input inputs 1 in
        let* s0 := shape_of y0 in
        let* s1 := shape_of y1 in
        let* inputs :=
          if decide (s0 = s1) then ret inputs
          else
            match y0, y1 with
            | Arr a, Arr b =>
                let* '(sh, (i0, i1)) := np_broadcast a b in
                let* _ := set_broadcasted_shape self (Some sh) in
                ret [FlatIter i0; FlatIter i1]
            | _, _ => raise Unmodelled "broadcast of a non-array"
            end in
        attr self inputs
      else
        raise AssertionError
              "Should not occur: __array_ufunc__ received inputs"
  end.

(** *** Methods that call methods of the elements, lines 222-234,
    461-497 and 1005-1014 *)

Context `{ElementMethods U} `{NdarrayMethods U}.

(** [self.label] *)
Definition label (self : ref) : M U (option string) :=
  let* o := get_obj self in
  ret (_label o).

(** [y.name(x)] *)
Definition call_method (name : string) (y x : pyval U) : result (pyval U) :=
  result_bind (bound_method name y) (fun m => m [x]).

(** [hasattr(x, 'item')]: arrays have [item]; numbers, uncertain numbers,
    lists and tuples have not. *)
Definition has_item (x : pyarg U) : bool := is_ndarray x.

(** The body shared by [sensitivity] and [u_component]:
<<
    if self.shape == ():
        if hasattr(x,'item'):
            return self.item(0).name(x.item(0))
        else:
            return self.item(0).name(x)
    if not isinstance(x,np.ndarray):
        x = np.asarray(x)
    arr, itemset, iterator = self._create_empty((self, x))
    for i, (y, x) in enumerate(iterator):
        itemset(i, y.name(x))
    return UncertainArray(arr)
>> *)
Definition reporting (name : string) (self : ref) (x : pyarg U)
  : M U (pyarg U) :=
  let* sh := shape_of (Arr self) in
  if decide (sh = []) then
    let* y := item0 (Arr self) in
    let* m := lift (bound_method name y) in
    if has_item x then
      let* x0 := item0 x in
      let* v := lift (m [x0]) in
      ret (Obj v)
    else
      match x with
      | Obj x0 =>
          let* v := lift (m [x0]) in
          ret (Obj v)
      | _ => raise Unmodelled "a sequence as the argument of an element method"
      end
  else
    let* x :=
      if is_ndarray x then ret x
      else
        let* a := np_asarray x None in
        ret (Arr a) in
    let* '(arr, iterator) := _create_empty self (Some [Arr self; x]) None in
    let* _ := fill arr iterator (on_pair (call_method name)) in
    wrap arr.

Definition sensitivity (self : ref) (x : pyarg U) := reporting "sensitivity" self x.
Definition u_component (self : ref) (x : pyarg U) := reporting "u_component" self x.

(** [kwargs.get(key, default)] *)
Definition kwargs_get {A} (kwargs : list (string * A)) (key : string)
    (dflt : A) : A :=
  default dflt (getattr kwargs key).

(** The body of the loop of [round]:
<<
    try:
        itemset(i, item._round(digits, df_decimals))
    except AttributeError:
        itemset(i, round(item, digits))
>>
    The buffer is of kind object, so [itemset] stores what it is given. *)
Definition round_item (digits df_decimals item : pyval U) : result (pyval U) :=
  match result_bind (bound_method "_round" item)
                    (fun m => m [digits; df_decimals]) with
  | Err (Raise AttributeError _) => py_round item digits
  | rounded => rounded
  end.

(** [round(self, decimals=0, **kwargs)] *)
Definition round (self : ref) (decimals : pyval U)
    (kwargs : list (string * pyval U)) : M U (pyarg U) :=
  let digits := kwargs_get kwargs "digits" decimals in
  let df_decimals := kwargs_get kwargs "df_decimals" digits in
  let* '(arr, iterator) := _create_empty self None None in
  let* _ := fill arr iterator (on_item (round_item digits df_decimals)) in
  wrap arr.

(** *** The reductions left to numpy, lines 1042-1103 *)

(** The body they share with [sum] and [mean]:
<<
    result = np.asarray(self).name(args, kwargs)
    if hasattr(result,'shape') and result.shape != ():
        return UncertainArray(result)
    else:
        return result
>>
    [any] and [all] ask [np.asarray] for the kind [bool]. *)
Definition reduction (method : ref -> M U (pyarg U)) (dtype : option dtype)
    (self : ref) : M U (pyarg U) :=
  let* a := np_asarray (Arr self) dtype in
  let* result := method a in
  rewrap result.

Definition max (self : ref) (args : list (pyarg U))
    (kwargs : list (string * pyarg U)) :=
  reduction (fun a => ndarray_method "max" a args kwargs) None self.

Definition min (self : ref) (args : list (pyarg U))
    (kwargs : list (string * pyarg U)) :=
  reduction (fun a => ndarray_method "min" a args kwargs) None self.

Definition trace (self : ref) (args : list (pyarg U))
    (kwargs : list (string * pyarg U)) :=
  reduction (fun a => ndarray_method "trace" a args kwargs) None self.

Definition cumprod (self : ref) (args : list (pyarg U))
    (kwargs : list (string * pyarg U)) :=
  reduction (fun a => ndarray_method "cumprod" a args kwargs) None self.

Definition cumsum (self : ref) (args : list (pyarg U))
    (kwargs : list (string * pyarg U)) :=
  reduction (fun a => ndarray_method "cumsum" a args kwargs) None self.

Definition prod (self : ref) (args : list (pyarg U))
    (kwargs : list (string * pyarg U)) :=
  reduction (fun a => ndarray_method "prod" a args kwargs) None self.

Definition ptp (self : ref) (args : list (pyarg U))
    (kwargs : list (string * pyarg U)) :=
  reduction (fun a => ndarray_method "ptp" a args kwargs) None self.

Definition any (self : ref) (args : list (pyarg U))
    (kwargs : list (string * pyarg U)) :=
  reduction (fun a => ndarray_method "any" a args kwargs) (Some DBool) self.

Definition all (self : ref) (args : list (pyarg U))
    (kwargs : list (string * pyarg U)) :=
  reduction (fun a => ndarray_method "all" a args kwargs) (Some DBool) self.

End Class.
End UncertainArray.

(** ** An executable scalar environment

    Modelled from the spec: the scalar capability contract of section 4.1
    is "external, consumed only" and [GTC.core], [GTC.lib] are not among
    the files of this module.  The environment below is used to run the
    engine on concrete arrays.  Python's [bool], [int] and [float]
    (binary64) are computed; an uncertain number is a record of the
    attributes "value/uncertainty/degrees-of-freedom" and a label, read by
    the accessors of the same names and labelled by [result].  Every other
    scalar operation answers [Unmodelled], so a run that ends in a value
    or in a Python exception has not met one. *)

Module Env.

Record unum := UNum {
  u_x : float;
  u_u : float;
  u_df : float;
  u_label : option string
}.

Inductive num := NInt (z : Z) | NFloat (f : float).

Definition unmodelled {A} : result A := Err (Raise Unmodelled EmptyString).

(** [bool] is a subclass of [int]. *)
Definition as_num (v : pyval unum) : option num :=
  match v with
  | VBool b => Some (NInt (if b then 1 else 0)%Z)
  | VInt z => Some (NInt z)
  | VFloat f => Some (NFloat f)
  | _ => None
  end.

(** [float(z)]: rounding to nearest, ties to even. *)
Definition float_of_Z (z : Z) : float :=
  SF2Prim (binary_normalize prec emax z 0 false).

Definition to_float (n : num) : result float :=
  match n with
  | NInt z =>
      if Helpers.float_overflows z then Helpers.overflow
      else Ok (float_of_Z z)
  | NFloat f => Ok f
  end.

(** Integers that [float] holds exactly. *)
Definition small (z : Z) : bool := (Z.abs z <=? 2 ^ 53)%Z.

Definition arith_int (o : binop) (a b : Z) : result (pyval unum) :=
  match o with
  | Add => Ok (VInt (a + b))
  | Sub => Ok (VInt (a - b))
  | Mul => Ok (VInt (a * b))
  | TrueDiv =>
      if (b =? 0)%Z then Err (Raise ZeroDivisionError "division by zero")
      else if small a && small b
           then Ok (VFloat (float_of_Z a / float_of_Z b))
           else unmodelled
  | Eq => Ok (VBool (a =? b)%Z)
  | Ne => Ok (VBool (negb (a =? b)%Z))
  | Lt => Ok (VBool (a <? b)%Z)
  | Le => Ok (VBool (a <=? b)%Z)
  | Gt => Ok (VBool (b <? a)%Z)
  | Ge => Ok (VBool (b <=? a)%Z)
  | Pow => unmodelled
  end.

Definition arith_float (o : binop) (a b : float) : result (pyval unum) :=
  match o with
  | Add => Ok (VFloat (a + b))
  | Sub => Ok (VFloat (a - b))
  | Mul => Ok (VFloat (a * b))
  | TrueDiv =>
      if (b =? 0)%float
      then Err (Raise ZeroDivisionError "float division by zero")
      else Ok (VFloat (a / b))
  | Eq => Ok (VBool (a =? b)%float)
  | Ne => Ok (VBool (negb (a =? b)%float))
  | Lt => Ok (VBool (a <? b)%float)
  | Le => Ok (VBool (a <=? b)%float)
  | Gt => Ok (VBool (b <? a)%float)
  | Ge => Ok (VBool (b <=? a)%float)
  | Pow => unmodelled
  end.

Definition is_comparison (o : binop) : bool :=
  match o with
  | Eq | Ne | Lt | Le | Gt | Ge => true
  | _ => false
  end.

(** An [int] meets a [float] as a [float] in arithmetic; a comparison
    is exact, which the conversion is for a small [int]. *)
Definition arith_mixed (o : binop) (a b : num) : result (pyval unum) :=
  let exact :=
    match a, b with
    | NInt z, _ | _, NInt z => small z
    | _, _ => true
    end in
  if is_comparison o && negb exact then unmodelled
  else
    result_bind (to_float a) (fun fa =>
    result_bind (to_float b) (fun fb => arith_float o fa fb)).

Definition binop_plain (o : binop) (a b : pyval unum) : result (pyval unum) :=
  match as_num a, as_num b with
  | Some (NInt x), Some (NInt y) => arith_int o x y
  | Some (NFloat x), Some (NFloat y) => arith_float o x y
  | Some x, Some y => arith_mixed o x y
  | _, _ => unmodelled
  end.

Definition unop_plain (o : unop) (a : pyval unum) : result (pyval unum) :=
  match as_num a, o with
  | Some (NInt z), Pos => Ok (VInt z)
  | Some (NInt z), Neg => Ok (VInt (- z))
  | Some (NInt z), Abs => Ok (VInt (Z.abs z))
  | Some (NFloat f), Pos => Ok (VFloat f)
  | Some (NFloat f), Neg => Ok (VFloat (- f))
  | Some (NFloat f), Abs => Ok (VFloat (abs f))
  | None, _ => unmodelled
  end.

Definition bool_plain (a : pyval unum) : result bool :=
  match a with
  | VNone => Ok false
  | VBool b => Ok b
  | VInt z => Ok (negb (z =? 0)%Z)
  | VFloat f => Ok (negb (f =? 0)%float)
  | VComplex re im => Ok (negb (re =? 0)%float || negb (im =? 0)%float)
  | VStr s => Ok (negb (String.eqb s EmptyString))
  | VUncertain _ => unmodelled
  end.

Definition attr_plain (t : attr) (a : pyval unum) : result (pyval unum) :=
  match a, t with
  | VComplex re _, AttrReal => Ok (VFloat re)
  | VComplex _ im, AttrImag => Ok (VFloat im)
  | VComplex re im, Conjugate => Ok (VComplex re (- im))
  | VUncertain _, _ => unmodelled
  | _, AttrR => Err (Raise AttributeError "object has no attribute 'r'")
  | _, _ =>
      match as_num a, t with
      | Some (NInt z), AttrImag => Ok (VInt 0)
      | Some (NInt z), _ => Ok (VInt z)
      | Some (NFloat f), AttrImag => Ok (VFloat 0)
      | Some (NFloat f), _ => Ok (VFloat f)
      | None, _ => Err (Raise AttributeError "object has no such attribute")
      end
  end.

(** [value(x)] is [x] itself for a number. *)
Definition core_plain (f : corefn) (a : pyval unum) : result (pyval unum) :=
  match f, a with
  | Value, (VBool _ | VInt _ | VFloat _ | VComplex _ _) => Ok a
  | Value, VUncertain n => Ok (VFloat (u_x n))
  | Uncertainty, VUncertain n => Ok (VFloat (u_u n))
  | Dof, VUncertain n => Ok (VFloat (u_df n))
  | _, _ => unmodelled
  end.

Definition result_plain (a : pyval unum) (label : option (pyval unum))
  : result (pyval unum) :=
  match a, label with
  | VUncertain n, None => Ok (VUncertain (UNum (u_x n) (u_u n) (u_df n) None))
  | VUncertain n, Some (VStr s) =>
      Ok (VUncertain (UNum (u_x n) (u_u n) (u_df n) (Some s)))
  | _, _ => unmodelled
  end.

Definition str_plain (a : pyval unum) : result string :=
  match a with
  | VNone => Ok "None"
  | VBool b => Ok (if b then "True" else "False")
  | VInt z => Ok (pretty z)
  | VStr s => Ok s
  | _ => unmodelled
  end.

Definition int64 (z : Z) : bool := ((- 2 ^ 63 <=? z) && (z <? 2 ^ 63))%Z.

Definition convert_plain (d : dtype) (a : pyval unum) : result (pyval unum) :=
  match d, as_num a with
  | DInt, Some (NInt z) => if int64 z then Ok (VInt z) else unmodelled
  | DFloat, Some n => result_bind (to_float n) (fun f => Ok (VFloat f))
  | _, _ => unmodelled
  end.

(** numpy's discovery on what the environment computes: the widest of
    [bool < int64 < float], [str] for strings only, else [object]. *)
Definition kind_of (a : pyval unum) : dtype :=
  match a with
  | VBool _ => DBool
  | VInt z => if int64 z then DInt else DObject
  | VFloat _ => DFloat
  | VComplex _ _ => DComplex
  | VStr _ => DStr
  | _ => DObject
  end.

Definition numeric_rank (d : dtype) : option nat :=
  match d with
  | DBool => Some 0
  | DInt => Some 1
  | DFloat => Some 2
  | DComplex => Some 3
  | _ => None
  end.

Definition join (d1 d2 : dtype) : dtype :=
  match numeric_rank d1, numeric_rank d2 with
  | Some m, Some n => if m <? n then d2 else d1
  | _, _ =>
      match d1, d2 with
      | DStr, DStr => DStr
      | _, _ => DObject
      end
  end.

Definition discover_plain (l : list (pyval unum)) : dtype :=
  match l with
  | [] => DFloat
  | a :: t => foldl (fun d b => join d (kind_of b)) (kind_of a) t
  end.

Global Instance plain : Scalar unum := {|
  py_binop := binop_plain;
  py_unop := unop_plain;
  py_bool := bool_plain;
  py_attr := attr_plain;
  core_fn := core_plain;
  core_atan2 := fun _ _ => unmodelled;
  core_result := result_plain;
  py_str := str_plain;
  np_convert := convert_plain;
  np_discover := discover_plain
|}.

(** The methods of the elements.  An uncertain number of the
    environment is an elementary input, told from the others by its
    label: its sensitivity to itself is 1 and to another input 0, and
    its component of uncertainty is its own standard uncertainty or 0.
    A number has none of these methods. *)
Definition input_method (name : string) (y : unum)
  : result (list (pyval unum) -> result (pyval unum)) :=
  let same (x : unum) : result bool :=
    match u_label y, u_label x with
    | Some a, Some b => Ok (String.eqb a b)
    | _, _ => unmodelled
    end in
  if String.eqb name "sensitivity" then
    Ok (fun args =>
          match args with
          | [VUncertain x] =>
              result_bind (same x) (fun s => Ok (VFloat (if s then 1 else 0)))
          | _ => unmodelled
          end)
  else if String.eqb name "u_component" then
    Ok (fun args =>
          match args with
          | [VUncertain x] =>
              result_bind (same x) (fun s => Ok (VFloat (if s then u_u y else 0)))
          | _ => unmodelled
          end)
  else unmodelled.

Definition method_plain (name : string) (y : pyval unum)
  : result (list (pyval unum) -> result (pyval unum)) :=
  match y with
  | VUncertain n => input_method name n
  | _ => Err (Raise AttributeError ("object has no attribute '" +:+ name +:+ "'"))
  end.

(** [round(z, d)] of an [int] to [d >= 0] decimals is the [int]. *)
Definition round_plain (a digits : pyval unum) : result (pyval unum) :=
  match as_num a, digits with
  | Some (NInt z), VInt d => if (0 <=? d)%Z then Ok (VInt z) else unmodelled
  | _, _ => unmodelled
  end.

Global Instance plain_methods : ElementMethods unum := {|
  bound_method := method_plain;
  py_round := round_plain
|}.

Global Instance plain_ndarray : NdarrayMethods unum := {|
  ndarray_method := fun _ _ _ _ => raise Unmodelled EmptyString
|}.

End Env.

(** ** The functions of [function.py] *)

Module Function.

(** What a call can end in besides a value: a [RuntimeError] that the
    module raises itself, the [NameError] of a name that is bound
    nowhere, or the exception of an operation on the elements. *)
Inductive failure :=
| RuntimeError (msg : string)
| NameError (name : string)
| Raised (e : exn).

Inductive outcome (A : Type) : Type :=
| Return (a : A)
| Fail (f : failure).

Arguments Return {A} a.
Arguments Fail {A} f.

Definition outcome_bind {A B} (o : outcome A) (k : A -> outcome B) : outcome B :=
  match o with
  | Return a => k a
  | Fail f => Fail f
  end.

Definition of_result {A} (r : result A) : outcome A :=
  match r with
  | Ok a => Return a
  | Err e => Fail (Raised e)
  end.

Section Functions.
Context {U : Type} `{Scalar U}.

(** [EPSILON] is imported from [GTC]. *)
Variable EPSILON : float.

(** [float(x)] for a real number, as [math.fabs] and [complex] convert
    their arguments. *)
Definition float_of (x : pyval U) : result float :=
  match x with
  | VBool b => Ok (if b then 1 else 0)%float
  | VInt z =>
      if Helpers.float_overflows z then Helpers.overflow
      else Ok (Env.float_of_Z z)
  | VFloat f => Ok f
  | VUncertain _ => Err (Raise Unmodelled "float of an uncertain number")
  | _ => Err (Raise TypeError "must be real number")
  end.

(** [complex(z)] for a number: a [bool], an [int], a [float] or a
    [complex].  [complex] also parses strings and asks other objects
    for [__complex__] or [__float__]; those arguments are outside the
    model. *)
Definition complex1 (z : pyval U) : result (float * float) :=
  match z with
  | VComplex re im => Ok (re, im)
  | VBool _ | VInt _ | VFloat _ =>
      result_bind (float_of z) (fun f => Ok (f, 0%float))
  | VNone => Err (Raise TypeError "complex() argument must be a number")
  | VStr _ => Err (Raise Unmodelled "complex of a string")
  | VUncertain _ => Err (Raise Unmodelled "complex of an uncertain number")
  end.

(** [complex(a, b)] for two real numbers. *)
Definition complex2 (a b : pyval U) : result (pyval U) :=
  match a, b with
  | (VBool _ | VInt _ | VFloat _), (VBool _ | VInt _ | VFloat _) =>
      result_bind (float_of a) (fun re =>
      result_bind (float_of b) (fun im => Ok (VComplex re im)))
  | _, _ => Err (Raise Unmodelled "complex of two objects")
  end.

(** [complex_to_seq(z)], lines 106-128. *)
Definition complex_to_seq (z : pyval U) : result (list (pyval U)) :=
  result_bind (complex1 z) (fun '(re, im) =>
    Ok [VFloat re; VFloat (- im); VFloat im; VFloat re]).

(** [math.fabs(x) > EPSILON] *)
Definition exceeds (x : pyval U) : result bool :=
  result_bind (float_of x) (fun f => Ok (EPSILON <? abs f)%float).

(** [seq[i]] on a flat sequence. *)
Definition index (l : list (pyval U)) (i : nat) : result (pyval U) :=
  match l !! i with
  | Some x => Ok x
  | None => Err (Raise IndexError "index out of range")
  end.

(** A 64-bit signed integer after an operation that overflowed. *)
Definition wrap64 (z : Z) : Z := ((z + 2 ^ 63) mod 2 ^ 64 - 2 ^ 63)%Z.

(** [a - b] and [a + b] on two elements read from an array.  The
    elements of an array of kind object are the Python objects it holds,
    and those of a float array follow the same IEEE arithmetic as
    Python's [float].  The elements of an integer array are 64-bit
    numpy integers: a difference or sum out of range wraps around
    (numpy warns and goes on).  The scalars of the other kinds have
    rules of numpy's own, which are outside the model. *)
Definition element_binop (d : dtype) (o : binop) (a b : pyval U)
  : result (pyval U) :=
  match d with
  | DObject | DFloat => py_binop o a b
  | DInt =>
      match o, a, b with
      | Sub, VInt x, VInt y => Ok (VInt (wrap64 (x - y)))
      | Add, VInt x, VInt y => Ok (VInt (wrap64 (x + y)))
      | _, _, _ => Err (Raise Unmodelled "arithmetic of numpy integers")
      end
  | _ => Err (Raise Unmodelled "arithmetic of numpy scalars")
  end.

(** [math.fabs(l[i0] - l[i3]) > EPSILON or math.fabs(l[ib] + l[ic]) >
    EPSILON], the second test only when the first is false; [arith] is
    the arithmetic of the elements. *)
Definition ill_conditioned
    (arith : binop -> pyval U -> pyval U -> result (pyval U))
    (l : list (pyval U)) (i0 i3 ib ic : nat) : result bool :=
  result_bind (index l i0) (fun a =>
  result_bind (index l i3) (fun d =>
  result_bind (arith Sub a d) (fun diff =>
  result_bind (exceeds diff) (fun far =>
  if far then Ok true
  else
    result_bind (index l ib) (fun b =>
    result_bind (index l ic) (fun c =>
    result_bind (arith Add b c) exceeds)))))).

(** The part of [seq_to_complex] that the two kinds of argument share:
    the test of the four numbers, then [complex(seq[0], seq[2])] on the
    flat sequence. *)
Definition conditioned
    (arith : binop -> pyval U -> pyval U -> result (pyval U))
    (l : list (pyval U)) (i0 i3 ib ic : nat) : outcome (pyval U) :=
  outcome_bind (of_result (ill_conditioned arith l i0 i3 ib ic)) (fun ill =>
  if ill then Fail (RuntimeError "ill-conditioned sequence")
  else
    outcome_bind (of_result (index l 0)) (fun re =>
    outcome_bind (of_result (index l 2)) (fun im =>
    of_result (complex2 re im)))).

(** [seq_to_complex(seq)], lines 131-175.  In an array of shape (2,2)
    the element [seq[i,j]] is the element [2*i + j] of [seq.flat]; the
    elements of a typed array are numpy scalars, those of a sequence
    the Python objects it holds. *)
Definition seq_to_complex (st : state U) (seq : pyarg U) : outcome (pyval U) :=
  match seq with
  | Arr r =>
      match heap st !! r with
      | Some o =>
          if decide (shape o = [2; 2]) then
            (* seq[0,0] - seq[1,1], seq[1,0] + seq[0,1] *)
            conditioned (element_binop (dtype_of o)) (data o)
                        (ravel [2; 2] [0; 0]) (ravel [2; 2] [1; 1])
                        (ravel [2; 2] [1; 0]) (ravel [2; 2] [0; 1])
          else Fail (RuntimeError "array shape illegal")
      | None => Fail (Raised (Raise Unmodelled "dangling reference"))
      end
  | Seq l | FlatIter l =>
      if decide (length l = 4) then
        (* seq[0] - seq[3], seq[1] + seq[2] *)
        conditioned py_binop l 0 3 1 2
      else Fail (RuntimeError "sequence must have 4 elements")
  | Obj _ => Fail (RuntimeError "illegal argument")
  end.

(** [builtins.sum(seq)]: from the [int] 0 on. *)
Definition builtins_sum (l : list (pyval U)) : result (pyval U) :=
  foldl (fun acc b => result_bind acc (fun s => py_binop Add s b))
        (Ok (VInt 0)) l.

(** [isinstance(seq, Iterable)] *)
Definition is_Iterable (seq : pyarg U) : bool :=
  match seq with
  | Obj (VStr _) => true
  | Obj _ => false
  | _ => true
  end.

(** The elements that iterating [seq] yields, for an argument that is
    no array. *)
Definition elements (seq : pyarg U) : result (list (pyval U)) :=
  match seq with
  | Seq l | FlatIter l => Ok l
  | Obj (VStr s) => Ok (UncertainArray.chars s)
  | _ => Err (Raise TypeError "object is not iterable")
  end.

(** [sum(seq, *args, **kwargs)], lines 48-67; the arguments numpy is
    handed are modelled by the optional [axis]. *)
Definition sum (seq : pyarg U) (axis : option nat)
  : state U -> outcome (pyarg U) * state U :=
  fun st =>
    if is_ndarray seq then
      let '(x, st') := (let* a := np_asarray seq None in np_sum a axis) st in
      (of_result x, st')
    else if Helpers.is_sequence seq || is_Iterable seq then
      (outcome_bind (of_result (elements seq)) (fun l =>
       outcome_bind (of_result (builtins_sum l)) (fun s => Return (Obj s))),
       st)
    else (Fail (RuntimeError "is not iterable"), st).

(** [len(seq)] *)
Definition len (st : state U) (seq : pyarg U) : result nat :=
  match seq with
  | Arr r =>
      match heap st !! r with
      | Some o =>
          match shape o with
          | n :: _ => Ok n
          | [] => Err (Raise TypeError "len() of unsized object")
          end
      | None => Err (Raise Unmodelled "dangling reference")
      end
  | Seq l | FlatIter l => Ok (length l)
  | Obj (VStr s) => Ok (String.length s)
  | Obj _ => Err (Raise TypeError "object has no len()")
  end.

(** [x / n] for what [sum] returned. *)
Definition divide (x : pyarg U) (n : nat) : outcome (pyarg U) :=
  match x with
  | Obj s =>
      outcome_bind (of_result (py_binop TrueDiv s (VInt (Z.of_nat n))))
                   (fun q => Return (Obj q))
  | _ => Fail (Raised (Raise Unmodelled "division of an array"))
  end.

(** [mean(seq, *args, **kwargs)], lines 70-104. *)
Definition mean (seq : pyarg U) (axis : option nat)
  : state U -> outcome (pyarg U) * state U :=
  fun st =>
    if Helpers.is_sequence seq then
      (* sum(seq)/len(seq) *)
      match sum seq None st with
      | (Return total, st') =>
          (outcome_bind (of_result (len st' seq)) (divide total), st')
      | (Fail f, st') => (Fail f, st')
      end
    else if is_ndarray seq then
      let '(x, st') := (let* a := np_asarray seq None in np_mean a axis) st in
      (of_result x, st')
    else if is_Iterable seq then
      (* total = 0; for i in seq: total += i; count += 1 *)
      (outcome_bind (of_result (elements seq)) (fun l =>
       outcome_bind (of_result (builtins_sum l)) (fun total =>
       divide (Obj total) (length l))),
       st)
    else (Fail (RuntimeError "is not iterable"), st).

End Functions.

(** *** [mul2], lines 180-301 *)

Section Mul2.
Context {U : Type}.

(** Whether a name is bound when the function runs, in the module or
    among the builtins. *)
Variable bound : string -> bool.

(** [isinstance(arg, UncertainReal)], [isinstance(arg, UncertainComplex)]
    once the class names are resolved. *)
Variable is_UncertainReal is_UncertainComplex : pyval U -> bool.

(** What a call of a bound function does. *)
Variable call : string -> list (pyval U) -> outcome (pyval U).

(** The evaluation of a global or builtin name. *)
Definition name (n : string) : outcome unit :=
  if bound n then Return tt else Fail (NameError n).

(** [raise RuntimeError("uncertain number required, got: '%s'" %
    repr(arg))] *)
Definition required (arg : pyval U) : outcome (pyval U) :=
  outcome_bind (name "RuntimeError") (fun _ =>
  outcome_bind (name "repr") (fun _ =>
  Fail (RuntimeError "uncertain number required"))).

(** [f(args)] for a function known by its name. *)
Definition call_named (f : string) (args : list (pyval U)) : outcome (pyval U) :=
  outcome_bind (name f) (fun _ => call f args).

(** [isinstance(arg, (UncertainReal, UncertainComplex))] *)
Definition is_uncertain (arg : pyval U) : outcome bool :=
  outcome_bind (name "isinstance") (fun _ =>
  outcome_bind (name "UncertainReal") (fun _ =>
  outcome_bind (name "UncertainComplex") (fun _ =>
  Return (is_UncertainReal arg || is_UncertainComplex arg)))).

(** [isinstance(arg, cls)] for one class name. *)
Definition isinstance (arg : pyval U) (cls : string)
    (test : pyval U -> bool) : outcome bool :=
  outcome_bind (name "isinstance") (fun _ =>
  outcome_bind (name cls) (fun _ => Return (test arg))).

(** [_simple_variance(arg.v)]: the attribute [v] is read by the call. *)
Definition simple_variance (arg : pyval U) : outcome unit :=
  outcome_bind (call_named "_simple_variance" [arg]) (fun _ => Return tt).

Definition mul2 (arg1 arg2 : pyval U) (estimated : bool) : outcome (pyval U) :=
  (* for arg in (arg1,arg2): ... *)
  outcome_bind (is_uncertain arg1) (fun u1 =>
  if negb u1 then
    required arg1
  else
  outcome_bind (is_uncertain arg2) (fun u2 =>
  if negb u2 then
    required arg2
  else
  outcome_bind (isinstance arg1 "UncertainReal" is_UncertainReal) (fun r1 =>
  if r1 then
    outcome_bind (isinstance arg2 "UncertainReal" is_UncertainReal) (fun r2 =>
    if r2 then
      call_named "mult_2nd_real_pair" [arg1; arg2; VBool estimated]
    else
      outcome_bind (isinstance arg2 "UncertainComplex" is_UncertainComplex)
      (fun c2 =>
      if c2 then
        outcome_bind (simple_variance arg2) (fun _ =>
        call_named "mult_2nd_real_complex" [arg1; arg2; VBool estimated])
      else
        required arg2))
  else
    outcome_bind (isinstance arg1 "UncertainComplex" is_UncertainComplex)
    (fun c1 =>
    if c1 then
      outcome_bind (simple_variance arg1) (fun _ =>
      outcome_bind (isinstance arg2 "UncertainReal" is_UncertainReal) (fun r2 =>
      if r2 then
        call_named "mult_2nd_real_complex" [arg2; arg1; VBool estimated]
      else
        outcome_bind (isinstance arg2 "UncertainComplex" is_UncertainComplex)
        (fun c2 =>
        if c2 then
          outcome_bind (simple_variance arg2) (fun _ =>
          call_named "mult_2nd_complex_pair" [arg1; arg2; VBool estimated])
        else
          required arg2)))
    else
      required arg1)))).

End Mul2.

(** The names that the module binds when it is imported (lines 14-45
    and the five [def]s), and the builtins it refers to. *)
Definition module_names : list string :=
  [ "division"; "sys"; "math"; "np"; "builtins"; "Iterable"; "izip"; "xrange";
    "is_sequence"; "inf"; "EPSILON"; "InterceptSlope"; "UncertainReal";
    "scale_vector"; "__all__"; "sum"; "mean"; "complex_to_seq";
    "seq_to_complex"; "mul2" ].

Definition builtin_names : list string :=
  [ "isinstance"; "hasattr"; "len"; "list"; "complex"; "repr";
    "RuntimeError" ].

Definition in_module (n : string) : bool :=
  bool_decide (n ∈ module_names ++ builtin_names).

End Function.

(** * Properties *)

Import UncertainArray.

(** ** Flat positions and multi-indices *)

Lemma size_of_cons d t : size_of (d :: t) = d * size_of t.
Proof. reflexivity. Qed.

Lemma unravel_length sh i : length (unravel sh i) = length sh.
Proof. revert i. induction sh as [|d t IH]; intros i; simpl; [done|]. by rewrite IH. Qed.

Lemma unravel_bound sh i :
  i < size_of sh -> Forall2 (fun d k => k < d) sh (unravel sh i).
Proof.
  revert i. induction sh as [|d t IH]; intros i Hi; simpl.
  - constructor.
  - rewrite size_of_cons in Hi.
    assert (0 < size_of t) by (destruct (size_of t); lia).
    assert (0 < d) by (destruct d; lia).
    constructor.
    + apply Nat.mod_upper_bound. lia.
    + apply IH. apply Nat.mod_upper_bound. lia.
Qed.

Lemma ravel_unravel sh i : i < size_of sh -> ravel sh (unravel sh i) = i.
Proof.
  revert i. induction sh as [|d t IH]; intros i Hi; simpl in *.
  - lia.
  - fold (size_of t) in *.
    assert (0 < size_of t) by (destruct (size_of t); lia).
    rewrite IH by (apply Nat.mod_upper_bound; lia).
    rewrite Nat.mod_small.
    + pose proof (Nat.div_mod_eq i (size_of t)). lia.
    + apply Nat.Div0.div_lt_upper_bound. lia.
Qed.

Lemma clamp_index_id sh idx :
  Forall2 (fun d k => k < d) sh idx -> clamp_index sh idx = idx.
Proof.
  unfold clamp_index. induction 1 as [|d k sh idx Hk _ IH]; simpl; [done|].
  rewrite IH. destruct (Nat.eqb_spec d 1); [f_equal; lia | done].
Qed.

Lemma source_index_same sh i : i < size_of sh -> source_index sh sh i = i.
Proof.
  intros Hi. unfold source_index. rewrite Nat.sub_diag. simpl.
  rewrite clamp_index_id by (by apply unravel_bound).
  by apply ravel_unravel.
Qed.

(** numpy's rule on a few shapes: a row and a column stretched to a
    matrix, a 0-dimensional array, a vector aligned on the last axis. *)
Example broadcast_shapes_examples :
  broadcast_shapes [2; 1] [1; 3] = Some [2; 3]
  /\ broadcast_shapes [3] [2; 3] = Some [2; 3]
  /\ broadcast_shapes [] [2; 2] = Some [2; 2]
  /\ broadcast_shapes [0] [1] = Some [0]
  /\ broadcast_shapes [3] [2] = None.
Proof. repeat split; reflexivity. Qed.

Example source_index_examples :
  map (source_index [1; 3] [2; 3]) (seq 0 6) = [0; 1; 2; 0; 1; 2]
  /\ map (source_index [2; 1] [2; 3]) (seq 0 6) = [0; 0; 0; 1; 1; 1]
  /\ map (source_index [3] [2; 3]) (seq 0 6) = [0; 1; 2; 0; 1; 2]
  /\ map (source_index [] [2; 2]) (seq 0 4) = [0; 0; 0; 0].
Proof. repeat split; reflexivity. Qed.

(** ** One step of the store monad *)

Section StoreLemmas.
Context {U : Type} `{Scalar U}.

Definition set_data (o : arrobj U) (l : list (pyval U)) : arrobj U :=
  ArrObj (cls o) (shape o) (dtype_of o) l (_label o) (_broadcasted_shape o).

Definition set_heap (st : state U) (h : list (arrobj U)) : state U :=
  State h (warnings st).

Lemma set_data_id (o : arrobj U) : set_data o (data o) = o.
Proof. by destruct o. Qed.

Lemma set_heap_id (st : state U) : set_heap st (heap st) = st.
Proof. by destruct st. Qed.

Lemma bind_ok {A B} (m : M U A) (k : A -> M U B) st a st' :
  m st = (Ok a, st') -> bind m k st = k a st'.
Proof. unfold bind. by intros ->. Qed.

Lemma bind_err {A B} (m : M U A) (k : A -> M U B) st e st' :
  m st = (Err e, st') -> bind m k st = (Err e, st').
Proof. unfold bind. by intros ->. Qed.

Lemma get_obj_ok (st : state U) r o :
  heap st !! r = Some o -> get_obj r st = (Ok o, st).
Proof. unfold get_obj. by intros ->. Qed.

Lemma update_obj_ok (st : state U) r o f :
  heap st !! r = Some o ->
  update_obj r f st = (Ok tt, set_heap st (<[r := f o]> (heap st))).
Proof. unfold update_obj. by intros ->. Qed.

Lemma itemset_ok (st : state U) a i v v' o :
  heap st !! a = Some o ->
  i < length (data o) ->
  cast (dtype_of o) v = Ok v' ->
  itemset a i v st
  = (Ok tt, set_heap st (<[a := set_data o (<[i := v']> (data o))]> (heap st))).
Proof.
  intros Ho Hi Hc. unfold itemset.
  rewrite (bind_ok _ _ _ _ _ (get_obj_ok _ _ _ Ho)).
  apply Nat.ltb_lt in Hi. rewrite Hi.
  unfold lift at 1. rewrite Hc.
  unfold bind at 1. simpl.
  by rewrite (update_obj_ok _ _ _ _ Ho).
Qed.

Lemma fill_from_ok arr its : forall i f vs st o,
  heap st !! arr = Some o ->
  Forall2 (fun x v => result_bind (f x) (cast (dtype_of o)) = Ok v) its vs ->
  i + length its <= length (data o) ->
  fill_from arr i its f st
  = (Ok tt,
     set_heap st (<[arr := set_data o (take i (data o) ++ vs
                                     ++ drop (i + length its) (data o))]>
                    (heap st))).
Proof.
  induction its as [|x t IH]; intros i f vs st o Ho Hall Hlen.
  - apply Forall2_nil_inv_l in Hall as ->. simpl.
    rewrite Nat.add_0_r, take_drop, set_data_id.
    rewrite (list_insert_id _ _ _ Ho). by rewrite set_heap_id.
  - apply Forall2_cons_inv_l in Hall as (v & vs' & Hv & Hall & ->).
    simpl in Hlen. simpl.
    destruct (f x) as [w|e] eqn:Hf; simpl in Hv; [|done].
    unfold lift at 1. unfold bind at 1.
    pose proof (lookup_lt_Some _ _ _ Ho) as Harr.
    rewrite (bind_ok _ _ _ _ _ (itemset_ok st arr i w v o Ho ltac:(lia) Hv)).
    rewrite (IH (S i) f vs' _ (set_data o (<[i := v]> (data o)))).
    + simpl. unfold set_heap. simpl. f_equal. f_equal.
      rewrite list_insert_insert_eq. f_equal. unfold set_data. simpl. f_equal.
      rewrite take_insert_lt by lia.
      rewrite drop_insert_lt by lia.
      assert (is_Some (data o !! i)) as [y Hy] by (apply lookup_lt_is_Some; lia).
      rewrite (take_S_r _ _ _ Hy).
      assert (length (take i (data o)) = i) as Hl by (rewrite length_take; lia).
      rewrite insert_app_r_alt by lia.
      rewrite Hl, Nat.sub_diag. simpl.
      replace (i + S (length t)) with (S (i + length t)) by lia.
      by rewrite <- app_assoc.
    + simpl. by apply list_lookup_insert_eq.
    + done.
    + simpl. rewrite length_insert. lia.
Qed.

Lemma fill_ok arr its f vs st o :
  heap st !! arr = Some o ->
  Forall2 (fun x v => result_bind (f x) (cast (dtype_of o)) = Ok v) its vs ->
  length its = length (data o) ->
  fill arr its f st
  = (Ok tt, set_heap st (<[arr := set_data o vs]> (heap st))).
Proof.
  intros Ho Hall Hlen. unfold fill.
  rewrite (fill_from_ok arr its 0 f vs st o Ho Hall) by lia.
  simpl. rewrite Hlen, drop_all, app_nil_r. done.
Qed.

End StoreLemmas.

(** ** The engine on abstract stores *)

Ltac mred := cbv beta iota delta [bind ret lift raise].
Ltac mrun := repeat (progress (cbv beta iota delta [bind ret lift raise nth_input shape_of];
  cbn [lookup list_lookup length Nat.eqb is_ndarray negb orb])).

Section Engine.
Context {U : Type} `{Scalar U}.

Lemma lookup_alloc (h : list (arrobj U)) o : (h ++ [o]) !! length h = Some o.
Proof. by rewrite (list_lookup_middle h [] o). Qed.

Lemma insert_alloc (h : list (arrobj U)) o o' :
  <[length h := o']> (h ++ [o]) = h ++ [o'].
Proof.
  rewrite insert_app_r_alt by lia. by rewrite Nat.sub_diag.
Qed.

(** [UncertainArray(arr)] on a plain [ndarray]: a new view of the same
    kind, shape and content, without label or broadcast shape. *)
Lemma wrap_ok (st : state U) arr buf :
  heap st !! arr = Some buf ->
  cls buf = Ndarray ->
  wrap arr st
  = (Ok (Arr (length (heap st))),
     set_heap st (heap st ++ [ArrObj Uarray (shape buf) (dtype_of buf)
                                     (data buf) None None])).
Proof.
  intros Hb Hc. unfold wrap, __new__, np_asarray, view.
  mred. rewrite (get_obj_ok _ _ _ Hb). mred.
  rewrite !decide_True by done. mred.
  rewrite (get_obj_ok _ _ _ Hb). mred.
  rewrite !decide_True by done. mred.
  rewrite (get_obj_ok _ _ _ Hb). mred.
  rewrite decide_False by (rewrite Hc; done).
  unfold alloc, update_obj. mred. cbn [heap warnings].
  rewrite lookup_alloc. rewrite insert_alloc. done.
Qed.

Lemma get_obj_app (st : state U) r o l w :
  heap st !! r = Some o ->
  get_obj r (State (heap st ++ l) w) = (Ok o, State (heap st ++ l) w).
Proof.
  intros Ho. apply get_obj_ok. cbn. by apply lookup_app_l_Some.
Qed.

(** The shape of the buffer [_create_empty] allocates. *)
Definition target_shape (o : arrobj U) : shape_t :=
  match _broadcasted_shape o with
  | None => shape o
  | Some s => s
  end.

Definition empty_buffer (sh : shape_t) (d : dtype) : arrobj U :=
  ArrObj Ndarray sh d (replicate (size_of sh) (uninit d)) None None.

Lemma create_empty_arrays (st : state U) self o a b oa ob dt :
  heap st !! self = Some o ->
  heap st !! a = Some oa ->
  heap st !! b = Some ob ->
  _create_empty self (Some [Arr a; Arr b]) dt st
  = (Ok (length (heap st), map Tup (izip [data oa; data ob])),
     set_heap st (heap st ++ [empty_buffer (target_shape o) (default DObject dt)])).
Proof.
  intros Ho Ha Hb. unfold _create_empty, np_empty, alloc, nth_input, flat.
  mred. rewrite (get_obj_ok _ _ _ Ho). mred. cbn [length Nat.eqb lookup list_lookup is_ndarray].
  rewrite (get_obj_app _ _ _ _ _ Ha). mred.
  rewrite (get_obj_app _ _ _ _ _ Hb). done.
Qed.

Lemma create_empty_iters (st : state U) self o l0 l1 dt :
  heap st !! self = Some o ->
  _create_empty self (Some [FlatIter l0; FlatIter l1]) dt st
  = (Ok (length (heap st), map Tup (izip [l0; l1])),
     set_heap st (heap st ++ [empty_buffer (target_shape o) (default DObject dt)])).
Proof.
  intros Ho. unfold _create_empty, np_empty, alloc, nth_input, flat.
  mred. rewrite (get_obj_ok _ _ _ Ho). mred. done.
Qed.

Lemma izip2_Forall2 (P : item U -> pyval U -> Prop) (c : nat -> pyval U) l0 :
  forall l1 j,
  length l1 = length l0 ->
  (forall i, i < length l0 ->
     P (Tup [nth i l0 VNone; nth i l1 VNone]) (c (j + i))) ->
  Forall2 P (map Tup (izip [l0; l1])) (map c (seq j (length l0))).
Proof.
  induction l0 as [|x l0 IH]; intros [|y l1] j Hlen HP; simpl in *; try done.
  constructor.
  - specialize (HP 0 ltac:(lia)). by rewrite Nat.add_0_r in HP.
  - apply IH; [lia|]. intros i Hi. specialize (HP (S i) ltac:(lia)).
    simpl in HP. by rewrite Nat.add_succ_r in HP.
Qed.

Lemma pairwise_filled (st : state U) self o inputs scalar0 op dt wrapped its vs :
  heap st !! self = Some o ->
  shape o <> [] ->
  _create_empty self (Some inputs) dt st
  = (Ok (length (heap st), its),
     set_heap st (heap st ++ [empty_buffer (target_shape o) (default DObject dt)])) ->
  Forall2 (fun x v => result_bind (on_pair op x) (cast (default DObject dt)) = Ok v)
          its vs ->
  length its = size_of (target_shape o) ->
  let buf := ArrObj Ndarray (target_shape o) (default DObject dt) vs None None in
  pairwise self inputs scalar0 op dt wrapped st
  = if wrapped
    then (Ok (Arr (S (length (heap st)))),
          set_heap st (heap st ++ [buf; ArrObj Uarray (target_shape o)
                                          (default DObject dt) vs None None]))
    else (Ok (Arr (length (heap st))), set_heap st (heap st ++ [buf])).
Proof.
  intros Ho Hsh Hce Hall Hlen buf. unfold pairwise, ndim.
  mred. rewrite (get_obj_ok _ _ _ Ho). mred.
  destruct (shape o) as [|d sh0] eqn:Hs; [done|]. cbn [length Nat.eqb].
  rewrite Hce. mred.
  erewrite fill_ok; [| apply lookup_alloc | exact Hall
                     | by rewrite Hlen; cbn; rewrite length_replicate ].
  mred. cbn [set_heap heap warnings]. rewrite insert_alloc.
  destruct wrapped.
  - erewrite wrap_ok; [| cbn [heap]; apply lookup_alloc | done ].
    cbn. rewrite length_app. cbn. rewrite Nat.add_1_r.
    by rewrite <- app_assoc.
  - done.
Qed.

Definition set_bshape (o : arrobj U) (s : option shape_t) : arrobj U :=
  ArrObj (cls o) (shape o) (dtype_of o) (data o) (_label o) s.

Lemma set_broadcasted_shape_ok (st : state U) a oa s :
  heap st !! a = Some oa ->
  set_broadcasted_shape a s st
  = (Ok tt, set_heap st (<[a := set_bshape oa s]> (heap st))).
Proof. intros Ha. unfold set_broadcasted_shape. by rewrite (update_obj_ok _ _ _ _ Ha). Qed.

(** Writing the broadcast shape of one object leaves the shape and the
    content of every object as they were. *)
Lemma lookup_set_bshape (h : list (arrobj U)) a oa s r o :
  h !! a = Some oa ->
  h !! r = Some o ->
  exists o', <[a := set_bshape oa s]> h !! r = Some o'
    /\ shape o' = shape o /\ data o' = data o.
Proof.
  intros Ha Hr. destruct (decide (a = r)) as [->|Hne].
  - rewrite list_lookup_insert_eq by (by eapply lookup_lt_Some).
    exists (set_bshape oa s). by simplify_eq.
  - rewrite list_lookup_insert_ne by done. by exists o.
Qed.

Lemma broadcast_rev_same r : broadcast_rev r r = Some r.
Proof.
  induction r as [|d t IH]; [done|]. simpl. rewrite IH.
  by rewrite Nat.eqb_refl.
Qed.

Lemma broadcast_shapes_same s : broadcast_shapes s s = Some s.
Proof.
  unfold broadcast_shapes. by rewrite broadcast_rev_same, rev_involutive.
Qed.

(** Element [i] of the broadcast view of [o] at shape [tgt]. *)
Definition broadcast_elem (o : arrobj U) (tgt : shape_t) (i : nat) : pyval U :=
  nth (source_index (shape o) tgt i) (data o) VNone.

Definition well_formed (o : arrobj U) : Prop :=
  length (data o) = size_of (shape o).

Lemma broadcast_iter_length (o : arrobj U) tgt :
  length (broadcast_iter o tgt) = size_of tgt.
Proof. unfold broadcast_iter. by rewrite length_map, length_seq. Qed.

Lemma broadcast_iter_nth (o : arrobj U) tgt i :
  i < size_of tgt ->
  nth i (broadcast_iter o tgt) VNone = broadcast_elem o tgt i.
Proof.
  intros Hi. unfold broadcast_iter, broadcast_elem.
  apply nth_lookup_Some. rewrite list_lookup_fmap.
  by rewrite lookup_seq_lt.
Qed.

(** Broadcasting an array to its own shape shows the array. *)
Lemma broadcast_elem_same (o : arrobj U) i :
  i < size_of (shape o) ->
  broadcast_elem o (shape o) i = nth i (data o) VNone.
Proof. intros Hi. unfold broadcast_elem. by rewrite source_index_same. Qed.

Lemma getattr_add : getattr methods "_add" = Some _add.
Proof. reflexivity. Qed.

(** C1 (as amended).  For two arrays [a] and [b] of broadcast-compatible
    shapes, [a] with at least one axis, the addition [a + b] that numpy
    dispatches to [a.__array_ufunc__] returns a new [UncertainArray] whose
    shape is the broadcast of the two shapes and whose flat element [i]
    is the scalar sum of the broadcast elements [i] of [a] and of [b]. *)
Theorem C1_add_broadcasts (st : state U) (a b : ref) (oa ob : arrobj U)
    (sh : shape_t) (c : nat -> pyval U) :
  heap st !! a = Some oa ->
  heap st !! b = Some ob ->
  well_formed oa ->
  well_formed ob ->
  shape oa <> [] ->
  broadcast_shapes (shape oa) (shape ob) = Some sh ->
  (forall i, i < size_of sh ->
     py_binop Add (broadcast_elem oa sh i) (broadcast_elem ob sh i) = Ok (c i)) ->
  exists st' r o,
    __array_ufunc__ a "add" "__call__" [Arr a; Arr b] [] st = (Ok (Arr r), st')
    /\ length (heap st) <= r
    /\ heap st' !! r = Some o
    /\ cls o = Uarray
    /\ shape o = sh
    /\ data o = map c (seq 0 (size_of sh)).
Proof.
  intros Ha Hb Wa Wb Hnd Hbs Hadd.
  unfold __array_ufunc__.
  change ("_" +:+ "add") with "_add". rewrite getattr_add.
  mrun.
  rewrite (set_broadcasted_shape_ok _ _ _ _ Ha). mrun.
  set (st1 := set_heap st (<[a := set_bshape oa None]> (heap st))).
  assert (heap st1 !! a = Some (set_bshape oa None)) as Ha1.
  { apply list_lookup_insert_eq. by eapply lookup_lt_Some. }
  destruct (lookup_set_bshape _ a oa None b ob Ha Hb) as (ob1 & Hb1 & Hsb & Hdb).
  fold st1 in Hb1 |- *. change (<[a:=set_bshape oa None]> (heap st)) with (heap st1) in Hb1.
  assert (length (heap st1) = length (heap st)) as Hl1 by apply length_insert.
  rewrite (get_obj_ok _ _ _ Ha1). mrun. rewrite (get_obj_ok _ _ _ Hb1). mrun.
  cbn [shape set_bshape]. rewrite Hsb.
  destruct (decide (shape oa = shape ob)) as [Heq|Hne].
  - (* equal shapes: the arrays are iterated as they are *)
    rewrite <- Heq, broadcast_shapes_same in Hbs. injection Hbs as <-.
    unfold _add, arith.
    erewrite (pairwise_filled st1 a (set_bshape oa None) _ _ _ None true
                _ (map c (seq 0 (size_of (shape oa))))); 
      [ | exact Ha1 | done
        | apply (create_empty_arrays _ _ _ _ _ _ _ _ Ha1 Ha1 Hb1) | | ].
    + cbn [target_shape set_bshape _broadcasted_shape default].
      eexists _, _, _. split; [reflexivity|].
      split; [lia|]. split.
      { cbn [set_heap heap]. rewrite Hl1.
        rewrite lookup_app_r by lia.
        replace (S (length (heap st)) - length (heap st1)) with 1 by lia.
        reflexivity. }
      done.
    + cbn [set_bshape data default]. rewrite Hdb.
      rewrite <- Wa.
      apply izip2_Forall2; [unfold well_formed in *; congruence|].
      intros i Hi. cbn. rewrite Wa in Hi.
      specialize (Hadd i Hi). rewrite broadcast_elem_same in Hadd by done.
      rewrite Heq in Hadd. rewrite broadcast_elem_same in Hadd by congruence.
      by rewrite Hadd.
    + cbn [target_shape set_bshape _broadcasted_shape data].
      rewrite length_map. unfold izip.
      rewrite length_zip_with_l_eq; [done|].
      rewrite length_map, Hdb. unfold well_formed in *; congruence.
  - (* different shapes: np.broadcast *)
    unfold np_broadcast. mred.
    rewrite (get_obj_ok _ _ _ Ha1). mred. rewrite (get_obj_ok _ _ _ Hb1). mred.
    cbn [shape set_bshape]. rewrite Hsb, Hbs. mred.
    rewrite (set_broadcasted_shape_ok _ _ _ _ Ha1). mred.
    set (st2 := set_heap st1 _).
    assert (heap st2 !! a = Some (set_bshape (set_bshape oa None) (Some sh))) as Ha2.
    { apply list_lookup_insert_eq. by eapply lookup_lt_Some. }
    assert (length (heap st2) = length (heap st)) as Hl2.
    { unfold st2. cbn. by rewrite length_insert. }
    unfold _add, arith.
    erewrite (pairwise_filled st2 a _ _ _ _ None true
                _ (map c (seq 0 (size_of sh))));
      [ | exact Ha2 | done
        | apply (create_empty_iters _ _ _ _ _ _ Ha2) | | ].
    + cbn [target_shape set_bshape _broadcasted_shape default].
      eexists _, _, _. split; [reflexivity|].
      split; [lia|]. split.
      { cbn [set_heap heap]. 
        rewrite lookup_app_r by lia.
        replace (S (length (heap st2)) - length (heap st2)) with 1 by lia.
        reflexivity. }
      done.
    + cbn [default].
      rewrite <- (broadcast_iter_length (set_bshape oa None) sh).
      apply izip2_Forall2; [by rewrite !broadcast_iter_length|].
      intros i Hi. rewrite broadcast_iter_length in Hi.
      rewrite !broadcast_iter_nth by done.
      assert (broadcast_elem (set_bshape oa None) sh i = broadcast_elem oa sh i)
        as -> by done.
      assert (broadcast_elem ob1 sh i = broadcast_elem ob sh i)
        as -> by (unfold broadcast_elem; by rewrite Hsb, Hdb).
      unfold on_pair, unpack2. cbn [result_bind].
      by rewrite (Hadd i Hi).
    + cbn [target_shape set_bshape _broadcasted_shape].
      rewrite length_map. unfold izip.
      rewrite length_zip_with_l_eq; [apply broadcast_iter_length|].
      by rewrite length_map, !broadcast_iter_length.
Qed.
End Engine.

(** ** Handlers that return a plain [bool] array *)

Section BooleanResults.
Context {U : Type} `{Scalar U}.

(** [reads P m]: [m] never writes, and what it returns satisfies [P]. *)
Definition reads {A} (P : A -> Prop) (m : M U A) : Prop :=
  forall st x st', m st = (x, st') ->
    st' = st /\ forall a, x = Ok a -> P a.

Lemma reads_bind {A B} (P : A -> Prop) (Q : B -> Prop) (m : M U A)
    (k : A -> M U B) :
  reads P m -> (forall a, P a -> reads Q (k a)) -> reads Q (bind m k).
Proof.
  intros Hm Hk st x st'. unfold bind.
  destruct (m st) as [[a|e] st1] eqn:E; intros E'.
  - apply Hm in E as [-> Ha]. eapply Hk; [by apply Ha|done].
  - apply Hm in E as [-> _]. by simplify_eq.
Qed.

Lemma reads_weaken {A} (P Q : A -> Prop) (m : M U A) :
  reads P m -> (forall a, P a -> Q a) -> reads Q m.
Proof. intros Hm HPQ st x st' E. apply Hm in E as [-> Ha]. naive_solver. Qed.

Lemma reads_ret {A} (P : A -> Prop) (a : A) : P a -> reads P (ret (U := U) a).
Proof. intros Ha st x st' [= <- <-]. split; [done|]. by intros ? [= <-]. Qed.

Lemma reads_raise {A} (P : A -> Prop) c msg : reads P (raise (U := U) c msg).
Proof. by intros st x st' [= <- <-]. Qed.

Lemma reads_lift {A} (r : result A) : reads (fun _ => True) (lift (U := U) r).
Proof. by intros st x st' [= <- <-]. Qed.

Lemma reads_get_obj r : reads (fun _ => True) (get_obj (U := U) r).
Proof.
  intros st x st'. unfold get_obj. by destruct (heap st !! r); intros [= <- <-].
Qed.

Ltac reads_tac :=
  repeat first
    [ apply reads_ret; try done
    | apply reads_raise
    | apply reads_lift
    | apply reads_get_obj
    | eapply reads_bind; [|intros ? ?]
    | match goal with
      | |- reads _ (match ?x with _ => _ end) => destruct x
      | |- reads _ (if ?b then _ else _) => destruct b
      end ].

Lemma reads_flat x : reads (fun _ => True) (flat (U := U) x).
Proof. unfold flat. reads_tac. Qed.

Lemma reads_item0 x : reads (fun _ => True) (item0 (U := U) x).
Proof. unfold item0. reads_tac. Qed.

Lemma reads_nth_input inputs k :
  reads (fun _ => True) (nth_input (U := U) inputs k).
Proof. unfold nth_input. reads_tac. Qed.

Lemma reads_iter_of x : reads (fun _ => True) (iter_of (U := U) x).
Proof. unfold iter_of. reads_tac. Qed.

Lemma reads_iter_all inputs : reads (fun _ => True) (iter_all (U := U) inputs).
Proof.
  induction inputs as [|x t IH]; simpl; [by apply reads_ret|].
  eapply reads_bind; [apply reads_iter_of|]. intros l _.
  eapply reads_bind; [exact IH|]. intros ls _. by apply reads_ret.
Qed.

(** A successful [_create_empty] has appended the empty buffer and
    nothing else. *)
Lemma create_empty_inv (st : state U) self o inputs dt arr it st1 :
  heap st !! self = Some o ->
  _create_empty self inputs dt st = (Ok (arr, it), st1) ->
  arr = length (heap st)
  /\ st1 = set_heap st (heap st ++ [empty_buffer (target_shape o) (default DObject dt)]).
Proof.
  intros Ho. unfold _create_empty.
  rewrite (bind_ok _ _ _ _ _ (get_obj_ok _ _ _ Ho)).
  unfold np_empty. erewrite bind_ok by reflexivity.
  match goal with
  | |- ?m ?s = _ -> _ =>
      assert (reads (fun p : ref * list (item U) => p.1 = length (heap st)) m)
        as Hro
  end.
  { repeat first
      [ apply reads_flat | apply reads_nth_input | apply reads_iter_all
      | apply reads_ret; done
      | eapply reads_bind; [|intros ? ?]
      | match goal with
        | |- reads _ (match ?x with _ => _ end) => destruct x
        | |- reads _ (if ?b then _ else _) => destruct b
        end ]. }
  intros E. apply Hro in E as [-> E]. specialize (E _ eq_refl).
  cbn in E. by subst arr.
Qed.

Definition is_bool (v : pyval U) : Prop := exists b, v = VBool b.

(** A plain [ndarray] of kind [bool] whose elements are all [bool]s. *)
Definition bool_ndarray (o : arrobj U) : Prop :=
  cls o = Ndarray /\ dtype_of o = DBool /\ Forall is_bool (data o).

Lemma cast_bool (v v' : pyval U) : cast DBool v = Ok v' -> is_bool v'.
Proof.
  unfold cast. destruct (py_bool v) as [b|e]; simpl; [|done].
  intros [= <-]. by exists b.
Qed.

Lemma itemset_inv (st st' : state U) a i v o :
  heap st !! a = Some o ->
  itemset a i v st = (Ok tt, st') ->
  exists v', cast (dtype_of o) v = Ok v'
    /\ st' = set_heap st (<[a := set_data o (<[i := v']> (data o))]> (heap st)).
Proof.
  intros Ho. unfold itemset.
  rewrite (bind_ok _ _ _ _ _ (get_obj_ok _ _ _ Ho)).
  destruct (i <? length (data o)); [|done].
  unfold lift, bind at 1. destruct (cast (dtype_of o) v) as [v'|e]; [|done].
  rewrite (update_obj_ok _ _ _ _ Ho). intros [= <-]. by exists v'.
Qed.

(** Filling keeps a [bool] buffer a [bool] buffer, of the same shape,
    and touches no other object. *)
Lemma fill_from_bool arr its : forall i f (st st' : state U) o,
  heap st !! arr = Some o ->
  bool_ndarray o ->
  fill_from arr i its f st = (Ok tt, st') ->
  exists o', st' = set_heap st (<[arr := o']> (heap st))
    /\ bool_ndarray o' /\ shape o' = shape o.
Proof.
  induction its as [|x t IH]; intros i f st st' o Ho Hb; simpl.
  - intros [= <-]. exists o. by rewrite (list_insert_id _ _ _ Ho), set_heap_id.
  - unfold lift, bind at 1. destruct (f x) as [w|e]; [|done].
    unfold bind at 1.
    destruct (itemset arr i w st) as [[[]|e] st1] eqn:E; [|done].
    apply (itemset_inv _ _ _ _ _ _ Ho) in E as (v' & Hc & ->).
    destruct Hb as (Hcls & Hdt & Hall). rewrite Hdt in Hc.
    intros E.
    eapply (IH _ _ _ _ (set_data o (<[i := v']> (data o)))) in E as (o' & -> & Hb' & Hs').
    + exists o'. cbn. by rewrite list_insert_insert_eq.
    + cbn. apply list_lookup_insert_eq. by eapply lookup_lt_Some.
    + repeat split; try done. cbn.
      apply Forall_insert; [done|]. by eapply cast_bool.
Qed.

(** What a boolean-producing handler returns: a reference to a new plain
    [bool] array of the shape that [_create_empty] resolved, every older
    object being as before. *)
Definition bool_result (st : state U) (o : arrobj U) (v : pyarg U)
    (st' : state U) : Prop :=
  exists r o',
    v = Arr r /\ r = length (heap st)
    /\ heap st' !! r = Some o'
    /\ bool_ndarray o'
    /\ shape o' = target_shape o
    /\ forall r' x, heap st !! r' = Some x -> heap st' !! r' = Some x.

Lemma bool_loop (st st' : state U) self o inputs f v :
  heap st !! self = Some o ->
  (let* '(arr, iterator) := _create_empty self inputs (Some DBool) in
   let* _ := fill arr iterator f in
   ret (Arr arr)) st = (Ok v, st') ->
  bool_result st o v st'.
Proof.
  intros Ho. unfold bind at 1.
  destruct (_create_empty self inputs (Some DBool) st) as [[[arr it]|e] st1] eqn:E;
    [|done].
  apply (create_empty_inv _ _ _ _ _ _ _ _ Ho) in E as [-> ->].
  unfold bind at 1, fill.
  destruct (fill_from _ _ _ _ _) as [[[]|e] st2] eqn:E; [|done].
  assert (bool_ndarray (empty_buffer (U := U) (target_shape o) DBool)) as Hb0.
  { repeat split; try done. cbn. apply Forall_replicate. by exists false. }
  cbn [default] in E.
  apply (fill_from_bool _ _ _ _
           (set_heap st (heap st ++ [empty_buffer (target_shape o) DBool]))
           _ _ (lookup_alloc _ _) Hb0) in E
    as (o' & -> & Hb & Hs).
  unfold ret. intros E'. simplify_eq. exists (length (heap st)), o'. cbn.
  rewrite insert_alloc, lookup_alloc. split_and!; try done.
  intros r' x Hx. by apply lookup_app_l_Some.
Qed.

Lemma pairwise_bool (st st' : state U) self o inputs scalar0 op v :
  heap st !! self = Some o ->
  shape o <> [] ->
  pairwise self inputs scalar0 op (Some DBool) false st = (Ok v, st') ->
  bool_result st o v st'.
Proof.
  intros Ho Hs. unfold pairwise, ndim.
  mred. rewrite (get_obj_ok _ _ _ Ho). mred.
  destruct (shape o); [done|]. cbn [length Nat.eqb].
  intros E. eapply bool_loop; [exact Ho | exact E].
Qed.

Lemma elementwise_inputs_bool (st st' : state U) self o inputs op0 op v :
  heap st !! self = Some o ->
  shape o <> [] ->
  elementwise_inputs self inputs op0 op (Some DBool) false st = (Ok v, st') ->
  bool_result st o v st'.
Proof.
  intros Ho Hs. unfold elementwise_inputs, ndim.
  mred. rewrite (get_obj_ok _ _ _ Ho). mred.
  destruct (shape o); [done|]. cbn [length Nat.eqb].
  intros E. eapply bool_loop; [exact Ho | exact E].
Qed.

(** The ufuncs whose handler fills a [bool] buffer. *)
Definition boolean_ufuncs : list string :=
  [ "equal"; "not_equal"; "less"; "less_equal"; "greater"; "greater_equal";
    "isnan"; "isinf"; "isfinite"; "logical_not" ].

(** C4 (as amended).  On an array with at least one axis, each of the
    handlers of [==], [!=], [<], [<=], [>], [>=], [isnan], [isinf],
    [isfinite] and [logical_not] that returns, returns a new plain
    [ndarray] of kind [bool] whose elements are all [bool]s, never an
    [UncertainArray]. *)
Lemma boolean_handlers_return_bool_ndarray (name : string)
    (attr : ref -> list (pyarg U) -> M U (pyarg U)) (self : ref)
    (inputs : list (pyarg U)) (st st' : state U) (o : arrobj U) (v : pyarg U) :
  name ∈ boolean_ufuncs ->
  getattr methods ("_" +:+ name) = Some attr ->
  heap st !! self = Some o ->
  shape o <> [] ->
  attr self inputs st = (Ok v, st') ->
  bool_result st o v st'.
Proof.
  intros Hin Hattr Ho Hs.
  unfold boolean_ufuncs in Hin.
  repeat (apply elem_of_cons in Hin as [->|Hin]);
    [ .. | by apply elem_of_nil in Hin ];
    injection Hattr as <-;
    first [ by apply pairwise_bool
          | by apply elementwise_inputs_bool
          | by apply bool_loop ].
Qed.
End BooleanResults.

(** ** Errors raised by the dispatcher and the reductions *)

Section Errors.
Context {U : Type} `{Scalar U}.

(** [fails m]: [m] raises from every store. *)
Definition fails {A} (m : M U A) : Prop :=
  forall st, exists e st', m st = (Err e, st').

Lemma fails_raise {A} c msg : fails (raise (U := U) (A := A) c msg).
Proof. intros st. by eexists _, _. Qed.

Lemma fails_bind {A B} (m : M U A) (k : A -> M U B) :
  (forall a, fails (k a)) -> fails (bind m k).
Proof.
  intros Hk st. unfold bind. destruct (m st) as [[a|e] st1].
  - apply Hk.
  - by eexists _, _.
Qed.

Definition xor_message : string :=
  "Boolean bitwise operations are not defined for `UncertainArray`".

Lemma getattr_logical_xor : getattr methods "_logical_xor" = Some _logical_xor.
Proof. reflexivity. Qed.

Lemma logical_xor_never_returns self method inputs kwargs :
  fails (__array_ufunc__ self "logical_xor" method inputs kwargs).
Proof.
  unfold __array_ufunc__.
  change ("_" +:+ "logical_xor") with "_logical_xor".
  rewrite getattr_logical_xor.
  apply fails_bind. intros _.
  destruct (length inputs =? 1); [apply fails_raise|].
  destruct (length inputs =? 2); [|apply fails_raise].
  repeat (apply fails_bind; intros ?). apply fails_raise.
Qed.

(** C10 (as amended).  [logical_xor] dispatched through
    [__array_ufunc__] never returns, whatever the array, the inputs and
    the keyword arguments: it raises.  With one input, and with two
    arrays whose shapes are equal or broadcast-compatible, the exception
    is the [TypeError] of the handler.  (Two arrays whose shapes cannot
    be broadcast get the [ValueError] of [np.broadcast] instead.) *)
Theorem C10_logical_xor_raises (self : ref) (method : string)
    (inputs : list (pyarg U)) (kwargs : list (string * pyarg U))
    (st : state U) :
  (exists e st',
     __array_ufunc__ self "logical_xor" method inputs kwargs st = (Err e, st'))
  /\ (forall x, inputs = [x] ->
      exists st',
        __array_ufunc__ self "logical_xor" method inputs kwargs st
        = (Err (Raise TypeError xor_message), st'))
  /\ (forall a b o oa ob,
      inputs = [Arr a; Arr b] ->
      heap st !! self = Some o ->
      heap st !! a = Some oa ->
      heap st !! b = Some ob ->
      is_Some (broadcast_shapes (shape oa) (shape ob)) ->
      exists st',
        __array_ufunc__ self "logical_xor" method inputs kwargs st
        = (Err (Raise TypeError xor_message), st')).
Proof.
  split; [apply logical_xor_never_returns|]. split.
  - intros x ->. unfold __array_ufunc__.
    change ("_" +:+ "logical_xor") with "_logical_xor".
    rewrite getattr_logical_xor. 
    destruct kwargs; mrun; by eexists.
  - intros a b o oa ob -> Ho Ha Hb [sh Hsh]. unfold __array_ufunc__.
    change ("_" +:+ "logical_xor") with "_logical_xor".
    rewrite getattr_logical_xor.
    assert (forall st0 : state U, heap st0 = heap st ->
      exists st',
        (let* _ := set_broadcasted_shape self None in
         let* y0 := nth_input [Arr a; Arr b] 0 in
         let* y1 := nth_input [Arr a; Arr b] 1 in
         let* s0 := shape_of y0 in
         let* s1 := shape_of y1 in
         let* inputs :=
           if decide (s0 = s1) then ret [Arr a; Arr b]
           else
             match y0, y1 with
             | Arr a, Arr b =>
                 let* '(sh, (i0, i1)) := np_broadcast a b in
                 let* _ := set_broadcasted_shape self (Some sh) in
                 ret [FlatIter i0; FlatIter i1]
             | _, _ => raise Unmodelled "broadcast of a non-array"
             end in
         _logical_xor self inputs) st0
        = (Err (Raise TypeError xor_message), st')) as Hgo.
    { intros st0 Hh. rewrite <- Hh in Ho, Ha, Hb.
      rewrite (bind_ok _ _ _ _ _ (set_broadcasted_shape_ok _ _ _ _ Ho)).
      destruct (lookup_set_bshape _ self o None a oa Ho Ha) as (oa1 & Ha1 & Hsa & _).
      destruct (lookup_set_bshape _ self o None b ob Ho Hb) as (ob1 & Hb1 & Hsb & _).
      set (st1 := set_heap st0 _) in *.
      assert (heap st1 !! self = Some (set_bshape o None)) as Ho1.
      { apply list_lookup_insert_eq. by eapply lookup_lt_Some. }
      mrun. rewrite (get_obj_ok st1 a oa1 Ha1). mrun.
      rewrite (get_obj_ok st1 b ob1 Hb1). mrun.
      destruct (decide (shape oa1 = shape ob1)); mrun; [by eexists|].
      unfold np_broadcast. mrun.
      rewrite (get_obj_ok st1 a oa1 Ha1). mrun.
      rewrite (get_obj_ok st1 b ob1 Hb1). mrun.
      rewrite Hsa, Hsb, Hsh. mrun.
      rewrite (set_broadcasted_shape_ok _ _ _ _ Ho1). mrun. by eexists. }
    destruct kwargs; mrun.
    + apply Hgo. done.
    + unfold warn. mrun. apply Hgo. done.
Qed.

(** C6.  [std] and [var] raise [TypeError] whatever the array, the
    arguments and the store, and leave the store as it is. *)
Theorem C6_std_var_raise (self : ref) (args : list (pyarg U))
    (kwargs : list (string * pyarg U)) (st : state U) :
  std self args kwargs st
    = (Err (Raise TypeError "`std` is not defined for `UncertainArray`"), st)
  /\ var self args kwargs st
    = (Err (Raise TypeError "`var` is not defined for `UncertainArray`"), st).
Proof. split; reflexivity. Qed.
End Errors.

(** ** Construction *)

Section Construction.
Context {U : Type} `{Scalar U}.

Lemma map_result_cast_object (l : list (pyval U)) :
  map_result (cast DObject) l = Ok l.
Proof. induction l as [|v l IH]; [done|]. simpl. by rewrite IH. Qed.

(** The element kind of an input whose type is exactly [numpy.ndarray]. *)
Definition ndarray_dtype (st : state U) (array : pyarg U) : option dtype :=
  match array with
  | Arr r =>
      match heap st !! r with
      | Some o => if decide (cls o = Ndarray) then Some (dtype_of o) else None
      | None => None
      end
  | _ => None
  end.

(** A view as [UncertainArray] of an object in the store. *)
Lemma view_ok (st : state U) r o :
  heap st !! r = Some o ->
  exists lbl,
    view r st
    = (Ok (length (heap st)),
       set_heap st (heap st ++ [ArrObj Uarray (shape o) (dtype_of o) (data o)
                                       lbl None])).
Proof.
  intros Ho. unfold view. rewrite (bind_ok _ _ _ _ _ (get_obj_ok _ _ _ Ho)).
  by eexists.
Qed.

(** What [__new__] does once [np.asarray] has given the array [a]. *)
Lemma new_tail (st : state U) a o label :
  heap st !! a = Some o ->
  (let* obj := view a in
   let* _ := update_obj obj (fun o =>
     ArrObj (cls o) (shape o) (dtype_of o) (data o) label
            (_broadcasted_shape o)) in
   ret obj) st
  = (Ok (length (heap st)),
     set_heap st (heap st ++ [ArrObj Uarray (shape o) (dtype_of o) (data o)
                                     label None])).
Proof.
  intros Ho. destruct (view_ok _ _ _ Ho) as [lbl Hv].
  rewrite (bind_ok _ _ _ _ _ Hv). unfold update_obj. mred. cbn [set_heap heap].
  rewrite lookup_alloc. cbn. by rewrite insert_alloc.
Qed.

(** C8 (as amended).  Constructing an [UncertainArray] from an input
    whose type is exactly [numpy.ndarray] gives the element kind of that
    input, whatever the hint; from any other input without a hint it
    gives the object kind. *)
Theorem C8_constructed_dtype (array : pyarg U) (hint : option dtype)
    (label : option string) (st : state U) :
  (forall r, array = Arr r -> is_Some (heap st !! r)) ->
  is_Some (ndarray_dtype st array) \/ hint = None ->
  exists r st' o,
    __new__ array hint label st = (Ok r, st')
    /\ heap st' !! r = Some o
    /\ cls o = Uarray
    /\ dtype_of o = default DObject (ndarray_dtype st array)
    /\ _label o = label.
Proof.
  intros Hdom Hcase. unfold __new__.
  set (tail := fun a : ref => bind (view a) _).
  assert (forall (st1 : state U) a o,
    heap st1 !! a = Some o ->
    exists r st' o',
      tail a st1 = (Ok r, st')
      /\ heap st' !! r = Some o' /\ cls o' = Uarray
      /\ dtype_of o' = dtype_of o /\ _label o' = label) as Htail.
  { intros st1 a o Ho. unfold tail. rewrite (new_tail _ _ _ _ Ho).
    eexists _, _, _. split; [done|]. cbn. by rewrite lookup_alloc. }
  clearbody tail.
  assert (forall (st1 : state U) o d,
    dtype_of o = d ->
    exists r st' o',
      tail (length (heap st1)) (set_heap st1 (heap st1 ++ [o])) = (Ok r, st')
      /\ heap st' !! r = Some o' /\ cls o' = Uarray
      /\ dtype_of o' = d /\ _label o' = label) as Hnew.
  { intros st1 o d <-. apply Htail. apply lookup_alloc. }
  destruct array as [r|v|l|l]; cbn [ndarray_dtype] in *.
  - destruct (Hdom r eq_refl) as [o Ho]. rewrite Ho in *.
    mred. rewrite (get_obj_ok _ _ _ Ho). mred.
    destruct (decide (cls o = Ndarray)) as [Hc|Hc].
    + unfold np_asarray. mred. rewrite (get_obj_ok _ _ _ Ho). mred.
      cbn [default from_option id]. rewrite !decide_True by done. mred.
      exact (Htail _ _ _ Ho).
    + destruct Hcase as [[? [=]]| ->]. unfold np_asarray. mred.
      rewrite (get_obj_ok _ _ _ Ho). mred. cbn [default from_option id].
      destruct (decide (dtype_of o = DObject)) as [Hd|Hd].
      * rewrite decide_False by done. unfold alloc. by apply (Hnew _ _ DObject).
      * rewrite map_result_cast_object. unfold alloc. by apply (Hnew _ _ DObject).
  - destruct Hcase as [[? [=]]| ->]. unfold np_asarray, alloc. mred.
    cbn [default from_option id cast]. mred. by apply (Hnew _ _ DObject).
  - destruct Hcase as [[? [=]]| ->]. unfold np_asarray, alloc. mred.
    cbn [default from_option id]. rewrite map_result_cast_object. by apply (Hnew _ _ DObject).
  - destruct Hcase as [[? [=]]| ->]. unfold np_asarray, alloc. mred.
    cbn [default from_option id]. rewrite map_result_cast_object. by apply (Hnew _ _ DObject).
Qed.
End Construction.

(** ** Labels of intermediate results *)

Section Labels.
Context {U : Type} `{Scalar U}.

Lemma labels_x3 :
  map (indexed_label (U := U) "x") (seq 0 3)
  = [VStr "x[0]"; VStr "x[1]"; VStr "x[2]"].
Proof. reflexivity. Qed.

(** X28.  On an array of three elements whose [_broadcasted_shape] is
    [None], as the constructor leaves it, registering intermediate
    results with the one shared label ["x"] hands the elements, in flat
    order, to [result] with the labels ["x[0]"], ["x[1]"], ["x[2]"]; the
    returned [UncertainArray] has the shape of the array and holds what
    [result] gave. *)
Theorem shared_label_is_indexed (st : state U) (self : ref)
    (o : arrobj U) (x0 x1 x2 y0 y1 y2 : pyval U) :
  heap st !! self = Some o ->
  size_of (shape o) = 3 ->
  data o = [x0; x1; x2] ->
  _broadcasted_shape o = None ->
  core_result x0 (Some (VStr "x[0]")) = Ok y0 ->
  core_result x1 (Some (VStr "x[1]")) = Ok y1 ->
  core_result x2 (Some (VStr "x[2]")) = Ok y2 ->
  exists st' r o',
    _intermediate self (Some (Obj (VStr "x"))) st = (Ok (Arr r), st')
    /\ heap st' !! r = Some o'
    /\ cls o' = Uarray
    /\ shape o' = shape o
    /\ data o' = [y0; y1; y2].
Proof.
  intros Ho Hsize Hdata Hbs H0 H1 H2.
  assert (shape o <> []) as Hsh by (intros E; by rewrite E in Hsize).
  assert (target_shape o = shape o) as Ht by (unfold target_shape; by rewrite Hbs).
  unfold _intermediate. mred.
  rewrite (get_obj_ok _ _ _ Ho). mred.
  rewrite Hsize. cbn [Nat.ltb Nat.leb Helpers.is_sequence negb andb label_text].
  mred. rewrite labels_x3.
  unfold np_asarray, alloc. mred.
  cbn [default from_option discover forallb is_str andb map_result cast
       result_bind length].
  rewrite decide_False by done.
  set (st1 := State _ _).
  assert (heap st1 !! self = Some o) as Ho1 by (by apply lookup_app_l_Some).
  assert (heap st1 !! length (heap st) = Some
            (ArrObj Ndarray [3] DStr [VStr "x[0]"; VStr "x[1]"; VStr "x[2]"]
                    None None)) as Hl1 by apply lookup_alloc.
  rewrite (create_empty_arrays st1 self o self (length (heap st)) _ _ None
             Ho1 Ho1 Hl1).
  cbn [data default from_option id]. rewrite Hdata, Ht. cbn [izip zip_with map].
  erewrite (fill_ok _ _ _ [y0; y1; y2]);
    [ | apply lookup_alloc | | cbn; by rewrite length_replicate ].
  - cbn [set_heap heap warnings]. rewrite insert_alloc.
    erewrite wrap_ok; [ | cbn [heap]; apply lookup_alloc | done ].
    eexists _, _, _. split; [reflexivity|]. cbn [heap set_heap].
    rewrite lookup_alloc. done.
  - cbn [dtype_of empty_buffer].
    constructor; [cbn; by rewrite H0|].
    constructor; [cbn; by rewrite H1|].
    constructor; [cbn; by rewrite H2|].
    constructor.
Qed.
End Labels.

(** ** 0-dimensional arrays *)

Section ZeroDim.
Context {U : Type} `{Scalar U}.

(** On a 0-dimensional array the handlers that iterate over [self]
    apply the scalar operation to the sole element and return its bare
    result; the store is not touched. *)
Lemma elementwise_self_0d (st : state U) self o x op dt :
  heap st !! self = Some o ->
  shape o = [] ->
  data o !! 0 = Some x ->
  elementwise_self self op dt st
  = (result_bind (op x) (fun v => Ok (Obj v)), st).
Proof.
  intros Ho Hs Hx. unfold elementwise_self, shape_of, item0. mred.
  rewrite (get_obj_ok _ _ _ Ho). mred. rewrite decide_True by done.
  rewrite (get_obj_ok _ _ _ Ho). mred. rewrite Hx. mred.
  by destruct (op x).
Qed.

Lemma elementwise_inputs_0d (st : state U) self o x inputs op0 op dt w :
  heap st !! self = Some o ->
  shape o = [] ->
  data o !! 0 = Some x ->
  elementwise_inputs self inputs op0 op dt w st
  = (result_bind (op0 x) (fun v => Ok (Obj v)), st).
Proof.
  intros Ho Hs Hx. unfold elementwise_inputs, ndim, item0. mred.
  rewrite (get_obj_ok _ _ _ Ho). mred. rewrite Hs. cbn [length Nat.eqb].
  rewrite (get_obj_ok _ _ _ Ho). mred. rewrite Hx. mred.
  by destruct (op0 x).
Qed.

(** [_isfinite] on a 0-dimensional array answers the infinity test. *)
Lemma isfinite_0d (st : state U) self o x inputs :
  heap st !! self = Some o ->
  shape o = [] ->
  data o !! 0 = Some x ->
  _isfinite self inputs st
  = (result_bind (isinf_item x) (fun v => Ok (Obj v)), st).
Proof. apply elementwise_inputs_0d. Qed.

(** [_logical_not] has no 0-dimensional branch: whatever the shape of
    [self], what it returns is a reference to a new [bool] array, never
    a bare value. *)
Lemma logical_not_returns_array (st st' : state U) self o inputs v :
  heap st !! self = Some o ->
  _logical_not self inputs st = (Ok v, st') ->
  bool_result st o v st'.
Proof. intros Ho E. by apply (bool_loop _ _ _ _ _ _ _ Ho) in E. Qed.
End ZeroDim.

(** ** What a dispatched call leaves in the store *)

Section Frame.
Context {U : Type} `{Scalar U}.

(** Two objects that differ at most in [_broadcasted_shape]. *)
Definition same_content (o o' : arrobj U) : Prop :=
  cls o' = cls o /\ shape o' = shape o /\ dtype_of o' = dtype_of o
  /\ data o' = data o /\ _label o' = _label o.

(** Every object of [st] is in [st'], with the same content. *)
Definition extends (st st' : state U) : Prop :=
  forall r o, heap st !! r = Some o ->
    exists o', heap st' !! r = Some o' /\ same_content o o'.

Lemma same_content_refl o : same_content o o.
Proof. by repeat split. Qed.

Lemma same_content_trans o1 o2 o3 :
  same_content o1 o2 -> same_content o2 o3 -> same_content o1 o3.
Proof. unfold same_content. intros (?&?&?&?&?) (?&?&?&?&?). split_and!; congruence. Qed.

Lemma extends_refl st : extends st st.
Proof. intros r o Ho. exists o. split; [done|apply same_content_refl]. Qed.

Lemma extends_trans st1 st2 st3 :
  extends st1 st2 -> extends st2 st3 -> extends st1 st3.
Proof.
  intros H12 H23 r o Ho. destruct (H12 _ _ Ho) as (o2 & Ho2 & Hc2).
  destruct (H23 _ _ Ho2) as (o3 & Ho3 & Hc3). exists o3.
  split; [done|]. by eapply same_content_trans.
Qed.

Lemma extends_length st st' : extends st st' -> length (heap st) <= length (heap st').
Proof.
  intros Hext. destruct (decide (length (heap st) <= length (heap st'))) as [|Hn]; [done|].
  assert (is_Some (heap st !! length (heap st'))) as [o Ho]
    by (apply lookup_lt_is_Some; lia).
  destruct (Hext _ _ Ho) as (o' & Ho' & _).
  apply lookup_lt_Some in Ho'. lia.
Qed.

Lemma extends_app st l w : extends st (State (heap st ++ l) w).
Proof.
  intros r o Ho. exists o. split; [by apply lookup_app_l_Some|apply same_content_refl].
Qed.

(** [preserves m]: whatever [m] does and returns, the objects that were
    in the store keep their class, shape, element kind, elements and
    label. *)
Definition preserves {A} (m : M U A) : Prop :=
  forall st x st', m st = (x, st') -> extends st st'.

Lemma preserves_reads {A} (P : A -> Prop) (m : M U A) : reads P m -> preserves m.
Proof. intros Hm st x st' E. apply Hm in E as [-> _]. apply extends_refl. Qed.

Lemma preserves_bind {A B} (m : M U A) (k : A -> M U B) :
  preserves m -> (forall a, preserves (k a)) -> preserves (bind m k).
Proof.
  intros Hm Hk st x st'. unfold bind.
  destruct (m st) as [[a|e] st1] eqn:E; intros E'.
  - eapply extends_trans; [by eapply Hm|by eapply Hk].
  - simplify_eq. by eapply Hm.
Qed.

Lemma preserves_ret {A} (a : A) : preserves (ret (U := U) a).
Proof. intros st x st' [= <- <-]. apply extends_refl. Qed.

Lemma preserves_raise {A} c msg : preserves (raise (U := U) (A := A) c msg).
Proof. intros st x st' [= <- <-]. apply extends_refl. Qed.

Lemma preserves_lift {A} (r : result A) : preserves (lift (U := U) r).
Proof. intros st x st' [= <- <-]. apply extends_refl. Qed.

Lemma preserves_get_obj r : preserves (get_obj (U := U) r).
Proof. eapply preserves_reads, reads_get_obj. Qed.

Lemma preserves_alloc o : preserves (alloc (U := U) o).
Proof. intros st x st' [= <- <-]. apply extends_app. Qed.

Lemma preserves_warn kw : preserves (warn (U := U) kw).
Proof.
  intros st x st' [= <- <-] r o Ho. exists o.
  split; [done|apply same_content_refl].
Qed.

(** An update that keeps the content of the object. *)
Lemma preserves_update_obj r f :
  (forall o, same_content o (f o)) -> preserves (update_obj (U := U) r f).
Proof.
  intros Hf st x st'. unfold update_obj.
  destruct (heap st !! r) as [o|] eqn:Ho; intros [= <- <-]; [|apply extends_refl].
  intros r' o' Ho'. cbn. destruct (decide (r = r')) as [->|Hne].
  - rewrite list_lookup_insert_eq by (by eapply lookup_lt_Some).
    simplify_eq. eexists. split; [done|apply Hf].
  - rewrite list_lookup_insert_ne by done. exists o'.
    split; [done|apply same_content_refl].
Qed.

Lemma preserves_set_broadcasted_shape self s :
  preserves (set_broadcasted_shape (U := U) self s).
Proof. apply preserves_update_obj. intros o. by repeat split. Qed.

(** An update of an object that the reference store did not hold. *)
Lemma extends_update_fresh (st0 st st' : state U) r f x :
  extends st0 st ->
  length (heap st0) <= r ->
  update_obj r f st = (x, st') ->
  extends st0 st'.
Proof.
  intros Hext Hr. unfold update_obj.
  destruct (heap st !! r) as [o|] eqn:Ho; intros [= <- <-]; [|done].
  intros r' o' Ho'. destruct (Hext _ _ Ho') as (o'' & Ho'' & Hc).
  exists o''. split; [|done]. cbn.
  rewrite list_lookup_insert_ne; [done|].
  apply lookup_lt_Some in Ho'. lia.
Qed.

Lemma extends_itemset_fresh (st0 st st' : state U) a i v x :
  extends st0 st ->
  length (heap st0) <= a ->
  itemset a i v st = (x, st') ->
  extends st0 st'.
Proof.
  intros Hext Ha. unfold itemset, get_obj. mred.
  destruct (heap st !! a) as [o|] eqn:Ho; [|by intros [= <- <-]].
  destruct (i <? length (data o)); [|by intros [= <- <-]].
  destruct (cast (dtype_of o) v); [|by intros [= <- <-]].
  by apply extends_update_fresh.
Qed.

Lemma extends_fill_fresh (st0 : state U) arr its : forall i f st x st',
  extends st0 st ->
  length (heap st0) <= arr ->
  fill_from arr i its f st = (x, st') ->
  extends st0 st'.
Proof.
  induction its as [|y t IH]; intros i f st x st' Hext Harr; simpl.
  - by intros [= <- <-].
  - mred. destruct (f y); [|by intros [= <- <-]].
    destruct (itemset arr i a st) as [[[]|e] st1] eqn:E.
    + apply IH; [|done]. by eapply extends_itemset_fresh.
    + intros [= <- <-]. by eapply extends_itemset_fresh.
Qed.

Ltac preserves_tac :=
  repeat first
    [ apply preserves_ret | apply preserves_raise | apply preserves_lift
    | apply preserves_get_obj | apply preserves_alloc | apply preserves_warn
    | apply preserves_set_broadcasted_shape
    | apply preserves_bind; [|intros ?]
    | match goal with
      | |- preserves (match ?x with _ => _ end) => destruct x
      | |- preserves (if ?b then _ else _) => destruct b
      | |- preserves (let '(_, _) := ?x in _) => destruct x
      end ].

Lemma preserves_shape_of x : preserves (shape_of (U := U) x).
Proof. unfold shape_of. preserves_tac. Qed.

Lemma preserves_item0 x : preserves (item0 (U := U) x).
Proof. eapply preserves_reads, reads_item0. Qed.

Lemma preserves_nth_input inputs k : preserves (nth_input (U := U) inputs k).
Proof. eapply preserves_reads, reads_nth_input. Qed.

Lemma preserves_item_of inputs k : preserves (item_of (U := U) inputs k).
Proof.
  unfold item_of. apply preserves_bind; [apply preserves_nth_input|].
  intros x. apply preserves_item0.
Qed.

Lemma preserves_np_full sh v : preserves (np_full (U := U) sh v).
Proof. apply preserves_alloc. Qed.

Lemma preserves_np_asarray x d : preserves (np_asarray x d).
Proof. unfold np_asarray. preserves_tac. Qed.

Lemma preserves_np_broadcast a b : preserves (np_broadcast (U := U) a b).
Proof. unfold np_broadcast. preserves_tac. Qed.

Ltac preserves_step :=
  repeat first
    [ apply preserves_item_of | apply preserves_item0
    | apply preserves_nth_input | apply preserves_shape_of
    | apply preserves_np_full | apply preserves_np_asarray
    | apply preserves_np_broadcast
    | apply preserves_ret | apply preserves_raise | apply preserves_lift
    | apply preserves_get_obj | apply preserves_alloc | apply preserves_warn
    | apply preserves_set_broadcasted_shape
    | apply preserves_bind; [|intros ?]
    | match goal with
      | |- preserves (match ?x with _ => _ end) => destruct x
      | |- preserves (if ?b then _ else _) => destruct b
      | |- preserves (let '(_, _) := ?x in _) => destruct x
      end ].

(** [view] then the assignment of the label: the one object written is
    the view just allocated. *)
Lemma preserves_view_label a (f : arrobj U -> arrobj U) :
  preserves (let* obj := view a in
             let* _ := update_obj obj f in
             ret obj).
Proof.
  intros st x st'. unfold view, get_obj, alloc. mred.
  destruct (heap st !! a) as [o|]; [|intros [= <- <-]; apply extends_refl].
  match goal with
  | |- context [update_obj ?r ?g ?s] =>
      destruct (update_obj r g s) as [[[]|e] st2] eqn:E
  end; intros [= <- <-];
    (eapply extends_update_fresh; [apply extends_app| |exact E]); done.
Qed.

Lemma preserves_new array d label : preserves (__new__ array d label).
Proof.
  unfold __new__. apply preserves_bind; [preserves_tac|]. intros dt.
  apply preserves_bind; [apply preserves_np_asarray|]. intros a.
  apply preserves_view_label.
Qed.

Lemma preserves_wrap arr : preserves (wrap (U := U) arr).
Proof.
  unfold wrap. apply preserves_bind; [apply preserves_new|].
  intros r. apply preserves_ret.
Qed.

(** [_create_empty] adds the buffer and writes nothing else; the
    reference it returns is new. *)
Lemma create_empty_frame (st st1 : state U) self inputs dt x :
  _create_empty self inputs dt st = (x, st1) ->
  extends st st1
  /\ forall arr it, x = Ok (arr, it) -> length (heap st) <= arr.
Proof.
  unfold _create_empty, get_obj. unfold bind at 1.
  destruct (heap st !! self) as [o|]; [|intros [= <- <-]; split; [apply extends_refl|done]].
  unfold np_empty. erewrite bind_ok by reflexivity.
  match goal with
  | |- ?m ?s = _ -> _ =>
      assert (reads (fun p : ref * list (item U) => p.1 = length (heap st)) m)
        as Hro
  end.
  { repeat first
      [ apply reads_flat | apply reads_nth_input | apply reads_iter_all
      | apply reads_ret; done
      | eapply reads_bind; [|intros ? ?]
      | match goal with
        | |- reads _ (match ?x with _ => _ end) => destruct x
        | |- reads _ (if ?b then _ else _) => destruct b
        end ]. }
  intros E. apply Hro in E as [-> E]. split; [apply extends_app|].
  intros arr it ->. specialize (E _ eq_refl). cbn in E. lia.
Qed.

(** The loop shared by the handlers: allocate, fill, then go on with the
    filled buffer. *)
Lemma preserves_loop self inputs dt f (k : ref -> M U (pyarg U)) :
  (forall arr, preserves (k arr)) ->
  preserves (let* '(arr, iterator) := _create_empty self inputs dt in
             let* _ := fill arr iterator f in
             k arr).
Proof.
  intros Hk st x st'. unfold bind at 1.
  destruct (_create_empty self inputs dt st) as [[[arr it]|e] st1] eqn:E;
    apply create_empty_frame in E as [Hext Harr]; [|by intros [= <- <-]].
  specialize (Harr _ _ eq_refl). unfold bind at 1, fill.
  destruct (fill_from arr 0 it f st1) as [[[]|e] st2] eqn:E.
  - intros E'. eapply extends_trans; [|by eapply Hk].
    by eapply (extends_fill_fresh st).
  - intros [= <- <-]. by eapply (extends_fill_fresh st).
Qed.

Lemma preserves_elementwise_self self op dt :
  preserves (elementwise_self self op dt).
Proof.
  unfold elementwise_self. apply preserves_bind; [apply preserves_shape_of|].
  intros sh. destruct (decide (sh = [])).
  - preserves_step.
  - apply preserves_loop. intros arr. apply preserves_wrap.
Qed.

Lemma preserves_elementwise_inputs self inputs op0 op dt w :
  preserves (elementwise_inputs self inputs op0 op dt w).
Proof.
  unfold elementwise_inputs, ndim. apply preserves_bind; [preserves_tac|].
  intros nd. destruct (nd =? 0).
  - preserves_step.
  - apply preserves_loop. intros arr.
    destruct w; [apply preserves_wrap|apply preserves_ret].
Qed.

Lemma preserves_pairwise self inputs scalar0 op dt w :
  preserves scalar0 ->
  preserves (pairwise self inputs scalar0 op dt w).
Proof.
  intros H0. unfold pairwise, ndim. apply preserves_bind; [preserves_tac|].
  intros nd. destruct (nd =? 0).
  - apply preserves_bind; [done|]. intros v. apply preserves_ret.
  - apply preserves_loop. intros arr.
    destruct w; [apply preserves_wrap|apply preserves_ret].
Qed.

Lemma preserves_strict0 inputs op : preserves (strict0 inputs op).
Proof.
  unfold strict0. preserves_step.
Qed.

Lemma preserves_and0 inputs : preserves (and0 inputs).
Proof. unfold and0. preserves_step. Qed.

Lemma preserves_or0 inputs : preserves (or0 inputs).
Proof. unfold or0. preserves_step. Qed.

Lemma preserves_atan2 self inputs : preserves (_atan2 self inputs).
Proof.
  unfold _atan2, ndim. apply preserves_bind; [preserves_tac|].
  intros nd. destruct (nd =? 0).
  - preserves_step.
  - apply preserves_bind; [apply preserves_nth_input|]. intros x0.
    apply preserves_loop. intros arr. apply preserves_wrap.
Qed.

Lemma preserves_arctan2 self inputs : preserves (_arctan2 self inputs).
Proof.
  unfold _arctan2. apply preserves_bind; [apply preserves_nth_input|].
  intros x1. apply preserves_atan2.
Qed.

Lemma preserves_logical_not self inputs : preserves (_logical_not self inputs).
Proof. unfold _logical_not. apply preserves_loop. intros arr. apply preserves_ret. Qed.

(** Every handler of the table keeps the content of the objects in the
    store. *)
Lemma preserves_methods name attr self inputs :
  getattr methods name = Some attr -> preserves (attr self inputs).
Proof.
  unfold methods. cbn [getattr].
  repeat (destruct (String.eqb _ name);
          [ intros [= <-];
            first [ apply preserves_elementwise_self
                  | apply preserves_elementwise_inputs
                  | apply preserves_pairwise;
                    first [ apply preserves_strict0 | apply preserves_and0
                          | apply preserves_or0 ]
                  | apply preserves_arctan2
                  | apply preserves_logical_not
                  | apply preserves_raise ]
          | ]).
  done.
Qed.

(** The dispatcher keeps the content of every object in the store,
    whatever it is given and however it ends: the one attribute it writes
    on an existing object is [_broadcasted_shape]. *)
Lemma preserves_array_ufunc self ufunc method inputs kwargs :
  preserves (__array_ufunc__ self ufunc method inputs kwargs).
Proof.
  unfold __array_ufunc__.
  destruct (getattr methods ("_" +:+ ufunc)) as [attr|] eqn:Hattr;
    [|apply preserves_raise].
  pose proof (fun inputs => preserves_methods _ _ self inputs Hattr) as Hm.
  apply preserves_bind; [preserves_step|]. intros _.
  destruct (length inputs =? 1); [apply Hm|].
  destruct (length inputs =? 2); [|apply preserves_raise].
  repeat first [ apply Hm | progress preserves_step ].
Qed.

(** [routes attr self m]: when [m] returns, it has returned what the
    handler [attr] returned, called on a store that extends the one [m]
    started from. *)
Definition routes (attr : ref -> list (pyarg U) -> M U (pyarg U)) (self : ref)
    (m : M U (pyarg U)) : Prop :=
  forall st v st', m st = (Ok v, st') ->
    exists inputs' st_h,
      extends st st_h /\ attr self inputs' st_h = (Ok v, st').

Lemma routes_attr attr self inputs : routes attr self (attr self inputs).
Proof. intros st v st' E. exists inputs, st. split; [apply extends_refl|done]. Qed.

Lemma routes_raise attr self c msg : routes attr self (raise c msg).
Proof. by intros st v st' [=]. Qed.

Lemma routes_bind {A} attr self (m : M U A) (k : A -> M U (pyarg U)) :
  preserves m -> (forall a, routes attr self (k a)) ->
  routes attr self (bind m k).
Proof.
  intros Hm Hk st v st'. unfold bind.
  destruct (m st) as [[a|e] st1] eqn:E; [|done]. intros E'.
  destruct (Hk _ _ _ _ E') as (inputs' & st_h & Hext & Hattr).
  exists inputs', st_h. split; [|done].
  eapply extends_trans; [by eapply Hm|done].
Qed.

Lemma routes_array_ufunc self ufunc method inputs kwargs attr :
  getattr methods ("_" +:+ ufunc) = Some attr ->
  routes attr self (__array_ufunc__ self ufunc method inputs kwargs).
Proof.
  intros Hattr. unfold __array_ufunc__. rewrite Hattr.
  apply routes_bind; [preserves_step|]. intros _.
  destruct (length inputs =? 1); [apply routes_attr|].
  destruct (length inputs =? 2); [|apply routes_raise].
  repeat first
    [ apply routes_attr
    | apply routes_bind; [preserves_step|intros ?] ].
Qed.

Lemma boolean_ufunc_has_handler name :
  name ∈ boolean_ufuncs ->
  exists attr, getattr methods ("_" +:+ name) = Some attr.
Proof.
  unfold boolean_ufuncs. intros Hin.
  repeat (apply elem_of_cons in Hin as [->|Hin]);
    [ .. | by apply elem_of_nil in Hin ]; by eexists.
Qed.

(** C4 (as amended).  Dispatched on an array with at least one axis, each
    of [==], [!=], [<], [<=], [>], [>=], [isnan], [isinf], [isfinite] and
    [logical_not] that returns, returns a new plain [ndarray] of kind
    [bool] whose elements are all [bool]s, never an [UncertainArray]; the
    objects that were in the store keep their content. *)
Theorem C4_boolean_ufuncs_return_bool_ndarray (name method : string)
    (self : ref) (inputs : list (pyarg U)) (kwargs : list (string * pyarg U))
    (st st' : state U) (o : arrobj U) (v : pyarg U) :
  name ∈ boolean_ufuncs ->
  heap st !! self = Some o ->
  shape o <> [] ->
  __array_ufunc__ self name method inputs kwargs st = (Ok v, st') ->
  exists r o',
    v = Arr r
    /\ length (heap st) <= r
    /\ heap st' !! r = Some o'
    /\ bool_ndarray o'
    /\ extends st st'.
Proof.
  intros Hin Ho Hs E.
  destruct (boolean_ufunc_has_handler _ Hin) as [attr Hattr].
  pose proof (preserves_array_ufunc _ _ _ _ _ _ _ _ E) as Hframe.
  destruct (routes_array_ufunc self name method inputs kwargs attr Hattr
              _ _ _ E) as (inputs' & st_h & Hext & E2).
  destruct (Hext _ _ Ho) as (o_h & Ho_h & _ & Hsh & _).
  assert (shape o_h <> []) as Hs_h by (by rewrite Hsh).
  destruct (boolean_handlers_return_bool_ndarray name attr self inputs' st_h st'
              o_h v Hin Hattr Ho_h Hs_h E2) as (r & o' & -> & -> & Hr & Hb & _).
  exists (length (heap st_h)), o'. split_and!; try done.
  by apply extends_length.
Qed.
End Frame.

(** ** NaN in [maximum] and [minimum] *)

Section NaN.
Context {U : Type} `{Scalar U}.

(** The loop body of [_maximum] and [_minimum] stores a NaN operand
    without comparing: the first operand when it is NaN, else the second
    when that one is. *)
Lemma select_nan_first (o : binop) (a b : pyval U) :
  Helpers._isnan a = Ok true -> select_nan o a b = Ok a.
Proof. unfold select_nan. by intros ->. Qed.

Lemma select_nan_second (o : binop) (a b : pyval U) :
  Helpers._isnan a = Ok false ->
  Helpers._isnan b = Ok true ->
  select_nan o a b = Ok b.
Proof. unfold select_nan. by intros -> ->. Qed.

(** Without a NaN the comparison decides. *)
Lemma select_nan_neither (o : binop) (a b : pyval U) :
  Helpers._isnan a = Ok false ->
  Helpers._isnan b = Ok false ->
  select_nan o a b = select o a b.
Proof. unfold select_nan. by intros -> ->. Qed.
End NaN.

(** * Further properties of the class *)

Section Dispatch.
Context {U : Type} `{Scalar U}.

Definition implemented_ufuncs : list string :=
  [ "conjugate"; "positive"; "negative"; "add"; "subtract"; "multiply";
    "divide"; "true_divide"; "power"; "exp"; "log"; "log10"; "sqrt"; "cos";
    "sin"; "tan"; "arccos"; "arcsin"; "arctan"; "arctan2"; "sinh"; "cosh";
    "tanh"; "arccosh"; "arcsinh"; "arctanh"; "square"; "equal"; "not_equal";
    "less"; "less_equal"; "greater"; "greater_equal"; "maximum"; "minimum";
    "logical_and"; "logical_or"; "logical_xor"; "logical_not"; "isinf";
    "isnan"; "isfinite"; "reciprocal"; "absolute" ].

Lemma getattr_unimplemented (ufunc : string) :
  ufunc ∉ implemented_ufuncs -> getattr (methods (U := U)) ("_" +:+ ufunc) = None.
Proof.
  intros Hn. unfold methods. cbn [getattr].
  repeat match goal with
  | |- context [String.eqb ?s ("_" +:+ ufunc)] =>
      destruct (String.eqb_spec s ("_" +:+ ufunc)) as [E|_];
      [ exfalso; cbv in E; injection E as <-; apply Hn;
        unfold implemented_ufuncs; repeat constructor | ]
  end.
  done.
Qed.

(** The other names that an instance has an attribute for when an
    underscore is put before them: helper methods and the two private
    fields.  No numpy ufunc is named after one of them, nor has a name
    that begins with an underscore. *)
Definition private_names : list string :=
  [ "create_empty"; "label"; "broadcasted_shape"; "acos"; "asin"; "atan";
    "atan2"; "acosh"; "asinh"; "atanh"; "mag_squared"; "magnitude"; "phase";
    "intermediate" ].

(** X1.  A ufunc whose name is none of the 44 that the class has a handler
    for (and, as for every numpy ufunc, neither begins with an underscore
    nor names another private attribute) raises [NotImplementedError]
    with the ufunc in the message, whatever the inputs and the keywords
    are: nothing is written and no warning is recorded. *)
Theorem unimplemented_ufunc_raises (self : ref) (ufunc method : string)
    (inputs : list (pyarg U)) (kwargs : list (string * pyarg U)) (st : state U) :
  ufunc ∉ implemented_ufuncs ->
  ufunc ∉ private_names ->
  String.prefix "_" ufunc = false ->
  __array_ufunc__ self ufunc method inputs kwargs st
  = (Err (Raise NotImplementedError
            ("The <ufunc '" +:+ ufunc +:+ "'> function has not been implemented")),
     st).
Proof.
  intros Hn _ _. unfold __array_ufunc__. by rewrite getattr_unimplemented.
Qed.
End Dispatch.

Section Warnings.
Context {U : Type} `{Scalar U}.

Lemma getattr_implemented (ufunc : string) :
  ufunc ∈ implemented_ufuncs ->
  is_Some (getattr (methods (U := U)) ("_" +:+ ufunc)).
Proof.
  unfold implemented_ufuncs. intros Hin.
  repeat (apply elem_of_cons in Hin as [->|Hin]);
    [ .. | by apply elem_of_nil in Hin ]; by eexists.
Qed.

(** [silent m]: [m] neither reads nor writes the recorded warnings: what
    it returns and the objects it leaves depend on the objects alone. *)
Definition silent {A} (m : M U A) : Prop :=
  forall h, exists x h', forall w, m (State h w) = (x, State h' w).

Lemma silent_ret {A} (a : A) : silent (ret a).
Proof. intros h. by exists (Ok a), h. Qed.

Lemma silent_raise {A} c msg : silent (raise (A := A) c msg).
Proof. intros h. by exists (Err (Raise c msg)), h. Qed.

Lemma silent_lift {A} (r : result A) : silent (lift r).
Proof. intros h. by exists r, h. Qed.

Lemma silent_get_obj r : silent (get_obj r).
Proof.
  intros h. unfold get_obj. cbn.
  destruct (h !! r) as [o|]; [by exists (Ok o), h | by eexists (Err _), h].
Qed.

Lemma silent_alloc o : silent (alloc o).
Proof. intros h. by exists (Ok (length h)), (h ++ [o]). Qed.

Lemma silent_update_obj r f : silent (update_obj r f).
Proof.
  intros h. unfold update_obj. cbn.
  destruct (h !! r) as [o|];
    [by exists (Ok tt), (<[r := f o]> h) | by eexists (Err _), h].
Qed.

Lemma silent_bind {A B} (m : M U A) (k : A -> M U B) :
  silent m -> (forall a, silent (k a)) -> silent (bind m k).
Proof.
  intros Hm Hk h. destruct (Hm h) as (x & h1 & E). unfold bind.
  destruct x as [a|e].
  - destruct (Hk a h1) as (y & h2 & E2). exists y, h2. intros w.
    by rewrite E, E2.
  - exists (Err e), h1. intros w. by rewrite E.
Qed.

Ltac silent_step :=
  repeat first
    [ apply silent_ret | apply silent_raise | apply silent_lift
    | apply silent_get_obj | apply silent_alloc | apply silent_update_obj
    | apply silent_bind; [|intros ?]
    | match goal with
      | |- silent (match ?x with _ => _ end) => destruct x
      | |- silent (if ?b then _ else _) => destruct b
      | |- silent (let '(_, _) := ?x in _) => destruct x
      end ].

Lemma silent_shape_of x : silent (shape_of x).
Proof. unfold shape_of. silent_step. Qed.

Lemma silent_flat x : silent (flat x).
Proof. unfold flat. silent_step. Qed.

Lemma silent_item0 x : silent (item0 x).
Proof. unfold item0. silent_step. Qed.

Lemma silent_nth_input inputs k : silent (nth_input inputs k).
Proof. unfold nth_input. silent_step. Qed.

Lemma silent_item_of inputs k : silent (item_of inputs k).
Proof.
  unfold item_of. apply silent_bind; [apply silent_nth_input|].
  intros x. apply silent_item0.
Qed.

Lemma silent_iter_of x : silent (iter_of x).
Proof. unfold iter_of. silent_step. Qed.

Lemma silent_iter_all inputs : silent (iter_all inputs).
Proof.
  induction inputs as [|x t IH]; simpl; [apply silent_ret|].
  apply silent_bind; [apply silent_iter_of|]. intros l.
  apply silent_bind; [exact IH|]. intros ls. apply silent_ret.
Qed.

Lemma silent_itemset a i v : silent (itemset a i v).
Proof. unfold itemset. silent_step. Qed.

Lemma silent_fill_from arr its f : forall i, silent (fill_from arr i its f).
Proof.
  induction its as [|x t IH]; intros i; simpl; [apply silent_ret|].
  apply silent_bind; [apply silent_lift|]. intros v.
  apply silent_bind; [apply silent_itemset|]. intros _. apply IH.
Qed.

Lemma silent_np_asarray x d : silent (np_asarray x d).
Proof. unfold np_asarray. silent_step. Qed.

Lemma silent_np_broadcast a b : silent (np_broadcast a b).
Proof. unfold np_broadcast. silent_step. Qed.

Lemma silent_new array d label : silent (__new__ array d label).
Proof. unfold __new__, view. silent_step; apply silent_np_asarray. Qed.

Lemma silent_wrap arr : silent (wrap arr).
Proof.
  unfold wrap. apply silent_bind; [apply silent_new|]. intros r.
  apply silent_ret.
Qed.

Lemma silent_create_empty self inputs dt : silent (_create_empty self inputs dt).
Proof.
  unfold _create_empty, np_empty.
  repeat first
    [ apply silent_flat | apply silent_nth_input | apply silent_iter_all
    | apply silent_ret | apply silent_get_obj | apply silent_alloc
    | apply silent_bind; [|intros ?]
    | match goal with
      | |- silent (match ?x with _ => _ end) => destruct x
      | |- silent (if ?b then _ else _) => destruct b
      end ].
Qed.

Lemma silent_loop self inputs dt f (k : ref -> M U (pyarg U)) :
  (forall arr, silent (k arr)) ->
  silent (let* '(arr, iterator) := _create_empty self inputs dt in
          let* _ := fill arr iterator f in
          k arr).
Proof.
  intros Hk. apply silent_bind; [apply silent_create_empty|].
  intros [arr it]. apply silent_bind; [apply silent_fill_from|].
  intros _. apply Hk.
Qed.

Lemma silent_ndim self : silent (ndim self).
Proof. unfold ndim. silent_step. Qed.

Lemma silent_elementwise_self self op dt : silent (elementwise_self self op dt).
Proof.
  unfold elementwise_self. apply silent_bind; [apply silent_shape_of|].
  intros sh. destruct (decide (sh = [])).
  - apply silent_bind; [apply silent_item0|]. intros x. silent_step.
  - apply silent_loop. intros arr. apply silent_wrap.
Qed.

Lemma silent_elementwise_inputs self inputs op0 op dt w :
  silent (elementwise_inputs self inputs op0 op dt w).
Proof.
  unfold elementwise_inputs. apply silent_bind; [apply silent_ndim|].
  intros nd. destruct (nd =? 0).
  - apply silent_bind; [apply silent_item0|]. intros x. silent_step.
  - apply silent_loop. intros arr.
    destruct w; [apply silent_wrap|apply silent_ret].
Qed.

Lemma silent_pairwise self inputs scalar0 op dt w :
  silent scalar0 -> silent (pairwise self inputs scalar0 op dt w).
Proof.
  intros H0. unfold pairwise. apply silent_bind; [apply silent_ndim|].
  intros nd. destruct (nd =? 0).
  - apply silent_bind; [done|]. intros v. apply silent_ret.
  - apply silent_loop. intros arr.
    destruct w; [apply silent_wrap|apply silent_ret].
Qed.

Lemma silent_strict0 inputs op : silent (strict0 inputs op).
Proof.
  unfold strict0. apply silent_bind; [apply silent_item_of|]. intros a.
  apply silent_bind; [apply silent_item_of|]. intros b. apply silent_lift.
Qed.

Lemma silent_and0 inputs : silent (and0 inputs).
Proof.
  unfold and0. apply silent_bind; [apply silent_item_of|]. intros a.
  apply silent_bind; [apply silent_lift|]. intros [|];
    [apply silent_item_of|apply silent_ret].
Qed.

Lemma silent_or0 inputs : silent (or0 inputs).
Proof.
  unfold or0. apply silent_bind; [apply silent_item_of|]. intros a.
  apply silent_bind; [apply silent_lift|]. intros [|];
    [apply silent_ret|apply silent_item_of].
Qed.

Lemma silent_atan2 self inputs : silent (_atan2 self inputs).
Proof.
  unfold _atan2. apply silent_bind; [apply silent_ndim|].
  intros nd. destruct (nd =? 0).
  - apply silent_bind; [apply silent_item0|]. intros a.
    apply silent_bind; [apply silent_item_of|]. intros b. silent_step.
  - apply silent_bind; [apply silent_nth_input|]. intros x0.
    apply silent_loop. intros arr. apply silent_wrap.
Qed.

Lemma silent_arctan2 self inputs : silent (_arctan2 self inputs).
Proof.
  unfold _arctan2. apply silent_bind; [apply silent_nth_input|].
  intros x1. apply silent_atan2.
Qed.

Lemma silent_logical_not self inputs : silent (_logical_not self inputs).
Proof. unfold _logical_not. apply silent_loop. intros arr. apply silent_ret. Qed.

Lemma silent_methods name attr self inputs :
  getattr methods name = Some attr -> silent (attr self inputs).
Proof.
  unfold methods. cbn [getattr].
  repeat (destruct (String.eqb _ name);
          [ intros [= <-];
            first [ apply silent_elementwise_self
                  | apply silent_elementwise_inputs
                  | apply silent_pairwise;
                    first [ apply silent_strict0 | apply silent_and0
                          | apply silent_or0 ]
                  | apply silent_arctan2
                  | apply silent_logical_not
                  | apply silent_raise ]
          | ]).
  done.
Qed.

Lemma silent_set_broadcasted_shape self s : silent (set_broadcasted_shape self s).
Proof. apply silent_update_obj. Qed.

Lemma silent_np_full sh v : silent (np_full sh v).
Proof. apply silent_alloc. Qed.

(** Without keyword arguments the dispatcher is silent. *)
Lemma silent_array_ufunc self ufunc method inputs :
  silent (__array_ufunc__ self ufunc method inputs []).
Proof.
  unfold __array_ufunc__.
  destruct (getattr methods ("_" +:+ ufunc)) as [attr|] eqn:Hattr;
    [|apply silent_raise].
  pose proof (fun inputs => silent_methods _ _ self inputs Hattr) as Hm.
  apply silent_bind; [apply silent_ret|]. intros _.
  destruct (length inputs =? 1); [apply Hm|].
  destruct (length inputs =? 2); [|apply silent_raise].
  repeat first
    [ apply Hm | apply silent_nth_input | apply silent_shape_of
    | apply silent_np_full | apply silent_np_asarray | apply silent_np_broadcast
    | apply silent_set_broadcasted_shape
    | apply silent_ret | apply silent_raise
    | apply silent_bind; [|intros ?]
    | match goal with
      | |- silent (match ?x with _ => _ end) => destruct x
      | |- silent (if ?b then _ else _) => destruct b
      | |- silent (let '(_, _) := ?x in _) => destruct x
      end ].
Qed.

(** A warning is recorded before anything else is done. *)
Lemma array_ufunc_warns_first self ufunc method inputs kwargs h w :
  ufunc ∈ implemented_ufuncs ->
  kwargs <> [] ->
  __array_ufunc__ self ufunc method inputs kwargs (State h w)
  = __array_ufunc__ self ufunc method inputs [] (State h (w ++ [kwargs])).
Proof.
  intros Hin Hk. destruct (getattr_implemented _ Hin) as [attr Hattr].
  unfold __array_ufunc__. rewrite Hattr.
  destruct kwargs as [|kw kws]; [done|]. reflexivity.
Qed.

(** X2.  Keywords given to an implemented ufunc add one warning and change
    nothing else: the call returns, or raises, what the same call
    without keywords does and leaves the same objects; the warning holds
    the keywords, and a call without keywords records none. *)
Theorem kwargs_only_warn (self : ref) (ufunc method : string)
    (inputs : list (pyarg U)) (kwargs : list (string * pyarg U))
    (st st' : state U) (x : result (pyarg U)) :
  ufunc ∈ implemented_ufuncs ->
  kwargs <> [] ->
  __array_ufunc__ self ufunc method inputs [] st = (x, st') ->
  __array_ufunc__ self ufunc method inputs kwargs st
  = (x, State (heap st') (warnings st ++ [kwargs]))
  /\ warnings st' = warnings st.
Proof.
  intros Hin Hk. destruct st as [h w].
  rewrite (array_ufunc_warns_first _ _ _ _ _ _ _ Hin Hk).
  destruct (silent_array_ufunc self ufunc method inputs h) as (y & h' & E).
  rewrite !E. by intros [= <- <-].
Qed.
End Warnings.

Section Binary.
Context {U : Type} `{Scalar U}.

Lemma broadcast_iter_ext (o o' : arrobj U) tgt :
  shape o' = shape o -> data o' = data o ->
  broadcast_iter o' tgt = broadcast_iter o tgt.
Proof. unfold broadcast_iter. by intros -> ->. Qed.

Definition shape_mismatch : string :=
  "shape mismatch: objects cannot be broadcast to a single shape".

(** The dispatcher on two arrays, up to the call of the handler. *)
Lemma array_ufunc_two_arrays (st : state U) self ufunc method a b o oa ob attr :
  getattr methods ("_" +:+ ufunc) = Some attr ->
  heap st !! self = Some o ->
  heap st !! a = Some oa ->
  heap st !! b = Some ob ->
  __array_ufunc__ self ufunc method [Arr a; Arr b] [] st
  = if decide (shape oa = shape ob) then
      attr self [Arr a; Arr b]
           (set_heap st (<[self := set_bshape o None]> (heap st)))
    else
      match broadcast_shapes (shape oa) (shape ob) with
      | Some sh =>
          attr self [FlatIter (broadcast_iter oa sh);
                     FlatIter (broadcast_iter ob sh)]
               (set_heap st (<[self := set_bshape o (Some sh)]> (heap st)))
      | None =>
          (Err (Raise ValueError shape_mismatch),
           set_heap st (<[self := set_bshape o None]> (heap st)))
      end.
Proof.
  intros Hattr Ho Ha Hb. unfold __array_ufunc__. rewrite Hattr. mrun.
  rewrite (set_broadcasted_shape_ok _ _ _ _ Ho). mrun.
  set (st1 := set_heap st (<[self := set_bshape o None]> (heap st))).
  destruct (lookup_set_bshape _ self o None a oa Ho Ha) as (oa1 & Ha1 & Hsa & Hda).
  destruct (lookup_set_bshape _ self o None b ob Ho Hb) as (ob1 & Hb1 & Hsb & Hdb).
  change (<[self:=set_bshape o None]> (heap st)) with (heap st1) in Ha1, Hb1.
  assert (heap st1 !! self = Some (set_bshape o None)) as Ho1.
  { apply list_lookup_insert_eq. by eapply lookup_lt_Some. }
  rewrite (get_obj_ok _ _ _ Ha1). mrun. rewrite (get_obj_ok _ _ _ Hb1). mrun.
  rewrite Hsa, Hsb.
  destruct (decide (shape oa = shape ob)) as [Heq|Hne]; [done|].
  unfold np_broadcast. mred.
  rewrite (get_obj_ok _ _ _ Ha1). mred. rewrite (get_obj_ok _ _ _ Hb1). mred.
  rewrite Hsa, Hsb.
  destruct (broadcast_shapes (shape oa) (shape ob)) as [sh|]; mred; [|done].
  rewrite (set_broadcasted_shape_ok _ _ _ _ Ho1). mred.
  rewrite (broadcast_iter_ext oa oa1), (broadcast_iter_ext ob ob1) by done.
  unfold st1. cbn [set_heap heap warnings]. rewrite list_insert_insert_eq.
  reflexivity.
Qed.

(** The two-input ufuncs whose handler has the shape of [pairwise], with
    the operation of the loop body, the kind of the buffer and whether
    the buffer is returned as an [UncertainArray]. *)
Definition binary_ufuncs
  : list (string * (pyval U -> pyval U -> result (pyval U)) * option dtype * bool) :=
  [ ("add", py_binop Add, None, true);
    ("subtract", py_binop Sub, None, true);
    ("multiply", py_binop Mul, None, true);
    ("divide", py_binop TrueDiv, None, true);
    ("true_divide", py_binop TrueDiv, None, true);
    ("power", py_binop Pow, None, true);
    ("equal", py_binop Eq, Some DBool, false);
    ("not_equal", py_binop Ne, Some DBool, false);
    ("less", py_binop Lt, Some DBool, false);
    ("less_equal", py_binop Le, Some DBool, false);
    ("greater", py_binop Gt, Some DBool, false);
    ("greater_equal", py_binop Ge, Some DBool, false);
    ("maximum", select_nan Gt, None, true);
    ("minimum", select_nan Lt, None, true);
    ("logical_and", py_and, Some DObject, true);
    ("logical_or", py_or, Some DObject, true) ].

Lemma binary_handler name op dt wrapped :
  (name, op, dt, wrapped) ∈ binary_ufuncs ->
  exists s0,
    getattr methods ("_" +:+ name)
    = Some (fun self inputs => pairwise self inputs (s0 inputs) op dt wrapped).
Proof.
  unfold binary_ufuncs. intros Hin.
  repeat (apply elem_of_cons in Hin as [[= -> -> -> ->]|Hin]);
    [ .. | by apply elem_of_nil in Hin ];
    first [ by exists (fun inputs => strict0 inputs (py_binop Add))
          | by exists (fun inputs => strict0 inputs (py_binop Sub))
          | by exists (fun inputs => strict0 inputs (py_binop Mul))
          | by exists (fun inputs => strict0 inputs (py_binop TrueDiv))
          | by exists (fun inputs => strict0 inputs (py_binop Pow))
          | by exists (fun inputs => strict0 inputs (py_binop Eq))
          | by exists (fun inputs => strict0 inputs (py_binop Ne))
          | by exists (fun inputs => strict0 inputs (py_binop Lt))
          | by exists (fun inputs => strict0 inputs (py_binop Le))
          | by exists (fun inputs => strict0 inputs (py_binop Gt))
          | by exists (fun inputs => strict0 inputs (py_binop Ge))
          | by exists (fun inputs => strict0 inputs (select Gt))
          | by exists (fun inputs => strict0 inputs (select Lt))
          | by exists and0 | by exists or0 ].
Qed.

(** What [pairwise_filled] leaves in the store, read off. *)
Lemma pairwise_result (st st' : state U) self o inputs scalar0 op dt wrapped its vs :
  heap st !! self = Some o ->
  shape o <> [] ->
  _create_empty self (Some inputs) dt st
  = (Ok (length (heap st), its),
     set_heap st (heap st ++ [empty_buffer (target_shape o) (default DObject dt)])) ->
  Forall2 (fun x v => result_bind (on_pair op x) (cast (default DObject dt)) = Ok v)
          its vs ->
  length its = size_of (target_shape o) ->
  exists st' r res,
    pairwise self inputs scalar0 op dt wrapped st = (Ok (Arr r), st')
    /\ length (heap st) <= r
    /\ heap st' !! r = Some res
    /\ cls res = (if wrapped then Uarray else Ndarray)
    /\ shape res = target_shape o
    /\ dtype_of res = default DObject dt
    /\ data res = vs.
Proof.
  intros Ho Hs Hce Hall Hlen.
  rewrite (pairwise_filled st self o inputs scalar0 op dt wrapped its vs
             Ho Hs Hce Hall Hlen).
  destruct wrapped; eexists _, _, _; (split; [reflexivity|]); cbn [set_heap heap].
  - split; [lia|]. split;
      [ rewrite lookup_app_r by lia;
        replace (S (length (heap st)) - length (heap st)) with 1 by lia;
        reflexivity | done ].
  - split; [lia|]. split; [apply lookup_alloc|done].
Qed.

(** The dispatcher and a handler of the table on two arrays, along both
    paths: shapes that agree, and shapes that [np.broadcast] joins. *)
Lemma pairwise_ufunc_broadcasts (name method : string)
    (op : pyval U -> pyval U -> result (pyval U)) (dt : option dtype)
    (wrapped : bool) (st : state U) (self a b : ref) (o oa ob : arrobj U)
    (sh : shape_t) (c : nat -> pyval U) :
  (name, op, dt, wrapped) ∈ binary_ufuncs ->
  self = a \/ self = b ->
  heap st !! self = Some o ->
  heap st !! a = Some oa ->
  heap st !! b = Some ob ->
  well_formed oa ->
  well_formed ob ->
  shape o <> [] ->
  broadcast_shapes (shape oa) (shape ob) = Some sh ->
  (forall i, i < size_of sh ->
     result_bind (op (broadcast_elem oa sh i) (broadcast_elem ob sh i))
                 (cast (default DObject dt)) = Ok (c i)) ->
  exists st' r res,
    __array_ufunc__ self name method [Arr a; Arr b] [] st = (Ok (Arr r), st')
    /\ length (heap st) <= r
    /\ heap st' !! r = Some res
    /\ cls res = (if wrapped then Uarray else Ndarray)
    /\ shape res = sh
    /\ dtype_of res = default DObject dt
    /\ data res = map c (seq 0 (size_of sh)).
Proof.
  intros Hin Hself Ho Ha Hb Wa Wb Hnd Hbs Hop.
  destruct (binary_handler _ _ _ _ Hin) as [s0 Hattr].
  rewrite (array_ufunc_two_arrays st self name method a b o oa ob _ Hattr Ho Ha Hb).
  destruct (lookup_set_bshape _ self o None a oa Ho Ha) as (oa1 & Ha1 & Hsa & Hda).
  destruct (lookup_set_bshape _ self o None b ob Ho Hb) as (ob1 & Hb1 & Hsb & Hdb).
  assert (length (<[self := set_bshape o None]> (heap st)) = length (heap st))
    as Hl1 by apply length_insert.
  destruct (decide (shape oa = shape ob)) as [Heq|Hne].
  - rewrite <- Heq, broadcast_shapes_same in Hbs. injection Hbs as <-.
    assert (shape o = shape oa) as Hso.
    { destruct Hself as [->| ->]; congruence. }
    set (st1 := set_heap st (<[self := set_bshape o None]> (heap st))).
    assert (heap st1 !! self = Some (set_bshape o None)) as Ho1.
    { apply list_lookup_insert_eq. by eapply lookup_lt_Some. }
    destruct (pairwise_result st1 st1 self (set_bshape o None) [Arr a; Arr b]
                (s0 [Arr a; Arr b]) op dt wrapped
                (map Tup (izip [data oa1; data ob1]))
                (map c (seq 0 (size_of (shape oa)))))
      as (st' & r & res & E & Hr & Hres & Hcls & Hshape & Hdt & Hdata).
    + exact Ho1.
    + done.
    + apply (create_empty_arrays st1 self _ a b oa1 ob1 dt Ho1 Ha1 Hb1).
    + rewrite Hda, Hdb, <- Wa.
      apply izip2_Forall2; [unfold well_formed in *; congruence|].
      intros i Hi. rewrite Wa in Hi. specialize (Hop i Hi).
      rewrite broadcast_elem_same in Hop by done.
      rewrite Heq in Hop. rewrite broadcast_elem_same in Hop by congruence.
      exact Hop.
    + cbn [target_shape set_bshape _broadcasted_shape shape].
      rewrite length_map. unfold izip.
      rewrite length_zip_with_l_eq;
        [rewrite Hda; unfold well_formed in *; congruence|].
      rewrite length_map, Hda, Hdb. unfold well_formed in *; congruence.
    + exists st', r, res. split; [exact E|].
      cbn [target_shape set_bshape _broadcasted_shape shape] in Hshape.
      split_and!; try done; [unfold st1 in Hr; cbn in Hr; lia|congruence].
  - rewrite Hbs.
    set (st2 := set_heap st (<[self := set_bshape o (Some sh)]> (heap st))).
    assert (heap st2 !! self = Some (set_bshape o (Some sh))) as Ho2.
    { apply list_lookup_insert_eq. by eapply lookup_lt_Some. }
    destruct (pairwise_result st2 st2 self (set_bshape o (Some sh))
                [FlatIter (broadcast_iter oa sh); FlatIter (broadcast_iter ob sh)]
                (s0 [FlatIter (broadcast_iter oa sh); FlatIter (broadcast_iter ob sh)])
                op dt wrapped
                (map Tup (izip [broadcast_iter oa sh; broadcast_iter ob sh]))
                (map c (seq 0 (size_of sh))))
      as (st' & r & res & E & Hr & Hres & Hcls & Hshape & Hdt & Hdata).
    + exact Ho2.
    + done.
    + apply (create_empty_iters st2 self _ _ _ dt Ho2).
    + rewrite <- (broadcast_iter_length oa sh).
      apply izip2_Forall2; [by rewrite !broadcast_iter_length|].
      intros i Hi. rewrite broadcast_iter_length in Hi.
      rewrite !broadcast_iter_nth by done. exact (Hop i Hi).
    + cbn [target_shape set_bshape _broadcasted_shape shape].
      rewrite length_map. unfold izip.
      rewrite length_zip_with_l_eq; [apply broadcast_iter_length|].
      by rewrite length_map, !broadcast_iter_length.
    + exists st', r, res. split; [exact E|].
      cbn [target_shape set_bshape _broadcasted_shape shape] in Hshape.
      split_and!; try done. unfold st2 in Hr. cbn in Hr.
      rewrite length_insert in Hr. lia.
Qed.
(** X3.  A two-input ufunc on two arrays whose shapes broadcast to [sh],
    dispatched on either of them when that one has an axis: the result
    is a new array of shape [sh] whose element at flat position [i] is
    the operation on the two elements that numpy's broadcasting puts
    there.  Arithmetic, [maximum], [minimum], [logical_and] and
    [logical_or] give an [UncertainArray] of kind object, the
    comparisons a plain array of [bool]. *)
Theorem binary_ufunc_broadcasts (name method : string)
    (op : pyval U -> pyval U -> result (pyval U)) (dt : option dtype)
    (wrapped : bool) (st : state U) (self a b : ref) (o oa ob : arrobj U)
    (sh : shape_t) (c : nat -> pyval U) :
  (name, op, dt, wrapped) ∈ binary_ufuncs ->
  self = a \/ self = b ->
  heap st !! self = Some o ->
  heap st !! a = Some oa ->
  heap st !! b = Some ob ->
  well_formed oa ->
  well_formed ob ->
  shape o <> [] ->
  broadcast_shapes (shape oa) (shape ob) = Some sh ->
  (forall i, i < size_of sh ->
     result_bind (op (broadcast_elem oa sh i) (broadcast_elem ob sh i))
                 (cast (default DObject dt)) = Ok (c i)) ->
  exists st' r res,
    __array_ufunc__ self name method [Arr a; Arr b] [] st = (Ok (Arr r), st')
    /\ length (heap st) <= r
    /\ heap st' !! r = Some res
    /\ cls res = (if wrapped then Uarray else Ndarray)
    /\ shape res = sh
    /\ dtype_of res = default DObject dt
    /\ data res = map c (seq 0 (size_of sh)).
Proof.
  intros Hin Hself Ho Ha Hb Wa Wb Hnd Hbs Hop.
  destruct (pairwise_ufunc_broadcasts name method op dt wrapped st self a b
              o oa ob sh c Hin Hself Ho Ha Hb Wa Wb Hnd Hbs Hop)
    as (st' & r & res & Hres).
  by exists st', r, res.
Qed.

(** The comparison that each of the two ufuncs selects by. *)
Definition extremum_ufuncs : list (string * binop) :=
  [ ("maximum", Gt); ("minimum", Lt) ].

(** The loop body of [_maximum] and [_minimum] can handle the pair
    [(x, y)]: the test for NaN accepts [x], and [y] when [x] is no NaN,
    and two operands that are both no NaN can be compared. *)
Definition comparable (cmp : binop) (x y : pyval U) : Prop :=
  Helpers._isnan x = Ok true
  \/ (Helpers._isnan x = Ok false /\ Helpers._isnan y = Ok true)
  \/ (Helpers._isnan x = Ok false /\ Helpers._isnan y = Ok false
      /\ exists v, select cmp x y = Ok v).

(** C3 (as amended).  For [maximum] and [minimum] over two arrays whose
    shapes broadcast, dispatched on an array with at least one axis, a
    NaN operand always wins: at every position where the first operand
    is NaN the result is that operand, and at every other position where
    the second operand is NaN the result is that one; only where neither
    is NaN does the comparison decide.  For [[1, NaN]] and [[NaN, 2]]
    both elements of the result are NaN (the witness below). *)
Theorem C3_nan_operand_always_wins (name method : string) (cmp : binop)
    (st : state U) (self a b : ref) (o oa ob : arrobj U) (sh : shape_t) :
  (name, cmp) ∈ extremum_ufuncs ->
  self = a \/ self = b ->
  heap st !! self = Some o ->
  heap st !! a = Some oa ->
  heap st !! b = Some ob ->
  well_formed oa ->
  well_formed ob ->
  shape o <> [] ->
  broadcast_shapes (shape oa) (shape ob) = Some sh ->
  (forall i, i < size_of sh ->
     comparable cmp (broadcast_elem oa sh i) (broadcast_elem ob sh i)) ->
  exists st' r res,
    __array_ufunc__ self name method [Arr a; Arr b] [] st = (Ok (Arr r), st')
    /\ heap st' !! r = Some res
    /\ cls res = Uarray
    /\ shape res = sh
    /\ forall i, i < size_of sh ->
         let x := broadcast_elem oa sh i in
         let y := broadcast_elem ob sh i in
         (Helpers._isnan x = Ok true -> data res !! i = Some x)
         /\ (Helpers._isnan x = Ok false -> Helpers._isnan y = Ok true ->
             data res !! i = Some y)
         /\ (Helpers._isnan x = Ok false -> Helpers._isnan y = Ok false ->
             forall v, select cmp x y = Ok v -> data res !! i = Some v).
Proof.
  intros Hin Hself Ho Ha Hb Wa Wb Hnd Hbs Hcmp.
  set (c := fun i =>
         match select_nan cmp (broadcast_elem oa sh i) (broadcast_elem ob sh i)
         with Ok v => v | Err _ => VNone end).
  assert (forall i, i < size_of sh ->
            select_nan cmp (broadcast_elem oa sh i) (broadcast_elem ob sh i)
            = Ok (c i)) as Hc.
  { intros i Hi. unfold c.
    destruct (Hcmp i Hi) as [Hx|[[Hx Hy]|(Hx & Hy & v & Hv)]].
    - by rewrite (select_nan_first _ _ _ Hx).
    - by rewrite (select_nan_second _ _ _ Hx Hy).
    - by rewrite (select_nan_neither _ _ _ Hx Hy), Hv. }
  assert ((name, select_nan cmp, None, true) ∈ binary_ufuncs) as Hin'.
  { unfold extremum_ufuncs in Hin.
    repeat (apply elem_of_cons in Hin as [[= -> ->]|Hin]);
      [ .. | by apply elem_of_nil in Hin ];
      unfold binary_ufuncs; repeat constructor. }
  destruct (pairwise_ufunc_broadcasts name method (select_nan cmp) None true
              st self a b o oa ob sh c Hin' Hself Ho Ha Hb Wa Wb Hnd Hbs)
    as (st' & r & res & E & _ & Hres & Hcls & Hshape & _ & Hdata).
  { intros i Hi. by rewrite (Hc i Hi). }
  exists st', r, res. split_and!; try done.
  intros i Hi x y.
  assert (data res !! i = Some (c i)) as Hget.
  { rewrite Hdata, list_lookup_fmap, lookup_seq_lt by done. reflexivity. }
  specialize (Hc i Hi). fold x y in Hc.
  split_and!.
  - intros Hx. rewrite (select_nan_first _ _ _ Hx) in Hc. congruence.
  - intros Hx Hy. rewrite (select_nan_second _ _ _ Hx Hy) in Hc. congruence.
  - intros Hx Hy v Hv. rewrite (select_nan_neither _ _ _ Hx Hy), Hv in Hc.
    congruence.
Qed.


(** X4.  Two arrays whose shapes cannot be broadcast: [np.broadcast] raises
    [ValueError] before any handler is called, for every implemented
    ufunc; the one thing written is the reset of [_broadcasted_shape] on
    [self]. *)
Theorem incompatible_shapes_raise (ufunc method : string) (st : state U)
    (self a b : ref) (o oa ob : arrobj U) :
  ufunc ∈ implemented_ufuncs ->
  heap st !! self = Some o ->
  heap st !! a = Some oa ->
  heap st !! b = Some ob ->
  broadcast_shapes (shape oa) (shape ob) = None ->
  __array_ufunc__ self ufunc method [Arr a; Arr b] [] st
  = (Err (Raise ValueError shape_mismatch),
     set_heap st (<[self := set_bshape o None]> (heap st))).
Proof.
  intros Hin Ho Ha Hb Hbs. destruct (getattr_implemented (U := U) _ Hin) as [attr Hattr].
  rewrite (array_ufunc_two_arrays st self ufunc method a b o oa ob _ Hattr Ho Ha Hb).
  rewrite Hbs. rewrite decide_False; [done|].
  intros Heq. by rewrite Heq, broadcast_shapes_same in Hbs.
Qed.

Lemma broadcast_shapes_nil_l s : broadcast_shapes [] s = Some s.
Proof. unfold broadcast_shapes. cbn. by rewrite rev_involutive. Qed.

(** X5.  A 0-dimensional [self] met with an array that has axes, under one
    of the 16 two-input ufuncs of [binary_ufuncs] ([arctan2] and
    [logical_xor] are not among them): the inputs are handed over as
    flat iterators, and the 0-dimensional branch of the handler asks
    them for [item], so the call raises [AttributeError] and leaves the
    broadcast shape on [self]. *)
Theorem zero_dim_self_cannot_broadcast (name method : string)
    (op : pyval U -> pyval U -> result (pyval U)) (dt : option dtype)
    (wrapped : bool) (st : state U) (a b : ref) (oa ob : arrobj U) :
  (name, op, dt, wrapped) ∈ binary_ufuncs ->
  heap st !! a = Some oa ->
  heap st !! b = Some ob ->
  shape oa = [] ->
  shape ob <> [] ->
  exists msg,
    __array_ufunc__ a name method [Arr a; Arr b] [] st
    = (Err (Raise AttributeError msg),
       set_heap st (<[a := set_bshape oa (Some (shape ob))]> (heap st))).
Proof.
  intros Hin Ha Hb Hsa Hsb. exists "object has no attribute 'item'".
  assert (exists attr, getattr methods ("_" +:+ name) = Some attr
            /\ forall l0 l1 (st0 : state U) o,
                 heap st0 !! a = Some o -> shape o = [] ->
                 attr a [FlatIter l0; FlatIter l1] st0
                 = (Err (Raise AttributeError "object has no attribute 'item'"),
                    st0)) as (attr & Hattr & Hrun).
  { unfold binary_ufuncs in Hin.
    repeat (apply elem_of_cons in Hin as [[= -> -> -> ->]|Hin]);
      [ .. | by apply elem_of_nil in Hin ];
      (eexists; split; [reflexivity|]);
      intros l0 l1 st0 o Ho Hs;
      unfold _add, _subtract, _multiply, _divide, _true_divide, _power,
        arith, _equal, _not_equal, _less, _less_equal, _greater,
        _greater_equal, comparison, _maximum, _minimum, _logical_and,
        _logical_or, pairwise, ndim, strict0, and0, or0, item_of, item0;
      mrun; rewrite (get_obj_ok _ _ _ Ho); mrun; rewrite Hs; reflexivity. }
  rewrite (array_ufunc_two_arrays st a name method a b oa oa ob _ Hattr Ha Ha Hb).
  rewrite Hsa, broadcast_shapes_nil_l.
  rewrite decide_False by done.
  rewrite (Hrun _ _ _ (set_bshape oa (Some (shape ob)))); [done| |done].
  apply list_lookup_insert_eq. by eapply lookup_lt_Some.
Qed.

(** What each two-input handler computes on 0-dimensional arrays. *)
Definition binary_scalars
  : list (string * (pyval U -> pyval U -> result (pyval U))) :=
  [ ("add", py_binop Add); ("subtract", py_binop Sub);
    ("multiply", py_binop Mul); ("divide", py_binop TrueDiv);
    ("true_divide", py_binop TrueDiv); ("power", py_binop Pow);
    ("equal", py_binop Eq); ("not_equal", py_binop Ne);
    ("less", py_binop Lt); ("less_equal", py_binop Le);
    ("greater", py_binop Gt); ("greater_equal", py_binop Ge);
    ("maximum", select Gt); ("minimum", select Lt);
    ("logical_and", py_and); ("logical_or", py_or) ].

(** X6.  A two-input ufunc on two 0-dimensional arrays returns the bare
    result of the operation on the two sole elements, no array (for
    [maximum] and [minimum] the plain comparison, without the test for
    NaN), and an exception of the operation is the exception of the
    call; no object is made. *)
Theorem zero_dim_binary_returns_scalar (name method : string)
    (op : pyval U -> pyval U -> result (pyval U)) (st : state U)
    (a b : ref) (oa ob : arrobj U) (x y : pyval U) :
  (name, op) ∈ binary_scalars ->
  heap st !! a = Some oa ->
  heap st !! b = Some ob ->
  shape oa = [] ->
  shape ob = [] ->
  data oa !! 0 = Some x ->
  data ob !! 0 = Some y ->
  __array_ufunc__ a name method [Arr a; Arr b] [] st
  = (result_bind (op x y) (fun v => Ok (Obj v)),
     set_heap st (<[a := set_bshape oa None]> (heap st))).
Proof.
  intros Hin Ha Hb Hsa Hsb Hx Hy.
  assert (exists attr, getattr methods ("_" +:+ name) = Some attr
            /\ forall (st0 : state U) o o',
                 heap st0 !! a = Some o -> shape o = [] -> data o !! 0 = Some x ->
                 heap st0 !! b = Some o' -> data o' !! 0 = Some y ->
                 attr a [Arr a; Arr b] st0
                 = (result_bind (op x y) (fun v => Ok (Obj v)), st0))
    as (attr & Hattr & Hrun).
  { unfold binary_scalars in Hin.
    repeat (apply elem_of_cons in Hin as [[= -> ->]|Hin]);
      [ .. | by apply elem_of_nil in Hin ];
      (eexists; split; [reflexivity|]);
      intros st0 o o' Ho Hs Hox Ho' Hoy;
      unfold _add, _subtract, _multiply, _divide, _true_divide, _power,
        arith, _equal, _not_equal, _less, _less_equal, _greater,
        _greater_equal, comparison, _maximum, _minimum, _logical_and,
        _logical_or, pairwise, ndim, strict0, and0, or0, item_of, item0;
      mrun; rewrite (get_obj_ok _ _ _ Ho); mrun; rewrite Hs; mrun;
      rewrite (get_obj_ok _ _ _ Ho); mrun; rewrite Hox; mrun;
      try (rewrite (get_obj_ok _ _ _ Ho'); mrun; rewrite Hoy; mrun);
      first [ by destruct (py_binop _ x y)
            | by destruct (select _ x y)
            | unfold py_and, py_or; destruct (py_bool x) as [[|]|]; mrun;
              try (rewrite (get_obj_ok _ _ _ Ho'); mrun; rewrite Hoy; mrun);
              reflexivity ]. }
  rewrite (array_ufunc_two_arrays st a name method a b oa oa ob _ Hattr Ha Ha Hb).
  rewrite Hsa, Hsb. rewrite decide_True by done.
  destruct (lookup_set_bshape _ a oa None b ob Ha Hb) as (ob1 & Hb1 & _ & Hdb).
  apply (Hrun _ (set_bshape oa None) ob1); try done.
  - apply list_lookup_insert_eq. by eapply lookup_lt_Some.
  - by rewrite Hdb.
Qed.

(** [np.full(shape, v, dtype=object)] *)
Definition full_array (sh : shape_t) (v : pyval U) : arrobj U :=
  ArrObj Ndarray sh DObject (replicate (size_of sh) v) None None.

(** The dispatcher on an array and a number, in either order, up to the
    call of the handler: the number is spread over the shape of the
    array. *)
Lemma array_ufunc_scalar (st : state U) ufunc method a oa v attr (reflected : bool) :
  getattr methods ("_" +:+ ufunc) = Some attr ->
  heap st !! a = Some oa ->
  Helpers.is_number_or_uncertain (Obj v) = Some v ->
  __array_ufunc__ a ufunc method
    (if reflected then [Obj v; Arr a] else [Arr a; Obj v]) [] st
  = attr a (if reflected then [Arr (length (heap st)); Arr a]
            else [Arr a; Arr (length (heap st))])
         (set_heap st (<[a := set_bshape oa None]>
                         (heap st ++ [full_array (shape oa) v]))).
Proof.
  intros Hattr Ha Hnum. unfold __array_ufunc__. rewrite Hattr.
  assert (forall w, heap (State (heap st ++ [full_array (shape oa) v]) w) !! a
                    = Some oa) as Ha'.
  { intros w. cbn. by apply lookup_app_l_Some. }
  destruct reflected; mrun; rewrite Hnum; mrun;
    rewrite (get_obj_ok _ _ _ Ha); mrun;
    unfold np_full, alloc; mrun; unfold set_input; cbn [insert list_insert];
    mrun; fold (full_array (shape oa) v);
    rewrite (set_broadcasted_shape_ok _ _ _ _ (Ha' _)); mrun;
    unfold set_heap; cbn [heap warnings];
    set (st1 := State (<[a := _]> _) _);
    assert (heap st1 !! a = Some (set_bshape oa None)) as Ha1
      by (apply list_lookup_insert_eq; rewrite length_app;
          apply lookup_lt_Some in Ha; lia);
    assert (heap st1 !! length (heap st) = Some (full_array (shape oa) v)) as Hn1
      by (unfold st1; cbn [heap];
          rewrite list_lookup_insert_ne
            by (apply lookup_lt_Some in Ha; lia);
          apply lookup_alloc);
    rewrite ?(get_obj_ok _ _ _ Ha1), ?(get_obj_ok _ _ _ Hn1); mrun;
    rewrite ?(get_obj_ok _ _ _ Ha1), ?(get_obj_ok _ _ _ Hn1); mrun;
    cbn [shape set_bshape full_array]; rewrite decide_True by done;
    reflexivity.
Qed.

Lemma izip_replicate_r (l : list (pyval U)) v :
  izip [l; replicate (length l) v] = map (fun x => [x; v]) l.
Proof. induction l as [|x l IH]; [done|]. cbn in *. by rewrite IH. Qed.

Lemma izip_replicate_l (l : list (pyval U)) v :
  izip [replicate (length l) v; l] = map (fun x => [v; x]) l.
Proof. induction l as [|x l IH]; [done|]. cbn in *. by rewrite IH. Qed.

(** X7.  An array and a number or uncertain number, in either order, under
    one of the 16 two-input ufuncs of [binary_ufuncs] ([arctan2], which
    pairs [self] with the second input, and [logical_xor], which raises,
    are not among them): the number meets every element of the array on
    the side it was written, and the result has the shape of the
    array. *)
Theorem scalar_operand_is_spread (name method : string)
    (op : pyval U -> pyval U -> result (pyval U)) (dt : option dtype)
    (wrapped reflected : bool) (st : state U) (a : ref) (oa : arrobj U)
    (v : pyval U) (vs : list (pyval U)) :
  (name, op, dt, wrapped) ∈ binary_ufuncs ->
  heap st !! a = Some oa ->
  well_formed oa ->
  shape oa <> [] ->
  Helpers.is_number_or_uncertain (Obj v) = Some v ->
  Forall2 (fun x y =>
             result_bind (if reflected then op v x else op x v)
                         (cast (default DObject dt)) = Ok y)
          (data oa) vs ->
  exists st' r res,
    __array_ufunc__ a name method
      (if reflected then [Obj v; Arr a] else [Arr a; Obj v]) [] st
    = (Ok (Arr r), st')
    /\ length (heap st) <= r
    /\ heap st' !! r = Some res
    /\ cls res = (if wrapped then Uarray else Ndarray)
    /\ shape res = shape oa
    /\ dtype_of res = default DObject dt
    /\ data res = vs.
Proof.
  intros Hin Ha Wa Hnd Hnum Hall.
  destruct (binary_handler _ _ _ _ Hin) as [s0 Hattr].
  rewrite (array_ufunc_scalar st name method a oa v _ reflected Hattr Ha Hnum).
  set (st1 := set_heap st _).
  assert (a < length (heap st)) as Hlt by (by eapply lookup_lt_Some).
  assert (heap st1 !! a = Some (set_bshape oa None)) as Ha1.
  { apply list_lookup_insert_eq. rewrite length_app. lia. }
  assert (heap st1 !! length (heap st) = Some (full_array (shape oa) v)) as Hn1.
  { unfold st1. cbn [set_heap heap]. rewrite list_lookup_insert_ne by lia.
    apply lookup_alloc. }
  assert (length (heap st1) = S (length (heap st))) as Hl1.
  { unfold st1. cbn [set_heap heap]. rewrite length_insert, length_app. cbn. lia. }
  assert (size_of (shape oa) = length (data oa)) as Hsz by done.
  destruct reflected.
  - destruct (pairwise_result st1 st1 a (set_bshape oa None)
                [Arr (length (heap st)); Arr a]
                (s0 [Arr (length (heap st)); Arr a]) op dt wrapped
                (map Tup (izip [data (full_array (shape oa) v);
                                data (set_bshape oa None)]))
                vs)
      as (st' & r & res & E & Hr & Hres & Hcls & Hshape & Hdt & Hdata);
      [ exact Ha1 | done
      | apply (create_empty_arrays st1 a _ _ a _ _ dt Ha1 Hn1 Ha1) | | | ].
    + cbn [data full_array set_bshape]. rewrite Hsz, izip_replicate_l.
      rewrite <- list_fmap_compose. by apply Forall2_fmap_l.
    + cbn [data full_array set_bshape target_shape _broadcasted_shape shape].
      rewrite Hsz, izip_replicate_l. by rewrite !length_map.
    + exists st', r, res. split; [exact E|].
      split_and!; try done. lia.
  - destruct (pairwise_result st1 st1 a (set_bshape oa None)
                [Arr a; Arr (length (heap st))]
                (s0 [Arr a; Arr (length (heap st))]) op dt wrapped
                (map Tup (izip [data (set_bshape oa None);
                                data (full_array (shape oa) v)]))
                vs)
      as (st' & r & res & E & Hr & Hres & Hcls & Hshape & Hdt & Hdata);
      [ exact Ha1 | done
      | apply (create_empty_arrays st1 a _ a _ _ _ dt Ha1 Ha1 Hn1) | | | ].
    + cbn [data full_array set_bshape]. rewrite Hsz, izip_replicate_r.
      rewrite <- list_fmap_compose. by apply Forall2_fmap_l.
    + cbn [data full_array set_bshape target_shape _broadcasted_shape shape].
      rewrite Hsz, izip_replicate_r. by rewrite !length_map.
    + exists st', r, res. split; [exact E|].
      split_and!; try done. lia.
Qed.
End Binary.

Section Unary.
Context {U : Type} `{Scalar U}.

(** The loop of a handler on a buffer that the iterator fills exactly:
    the buffer holds what the loop body gave, cast to the kind asked. *)
Lemma loop_filled (st : state U) self o inputs dt f its vs (wrapped : bool) :
  heap st !! self = Some o ->
  _create_empty self inputs dt st
  = (Ok (length (heap st), its),
     set_heap st (heap st ++ [empty_buffer (target_shape o) (default DObject dt)])) ->
  Forall2 (fun x v => result_bind (f x) (cast (default DObject dt)) = Ok v) its vs ->
  length its = size_of (target_shape o) ->
  exists st' r res,
    (let* '(arr, iterator) := _create_empty self inputs dt in
     let* _ := fill arr iterator f in
     if wrapped then wrap arr else ret (Arr arr)) st = (Ok (Arr r), st')
    /\ length (heap st) <= r
    /\ heap st' !! r = Some res
    /\ cls res = (if wrapped then Uarray else Ndarray)
    /\ shape res = target_shape o
    /\ dtype_of res = default DObject dt
    /\ data res = vs.
Proof.
  intros Ho Hce Hall Hlen. mred. rewrite Hce. mred.
  erewrite fill_ok; [| apply lookup_alloc | exact Hall
                     | by rewrite Hlen; cbn; rewrite length_replicate ].
  mred. cbn [set_heap heap warnings]. rewrite insert_alloc.
  destruct wrapped.
  - erewrite wrap_ok; [| cbn [heap]; apply lookup_alloc | done ].
    eexists _, _, _. split; [reflexivity|]. cbn [set_heap heap].
    split; [rewrite length_app; lia|].
    split; [apply lookup_alloc|done].
  - eexists _, _, _. split; [reflexivity|]. cbn [heap].
    split; [lia|]. split; [apply lookup_alloc|done].
Qed.

Lemma create_empty_self (st : state U) self o dt :
  heap st !! self = Some o ->
  _create_empty self None dt st
  = (Ok (length (heap st), map One (data o)),
     set_heap st (heap st ++ [empty_buffer (target_shape o) (default DObject dt)])).
Proof.
  intros Ho. unfold _create_empty, np_empty, alloc, flat.
  mred. rewrite (get_obj_ok _ _ _ Ho). mred.
  by rewrite (get_obj_app _ _ _ _ _ Ho).
Qed.

Lemma create_empty_one (st : state U) self o a oa dt :
  heap st !! self = Some o ->
  heap st !! a = Some oa ->
  _create_empty self (Some [Arr a]) dt st
  = (Ok (length (heap st), map One (data oa)),
     set_heap st (heap st ++ [empty_buffer (target_shape o) (default DObject dt)])).
Proof.
  intros Ho Ha. unfold _create_empty, np_empty, alloc, flat, nth_input.
  mred. rewrite (get_obj_ok _ _ _ Ho). mred.
  cbn [length Nat.eqb lookup list_lookup].
  by rewrite (get_obj_app _ _ _ _ _ Ha).
Qed.

(** The one-input ufuncs, with the operation applied to each element,
    the kind of the buffer and whether the buffer is returned as an
    [UncertainArray]. *)
Definition unary_ufuncs
  : list (string * (pyval U -> result (pyval U)) * option dtype * bool) :=
  [ ("conjugate", py_attr Conjugate, None, true);
    ("positive", py_unop Pos, None, true);
    ("negative", py_unop Neg, None, true);
    ("exp", core_fn Exp, None, true);
    ("log", core_fn Log, None, true);
    ("log10", core_fn Log10, None, true);
    ("sqrt", core_fn Sqrt, None, true);
    ("cos", core_fn Cos, None, true);
    ("sin", core_fn Sin, None, true);
    ("tan", core_fn Tan, None, true);
    ("arccos", core_fn Acos, None, true);
    ("arcsin", core_fn Asin, None, true);
    ("arctan", core_fn Atan, None, true);
    ("sinh", core_fn Sinh, None, true);
    ("cosh", core_fn Cosh, None, true);
    ("tanh", core_fn Tanh, None, true);
    ("arccosh", core_fn Acosh, None, true);
    ("arcsinh", core_fn Asinh, None, true);
    ("arctanh", core_fn Atanh, None, true);
    ("square", core_fn MagSquared, None, true);
    ("reciprocal", reciprocal_item, None, true);
    ("absolute", py_unop Abs, None, true);
    ("isinf", isinf_item, Some DBool, false);
    ("isnan", isnan_item, Some DBool, false);
    ("isfinite", isfinite_item, Some DBool, false);
    ("logical_not", fun v => not_bool (One v), Some DBool, false) ].

Lemma target_shape_fresh (o : arrobj U) :
  _broadcasted_shape o = None -> target_shape o = shape o.
Proof. unfold target_shape. by intros ->. Qed.

(** [m], run from [st], returned a new array of class [k], shape [sh]
    and kind [d] that holds [vs]. *)
Definition returns_array (st : state U) (x : result (pyarg U) * state U)
    (k : klass) (sh : shape_t) (d : dtype) (vs : list (pyval U)) : Prop :=
  exists st' r res,
    x = (Ok (Arr r), st')
    /\ length (heap st) <= r
    /\ heap st' !! r = Some res
    /\ cls res = k
    /\ shape res = sh
    /\ dtype_of res = d
    /\ data res = vs.

Lemma elementwise_self_maps (st : state U) self o op dt vs :
  heap st !! self = Some o ->
  well_formed o ->
  shape o <> [] ->
  _broadcasted_shape o = None ->
  Forall2 (fun x y => result_bind (op x) (cast (default DObject dt)) = Ok y)
          (data o) vs ->
  returns_array st (elementwise_self self op dt st) Uarray (shape o)
                (default DObject dt) vs.
Proof.
  intros Ho Wo Hnd Hbs Hall. unfold elementwise_self, shape_of. mred.
  rewrite (get_obj_ok _ _ _ Ho). mred. rewrite decide_False by done.
  rewrite <- (target_shape_fresh _ Hbs).
  apply (loop_filled st self o None dt (on_item op) (map One (data o)) vs true
           Ho (create_empty_self _ _ _ _ Ho)).
  - by apply Forall2_fmap_l.
  - rewrite length_map, (target_shape_fresh _ Hbs). exact Wo.
Qed.

Lemma elementwise_inputs_maps (st : state U) self o op0 op dt wrapped vs :
  heap st !! self = Some o ->
  well_formed o ->
  shape o <> [] ->
  _broadcasted_shape o = None ->
  Forall2 (fun x y => result_bind (op x) (cast (default DObject dt)) = Ok y)
          (data o) vs ->
  returns_array st (elementwise_inputs self [Arr self] op0 op dt wrapped st)
                (if wrapped then Uarray else Ndarray) (shape o)
                (default DObject dt) vs.
Proof.
  intros Ho Wo Hnd Hbs Hall. unfold elementwise_inputs, ndim. mred.
  rewrite (get_obj_ok _ _ _ Ho). mred.
  destruct (shape o) as [|d sh0] eqn:Hs; [done|]. cbn [length Nat.eqb].
  rewrite <- Hs, <- (target_shape_fresh _ Hbs).
  apply (loop_filled st self o (Some [Arr self]) dt (on_item op)
           (map One (data o)) vs wrapped
           Ho (create_empty_one _ _ _ _ _ _ Ho Ho)).
  - by apply Forall2_fmap_l.
  - rewrite length_map, (target_shape_fresh _ Hbs). exact Wo.
Qed.

Lemma logical_not_maps (st : state U) self o vs :
  heap st !! self = Some o ->
  well_formed o ->
  _broadcasted_shape o = None ->
  Forall2 (fun x y => result_bind (not_bool (One x)) (cast DBool) = Ok y)
          (data o) vs ->
  returns_array st (_logical_not self [Arr self] st) Ndarray (shape o) DBool vs.
Proof.
  intros Ho Wo Hbs Hall. unfold _logical_not.
  rewrite <- (target_shape_fresh _ Hbs).
  apply (loop_filled st self o (Some [Arr self]) (Some DBool) not_bool
           (map One (data o)) vs false
           Ho (create_empty_one _ _ _ _ _ _ Ho Ho)).
  - by apply Forall2_fmap_l.
  - rewrite length_map, (target_shape_fresh _ Hbs). exact Wo.
Qed.

(** X8.  A one-input ufunc on an array with at least one axis, whose
    [_broadcasted_shape] is [None] as the constructor leaves it: the
    result is a new array of the shape of the input that holds the
    operation of the ufunc on each element, in order.  [isinf], [isnan],
    [isfinite] and [logical_not] give a plain array of [bool], the
    others an [UncertainArray] of kind object. *)
Theorem unary_ufunc_maps (name method : string)
    (op : pyval U -> result (pyval U)) (dt : option dtype) (wrapped : bool)
    (st : state U) (a : ref) (oa : arrobj U) (vs : list (pyval U)) :
  (name, op, dt, wrapped) ∈ unary_ufuncs ->
  heap st !! a = Some oa ->
  well_formed oa ->
  shape oa <> [] ->
  _broadcasted_shape oa = None ->
  Forall2 (fun x y => result_bind (op x) (cast (default DObject dt)) = Ok y)
          (data oa) vs ->
  exists st' r res,
    __array_ufunc__ a name method [Arr a] [] st = (Ok (Arr r), st')
    /\ length (heap st) <= r
    /\ heap st' !! r = Some res
    /\ cls res = (if wrapped then Uarray else Ndarray)
    /\ shape res = shape oa
    /\ dtype_of res = default DObject dt
    /\ data res = vs.
Proof.
  intros Hin Ha Wa Hnd Hbs Hall. unfold unary_ufuncs in Hin.
  repeat (apply elem_of_cons in Hin as [[= -> -> -> ->]|Hin]);
    [ .. | by apply elem_of_nil in Hin ];
    first [ exact (elementwise_self_maps st a oa _ _ vs Ha Wa Hnd Hbs Hall)
          | exact (elementwise_inputs_maps st a oa _ _ _ _ vs Ha Wa Hnd Hbs Hall)
          | exact (logical_not_maps st a oa vs Ha Wa Hbs Hall) ].
Qed.

(** X9.  On a 0-dimensional array every one-input ufunc but [isfinite] and
    [logical_not] returns the bare result of its operation on the sole
    element, and leaves the store as it is. *)
Theorem zero_dim_unary_returns_scalar (name method : string)
    (op : pyval U -> result (pyval U)) (dt : option dtype) (wrapped : bool)
    (st : state U) (a : ref) (oa : arrobj U) (x : pyval U) :
  (name, op, dt, wrapped) ∈ unary_ufuncs ->
  name <> "isfinite" ->
  name <> "logical_not" ->
  heap st !! a = Some oa ->
  shape oa = [] ->
  data oa !! 0 = Some x ->
  __array_ufunc__ a name method [Arr a] [] st
  = (result_bind (op x) (fun v => Ok (Obj v)), st).
Proof.
  intros Hin Hfin Hnot Ha Hs Hx. unfold unary_ufuncs in Hin.
  repeat (apply elem_of_cons in Hin as [[= -> -> -> ->]|Hin]);
    [ .. | by apply elem_of_nil in Hin ];
    try done;
    first [ exact (elementwise_self_0d st a oa x _ _ Ha Hs Hx)
          | exact (elementwise_inputs_0d st a oa x _ _ _ _ _ Ha Hs Hx) ].
Qed.

(** The properties and accessors of the class, with the operation
    applied to each element and the kind of the buffer; [hint] is the
    [dtype] argument of [value], [uncertainty], [variance] and [dof]. *)
Definition accessors (hint : option dtype)
  : list ((ref -> M U (pyarg U)) * (pyval U -> result (pyval U)) * option dtype) :=
  [ (real, py_attr AttrReal, None);
    (imag, py_attr AttrImag, None);
    (r, py_attr AttrR, Some DFloat);
    (x, core_fn Value, None);
    (fun self => value self hint, core_fn Value, hint);
    (u, core_fn Uncertainty, None);
    (fun self => uncertainty self hint, core_fn Uncertainty, hint);
    (v, core_fn Variance, None);
    (fun self => variance self hint, core_fn Variance, hint);
    (df, core_fn Dof, None);
    (fun self => dof self hint, core_fn Dof, hint);
    (conjugate, py_attr Conjugate, None) ].

(** X10.  The accessors [real], [imag], [r], [x], [value], [u],
    [uncertainty], [v], [variance], [df], [dof] and [conjugate] on an
    array with at least one axis whose [_broadcasted_shape] is [None],
    as the constructor leaves it: a new [UncertainArray] of the same
    shape that holds the attribute of each element, in order.  The kind
    is float for [r], the hint of [value], [uncertainty], [variance] and
    [dof] when one is given, and object otherwise. *)
Theorem accessor_maps (hint dt : option dtype)
    (accessor : ref -> M U (pyarg U)) (op : pyval U -> result (pyval U))
    (st : state U) (self : ref) (o : arrobj U) (vs : list (pyval U)) :
  (accessor, op, dt) ∈ accessors hint ->
  heap st !! self = Some o ->
  well_formed o ->
  shape o <> [] ->
  _broadcasted_shape o = None ->
  Forall2 (fun x y => result_bind (op x) (cast (default DObject dt)) = Ok y)
          (data o) vs ->
  exists st' r res,
    accessor self st = (Ok (Arr r), st')
    /\ length (heap st) <= r
    /\ heap st' !! r = Some res
    /\ cls res = Uarray
    /\ shape res = shape o
    /\ dtype_of res = default DObject dt
    /\ data res = vs.
Proof.
  intros Hin Ho Wo Hnd Hbs Hall. unfold accessors in Hin.
  repeat (apply elem_of_cons in Hin as [[= -> -> ->]|Hin]);
    [ .. | by apply elem_of_nil in Hin ];
    exact (elementwise_self_maps st self o _ _ vs Ho Wo Hnd Hbs Hall).
Qed.
End Unary.

Section Arctan2.
Context {U : Type} `{Scalar U}.

Lemma izip_zip (l0 l1 : list (pyval U)) :
  izip [l0; l1] = map (fun p => [p.1; p.2]) (zip l0 l1).
Proof.
  revert l1. induction l0 as [|x l0 IH]; intros [|y l1]; cbn in *; try done.
  by rewrite IH.
Qed.

Lemma getattr_arctan2 : getattr (methods (U := U)) "_arctan2" = Some _arctan2.
Proof. reflexivity. Qed.

(** X11.  [arctan2] on two arrays of one shape: the first operand of [atan2] is
    the element of [self], whichever of the two inputs [self] is; the
    second operand is the element of the second input. *)
Theorem arctan2_pairs_self (method : string) (st : state U) (self a b : ref)
    (o oa ob : arrobj U) (vs : list (pyval U)) :
  heap st !! self = Some o ->
  heap st !! a = Some oa ->
  heap st !! b = Some ob ->
  well_formed o ->
  well_formed ob ->
  shape o <> [] ->
  shape oa = shape ob ->
  shape o = shape ob ->
  Forall2 (fun p y => core_atan2 p.1 p.2 = Ok y) (zip (data o) (data ob)) vs ->
  exists st' r res,
    __array_ufunc__ self "arctan2" method [Arr a; Arr b] [] st = (Ok (Arr r), st')
    /\ length (heap st) <= r
    /\ heap st' !! r = Some res
    /\ cls res = Uarray
    /\ shape res = shape o
    /\ data res = vs.
Proof.
  intros Ho Ha Hb Wo Wb Hnd Hab Hob Hall.
  rewrite (array_ufunc_two_arrays st self "arctan2" method a b o oa ob _
             getattr_arctan2 Ho Ha Hb).
  rewrite decide_True by done.
  set (st1 := set_heap st _).
  assert (heap st1 !! self = Some (set_bshape o None)) as Ho1.
  { apply list_lookup_insert_eq. by eapply lookup_lt_Some. }
  destruct (lookup_set_bshape _ self o None b ob Ho Hb) as (ob1 & Hb1 & Hsb & Hdb).
  change (<[self:=set_bshape o None]> (heap st)) with (heap st1) in Hb1.
  unfold _arctan2, _atan2, ndim. mrun.
  rewrite (get_obj_ok _ _ _ Ho1). mrun. cbn [shape set_bshape].
  destruct (shape o) as [|d sh0] eqn:Hs; [done|]. cbn [length Nat.eqb].
  destruct (loop_filled st1 self (set_bshape o None) (Some [Arr self; Arr b])
              None (on_pair core_atan2)
              (map Tup (izip [data (set_bshape o None); data ob1])) vs true Ho1)
    as (st' & r & res & E & Hr & Hres & Hcls & Hshape & _ & Hdata).
  - apply (create_empty_arrays st1 self _ self b _ _ None Ho1 Ho1 Hb1).
  - cbn [data set_bshape]. rewrite Hdb, izip_zip, <- list_fmap_compose.
    apply Forall2_fmap_l. eapply Forall2_impl; [exact Hall|].
    intros p y E. cbn. by rewrite E.
  - cbn [data set_bshape target_shape _broadcasted_shape shape].
    rewrite Hdb, izip_zip, !length_map, length_zip.
    unfold well_formed in *. rewrite Wo, Wb, Hs, <- Hob. lia.
  - exists st', r, res. split; [exact E|].
    cbn [target_shape set_bshape _broadcasted_shape shape] in Hshape.
    split_and!; try done; [|congruence]. unfold st1 in Hr. cbn in Hr.
    rewrite length_insert in Hr. lia.
Qed.

(** X12.  [arctan2] on two arrays of different shapes that broadcast never
    returns: the inputs reach the handler as flat iterators, which have
    no [item] and no [flat], and the call raises [AttributeError]. *)
Theorem arctan2_never_broadcasts (method : string) (st : state U) (self a b : ref)
    (o oa ob : arrobj U) :
  heap st !! self = Some o ->
  heap st !! a = Some oa ->
  heap st !! b = Some ob ->
  well_formed o ->
  shape oa <> shape ob ->
  is_Some (broadcast_shapes (shape oa) (shape ob)) ->
  exists msg st',
    __array_ufunc__ self "arctan2" method [Arr a; Arr b] [] st
    = (Err (Raise AttributeError msg), st').
Proof.
  intros Ho Ha Hb Wo Hne [sh Hsh].
  rewrite (array_ufunc_two_arrays st self "arctan2" method a b o oa ob _
             getattr_arctan2 Ho Ha Hb).
  rewrite decide_False by done. rewrite Hsh.
  set (st2 := set_heap st _).
  assert (heap st2 !! self = Some (set_bshape o (Some sh))) as Ho2.
  { apply list_lookup_insert_eq. by eapply lookup_lt_Some. }
  unfold _arctan2, _atan2, ndim, item_of, item0. mrun.
  rewrite (get_obj_ok _ _ _ Ho2). mrun. cbn [shape set_bshape].
  unfold well_formed in Wo.
  destruct (shape o) as [|d sh0]; cbn [length Nat.eqb].
  - rewrite (get_obj_ok _ _ _ Ho2). mrun. cbn [data set_bshape].
    destruct (data o) as [|x l]; [done|]. cbn [lookup list_lookup]. mrun.
    by eexists _, _.
  - unfold _create_empty, np_empty, alloc, flat. mrun.
    rewrite (get_obj_ok _ _ _ Ho2). mrun.
    rewrite (get_obj_app _ _ _ _ _ Ho2). mrun. by eexists _, _.
Qed.
End Arctan2.

Section Copies.
Context {U : Type} `{Scalar U}.

(** [UncertainArray(arr, label=label)] on a plain [ndarray]. *)
Lemma new_of_ndarray (st : state U) arr buf d label :
  heap st !! arr = Some buf ->
  cls buf = Ndarray ->
  __new__ (Arr arr) d label st
  = (Ok (length (heap st)),
     set_heap st (heap st ++ [ArrObj Uarray (shape buf) (dtype_of buf)
                                     (data buf) label None])).
Proof.
  intros Hb Hc. unfold __new__, np_asarray.
  mred. rewrite (get_obj_ok _ _ _ Hb). mred.
  rewrite !decide_True by done. mred.
  rewrite (get_obj_ok _ _ _ Hb). mred.
  cbn [default from_option id]. rewrite !decide_True by done. mred.
  exact (new_tail st arr buf label Hb).
Qed.

(** X13.  [copy] of an array whose [_broadcasted_shape] is [None], as the
    constructor leaves it, gives a new [UncertainArray] with the shape
    and the label of [self] that holds [+x] for every element [x];
    [self] is as before. *)
Theorem copy_keeps_shape_and_label (st : state U) (self : ref) (o : arrobj U)
    (vs : list (pyval U)) :
  heap st !! self = Some o ->
  well_formed o ->
  _broadcasted_shape o = None ->
  Forall2 (fun x y => py_unop Pos x = Ok y) (data o) vs ->
  exists st' r res,
    copy self st = (Ok (Arr r), st')
    /\ length (heap st) <= r
    /\ heap st' !! r = Some res
    /\ cls res = Uarray
    /\ shape res = shape o
    /\ data res = vs
    /\ _label res = _label o
    /\ heap st' !! self = Some o.
Proof.
  intros Ho Wo Hbs Hall. unfold copy. mred.
  rewrite (create_empty_self _ _ _ _ Ho). mred.
  erewrite (fill_ok _ _ _ vs); [| apply lookup_alloc | |].
  - mred. cbn [set_heap heap warnings]. rewrite insert_alloc.
    set (st1 := set_heap (set_heap _ _) _).
    assert (heap st1 !! self = Some o) as Ho1.
    { unfold st1. cbn. by apply lookup_app_l_Some. }
    rewrite (get_obj_ok _ _ _ Ho1). mred.
    erewrite new_of_ndarray; [| apply lookup_alloc | done ].
    eexists _, _, _. split; [reflexivity|]. cbn [set_heap heap shape data].
    rewrite (target_shape_fresh _ Hbs).
    split; [unfold st1; cbn; rewrite length_app; lia|].
    split; [apply lookup_alloc|].
    split_and!; try done. by apply lookup_app_l_Some.
  - cbn [dtype_of empty_buffer default from_option id].
    apply Forall2_fmap_l. eapply Forall2_impl; [exact Hall|].
    intros x y E. cbn. by rewrite E.
  - cbn. rewrite length_map, length_replicate, (target_shape_fresh _ Hbs).
    exact Wo.
Qed.
End Copies.

Section Truncation.
Context {U : Type} `{Scalar U}.

(** The loop of a handler whose iterator is shorter than the buffer: the
    positions the iterator does not reach keep the content of the fresh
    buffer. *)
Lemma loop_partial (st : state U) self o inputs dt f its vs (wrapped : bool) :
  heap st !! self = Some o ->
  _create_empty self inputs dt st
  = (Ok (length (heap st), its),
     set_heap st (heap st ++ [empty_buffer (target_shape o) (default DObject dt)])) ->
  Forall2 (fun x v => result_bind (f x) (cast (default DObject dt)) = Ok v) its vs ->
  length its <= size_of (target_shape o) ->
  returns_array st
    ((let* '(arr, iterator) := _create_empty self inputs dt in
      let* _ := fill arr iterator f in
      if wrapped then wrap arr else ret (Arr arr)) st)
    (if wrapped then Uarray else Ndarray) (target_shape o) (default DObject dt)
    (vs ++ replicate (size_of (target_shape o) - length its)
                     (uninit (default DObject dt))).
Proof.
  intros Ho Hce Hall Hlen. mred. rewrite Hce. mred. unfold fill.
  erewrite (fill_from_ok _ _ 0 _ vs); [| apply lookup_alloc | exact Hall
    | by cbn; rewrite length_replicate ].
  mred. cbn [set_heap heap warnings]. rewrite insert_alloc.
  cbn [data empty_buffer take app]. rewrite drop_replicate.
  destruct wrapped.
  - erewrite wrap_ok; [| cbn [heap]; apply lookup_alloc | done ].
    eexists _, _, _. split; [reflexivity|]. cbn [set_heap heap].
    split; [rewrite length_app; lia|].
    split; [apply lookup_alloc|done].
  - eexists _, _, _. split; [reflexivity|]. cbn [heap].
    split; [lia|]. split; [apply lookup_alloc|done].
Qed.

Lemma map_result_cast_str (ls : list (pyval U)) :
  forallb is_str ls = true -> map_result (cast (discover ls)) ls = Ok ls.
Proof.
  intros Hs. destruct ls as [|l0 ls0]; [done|].
  unfold discover. rewrite Hs. revert Hs.
  generalize (l0 :: ls0). intros l. induction l as [|x l IH]; [done|].
  cbn [forallb]. intros [Hx Hl]%andb_prop. cbn [map_result].
  destruct x; try done. cbn. by rewrite (IH Hl).
Qed.

Lemma discover_str (ls : list (pyval U)) :
  ls <> [] -> forallb is_str ls = true -> discover ls = DStr.
Proof. intros Hne Hs. destruct ls; [done|]. unfold discover. by rewrite Hs. Qed.

(** X14.  [_intermediate] with a sequence of labels, on an array with at
    least one axis whose [_broadcasted_shape] is [None], as the
    constructor leaves it: the labels are paired with the elements from
    the first on, as far as the shorter of the two goes; with fewer
    labels than elements the call does not raise, and an element that no
    label is left for is [None] in the result. *)
Theorem intermediate_pairs_labels (st : state U) (self : ref) (o : arrobj U)
    (labels vs : list (pyval U)) :
  heap st !! self = Some o ->
  well_formed o ->
  shape o <> [] ->
  _broadcasted_shape o = None ->
  forallb is_str labels = true ->
  Forall2 (fun p y => core_result p.1 (Some p.2) = Ok y)
          (zip (data o) labels) vs ->
  exists st' r res,
    _intermediate self (Some (Seq labels)) st = (Ok (Arr r), st')
    /\ length (heap st) <= r
    /\ heap st' !! r = Some res
    /\ cls res = Uarray
    /\ shape res = shape o
    /\ data res = vs ++ replicate (length (data o) - length labels) VNone.
Proof.
  intros Ho Wo Hnd Hbs Hstr Hall. unfold _intermediate. mred.
  rewrite (get_obj_ok _ _ _ Ho). mred.
  cbn [Helpers.is_sequence negb]. rewrite andb_false_r.
  unfold np_asarray, alloc. mred. cbn [default from_option id].
  rewrite (map_result_cast_str _ Hstr). mred.
  rewrite decide_False by done.
  set (lab := ArrObj Ndarray [length labels] (discover labels) labels None None).
  set (st1 := State _ _).
  assert (heap st1 !! self = Some o) as Ho1 by (by apply lookup_app_l_Some).
  assert (heap st1 !! length (heap st) = Some lab) as Hl1 by apply lookup_alloc.
  destruct (loop_partial st1 self o (Some [Arr self; Arr (length (heap st))])
              None (on_pair (fun x lbl => core_result x (Some lbl)))
              (map Tup (izip [data o; data lab])) vs true Ho1)
    as (st' & r & res & E & Hr & Hres & Hcls & Hshape & _ & Hdata).
  - apply (create_empty_arrays st1 self o self _ o lab None Ho1 Ho1 Hl1).
  - cbn [data lab]. rewrite izip_zip, <- list_fmap_compose.
    apply Forall2_fmap_l. eapply Forall2_impl; [exact Hall|].
    intros p y E. cbn. by rewrite E.
  - cbn [data lab]. rewrite izip_zip, !length_map, length_zip.
    rewrite (target_shape_fresh _ Hbs). unfold well_formed in Wo. lia.
  - exists st', r, res. split; [exact E|].
    rewrite (target_shape_fresh _ Hbs) in Hshape, Hdata.
    split_and!; try done.
    + unfold st1 in Hr. cbn in Hr. rewrite length_app in Hr. lia.
    + rewrite Hdata. cbn [data lab default from_option id uninit].
      rewrite izip_zip, !length_map, length_zip.
      unfold well_formed in Wo. rewrite <- Wo. f_equal. f_equal. lia.
Qed.
End Truncation.

Section Sums.
Context {U : Type} `{Scalar U}.


End Sums.


Section Reporting.
Context {U : Type} `{Scalar U} `{ElementMethods U} `{NdarrayMethods U}.

(** The two methods that pair [self] with another array. *)
Definition reporting_methods : list (string * (ref -> pyarg U -> M U (pyarg U))) :=
  [ ("sensitivity", sensitivity); ("u_component", u_component) ].

(** X19.  [sensitivity] and [u_component] against an array [x], on an array
    with at least one axis whose [_broadcasted_shape] is [None], as the
    constructor leaves it: the elements of [self] and of [x] are paired
    in flat order, without broadcasting, as far as the shorter of the
    two goes; the result has the shape of [self], and an element of
    [self] that [x] has no partner for is [None] in it. *)
Theorem reporting_pairs_in_flat_order (name : string)
    (method : ref -> pyarg U -> M U (pyarg U)) (st : state U) (self x : ref)
    (o ox : arrobj U) (vs : list (pyval U)) :
  (name, method) ∈ reporting_methods ->
  heap st !! self = Some o ->
  heap st !! x = Some ox ->
  well_formed o ->
  shape o <> [] ->
  _broadcasted_shape o = None ->
  Forall2 (fun p y => call_method name p.1 p.2 = Ok y)
          (zip (data o) (data ox)) vs ->
  exists st' r res,
    method self (Arr x) st = (Ok (Arr r), st')
    /\ length (heap st) <= r
    /\ heap st' !! r = Some res
    /\ cls res = Uarray
    /\ shape res = shape o
    /\ data res = vs ++ replicate (length (data o) - length (data ox)) VNone.
Proof.
  intros Hin Ho Hx Wo Hnd Hbs Hall.
  assert (method = reporting name) as ->.
  { unfold reporting_methods in Hin.
    repeat (apply elem_of_cons in Hin as [[= -> ->]|Hin]);
      [ .. | by apply elem_of_nil in Hin ]; reflexivity. }
  clear Hin. unfold reporting, shape_of. mred.
  rewrite (get_obj_ok _ _ _ Ho). mred. rewrite decide_False by done.
  cbn [is_ndarray]. mred.
  destruct (loop_partial st self o (Some [Arr self; Arr x])
              None (on_pair (call_method name))
              (map Tup (izip [data o; data ox])) vs true Ho)
    as (st' & r & res & E & Hr & Hres & Hcls & Hshape & _ & Hdata).
  - apply (create_empty_arrays st self o self x o ox None Ho Ho Hx).
  - rewrite izip_zip, <- list_fmap_compose.
    apply Forall2_fmap_l. eapply Forall2_impl; [exact Hall|].
    intros p y E. cbn. by rewrite E.
  - rewrite izip_zip, !length_map, length_zip.
    rewrite (target_shape_fresh _ Hbs). unfold well_formed in Wo. lia.
  - exists st', r, res. split; [exact E|].
    rewrite (target_shape_fresh _ Hbs) in Hshape, Hdata.
    split_and!; try done.
    rewrite Hdata. cbn [default from_option id uninit].
    rewrite izip_zip, !length_map, length_zip.
    unfold well_formed in Wo. rewrite <- Wo. f_equal. f_equal. lia.
Qed.

(** X20.  [sensitivity] and [u_component] of an array with at least one axis
    whose [_broadcasted_shape] is [None], as the constructor leaves it,
    against one object [x] that is no array: [np.asarray(x)] is an array
    of one element, so the first element of [self] alone gets a
    result. *)
Theorem reporting_single_fills_first (name : string)
    (method : ref -> pyarg U -> M U (pyarg U)) (st : state U) (self : ref)
    (o : arrobj U) (x x' y0 y : pyval U) (rest : list (pyval U)) :
  (name, method) ∈ reporting_methods ->
  heap st !! self = Some o ->
  well_formed o ->
  shape o <> [] ->
  _broadcasted_shape o = None ->
  data o = y0 :: rest ->
  cast (discover [x]) x = Ok x' ->
  call_method name y0 x' = Ok y ->
  exists st' r res,
    method self (Obj x) st = (Ok (Arr r), st')
    /\ length (heap st) <= r
    /\ heap st' !! r = Some res
    /\ cls res = Uarray
    /\ shape res = shape o
    /\ data res = y :: replicate (length rest) VNone.
Proof.
  intros Hin Ho Wo Hnd Hbs Hdata Hcast Hcall.
  assert (method = reporting name) as ->.
  { unfold reporting_methods in Hin.
    repeat (apply elem_of_cons in Hin as [[= -> ->]|Hin]);
      [ .. | by apply elem_of_nil in Hin ]; reflexivity. }
  clear Hin. unfold reporting, shape_of. mred.
  rewrite (get_obj_ok _ _ _ Ho). mred. rewrite decide_False by done.
  cbn [is_ndarray]. unfold np_asarray, alloc. mred.
  cbn [default from_option id]. rewrite Hcast. mred.
  set (ox := ArrObj Ndarray [] (discover [x]) [x'] None None).
  set (st1 := State _ _).
  assert (heap st1 !! self = Some o) as Ho1 by (by apply lookup_app_l_Some).
  assert (heap st1 !! length (heap st) = Some ox) as Hx1 by apply lookup_alloc.
  destruct (loop_partial st1 self o (Some [Arr self; Arr (length (heap st))])
              None (on_pair (call_method name))
              (map Tup (izip [data o; data ox])) [y] true Ho1)
    as (st' & r & res & E & Hr & Hres & Hcls & Hshape & _ & Hd).
  - apply (create_empty_arrays st1 self o self _ o ox None Ho1 Ho1 Hx1).
  - rewrite Hdata. cbn. constructor; [cbn; by rewrite Hcall|].
    destruct rest; constructor.
  - rewrite Hdata. cbn. rewrite (target_shape_fresh _ Hbs).
    unfold well_formed in Wo. rewrite <- Wo, Hdata.
    destruct rest; cbn; lia.
  - exists st', r, res. split; [exact E|].
    rewrite (target_shape_fresh _ Hbs) in Hshape, Hd.
    split_and!; try done.
    + unfold st1 in Hr. cbn in Hr. rewrite length_app in Hr. lia.
    + rewrite Hd. cbn [default from_option id uninit].
      unfold well_formed in Wo. rewrite <- Wo, Hdata.
      by destruct rest.
Qed.
End Reporting.

Section Rounding.
Context {U : Type} `{Scalar U} `{ElementMethods U} `{NdarrayMethods U}.

(** What [round] stores for the element [x]: the result of
    [x._round(digits, df_decimals)] when [x] has that method, and of the
    builtin [round(x, digits)] when it has not. *)
Definition rounded (digits df_decimals x y : pyval U) : Prop :=
  (exists m, bound_method "_round" x = Ok m /\ m [digits; df_decimals] = Ok y)
  \/ ((exists msg, bound_method "_round" x = Err (Raise AttributeError msg))
      /\ py_round x digits = Ok y).

Lemma rounded_item digits df_decimals x y :
  rounded digits df_decimals x y -> round_item digits df_decimals x = Ok y.
Proof.
  unfold round_item. intros [(m & -> & Hm)|((msg & ->) & Hr)]; cbn.
  - by rewrite Hm.
  - exact Hr.
Qed.

(** X21.  [round] on an array whose [_broadcasted_shape] is [None], as the
    constructor leaves it, of any shape, the 0-dimensional one
    included: a new [UncertainArray] of the same shape.  The number of
    digits is the keyword [digits] when it is given and [decimals]
    otherwise; the digits of the degrees of freedom are the keyword
    [df_decimals] when it is given and the number of digits
    otherwise. *)
Theorem round_maps (st : state U) (self : ref) (o : arrobj U)
    (decimals : pyval U) (kwargs : list (string * pyval U))
    (vs : list (pyval U)) :
  heap st !! self = Some o ->
  well_formed o ->
  _broadcasted_shape o = None ->
  Forall2 (rounded (kwargs_get kwargs "digits" decimals)
                   (kwargs_get kwargs "df_decimals"
                               (kwargs_get kwargs "digits" decimals)))
          (data o) vs ->
  exists st' r res,
    round self decimals kwargs st = (Ok (Arr r), st')
    /\ length (heap st) <= r
    /\ heap st' !! r = Some res
    /\ cls res = Uarray
    /\ shape res = shape o
    /\ data res = vs.
Proof.
  intros Ho Wo Hbs Hall. unfold round.
  rewrite <- (target_shape_fresh _ Hbs).
  destruct (loop_filled st self o None None
              (on_item (round_item (kwargs_get kwargs "digits" decimals)
                 (kwargs_get kwargs "df_decimals"
                             (kwargs_get kwargs "digits" decimals))))
              (map One (data o)) vs true Ho (create_empty_self _ _ _ _ Ho))
    as (st' & r & res & E & Hr & Hres & Hcls & Hshape & _ & Hdata).
  - apply Forall2_fmap_l. eapply Forall2_impl; [exact Hall|].
    intros x y Hxy. cbn. by rewrite (rounded_item _ _ _ _ Hxy).
  - rewrite length_map, (target_shape_fresh _ Hbs). exact Wo.
  - by exists st', r, res.
Qed.
End Rounding.

Section ClassReductions.
Context {U : Type} `{Scalar U} `{ElementMethods U} `{NdarrayMethods U}.

(** The reductions of the class, each with the call of numpy it wraps
    and the kind it asks [np.asarray] for. *)
Definition reductions (axis : option nat) (args : list (pyarg U))
    (kwargs : list (string * pyarg U))
  : list ((ref -> M U (pyarg U)) * (ref -> M U (pyarg U)) * option dtype) :=
  [ (fun self => sum self axis, fun a => np_sum a axis, None);
    (fun self => mean self axis, fun a => np_mean a axis, None);
    (fun self => max self args kwargs,
     fun a => ndarray_method "max" a args kwargs, None);
    (fun self => min self args kwargs,
     fun a => ndarray_method "min" a args kwargs, None);
    (fun self => trace self args kwargs,
     fun a => ndarray_method "trace" a args kwargs, None);
    (fun self => cumprod self args kwargs,
     fun a => ndarray_method "cumprod" a args kwargs, None);
    (fun self => cumsum self args kwargs,
     fun a => ndarray_method "cumsum" a args kwargs, None);
    (fun self => prod self args kwargs,
     fun a => ndarray_method "prod" a args kwargs, None);
    (fun self => ptp self args kwargs,
     fun a => ndarray_method "ptp" a args kwargs, None);
    (fun self => any self args kwargs,
     fun a => ndarray_method "any" a args kwargs, Some DBool);
    (fun self => all self args kwargs,
     fun a => ndarray_method "all" a args kwargs, Some DBool) ].

(** X22.  Every reduction hands numpy the array that [np.asarray] makes of
    [self] and looks at what numpy returns: a plain array with at least
    one axis comes back as a new [UncertainArray] of the same shape, kind
    and elements; a 0-dimensional array, and anything that is no array,
    comes back as it is. *)
Theorem reduction_wraps_arrays (axis : option nat) (args : list (pyarg U))
    (kwargs : list (string * pyarg U)) (method numpy : ref -> M U (pyarg U))
    (d : option dtype) (st st1 st2 : state U) (self a : ref)
    (result : pyarg U) :
  (method, numpy, d) ∈ reductions axis args kwargs ->
  np_asarray (Arr self) d st = (Ok a, st1) ->
  numpy a st1 = (Ok result, st2) ->
  (forall r res,
     result = Arr r -> heap st2 !! r = Some res -> cls res = Ndarray ->
     shape res <> [] ->
     method self st
     = (Ok (Arr (length (heap st2))),
        set_heap st2 (heap st2 ++ [ArrObj Uarray (shape res) (dtype_of res)
                                          (data res) None None])))
  /\ (forall r res,
        result = Arr r -> heap st2 !! r = Some res -> shape res = [] ->
        method self st = (Ok result, st2))
  /\ (is_ndarray result = false -> method self st = (Ok result, st2)).
Proof.
  intros Hin Ha Hn.
  assert (method self st = rewrap result st2) as ->.
  { unfold reductions in Hin.
    repeat (apply elem_of_cons in Hin as [[= -> -> ->]|Hin]);
      [ .. | by apply elem_of_nil in Hin ];
      unfold sum, mean, max, min, trace, cumprod, cumsum, prod, ptp, any, all,
        reduction; mred; rewrite Ha; mred; by rewrite Hn. }
  unfold rewrap. split_and!.
  - intros r res -> Hr Hc Hs. mred. rewrite (get_obj_ok _ _ _ Hr). mred.
    rewrite decide_False by done. exact (wrap_ok st2 r res Hr Hc).
  - intros r res -> Hr Hs. mred. rewrite (get_obj_ok _ _ _ Hr). mred.
    by rewrite decide_True.
  - by destruct result.
Qed.
End ClassReductions.

Section Exact.
Context {U : Type} `{Scalar U}.

(** [keeps m]: whatever [m] does and returns, every object that was in
    the store is in it unchanged, [_broadcasted_shape] included. *)
Definition keeps {A} (m : M U A) : Prop :=
  forall st x st', m st = (x, st') ->
    forall r o, heap st !! r = Some o -> heap st' !! r = Some o.

Lemma keeps_reads {A} (P : A -> Prop) (m : M U A) : reads P m -> keeps m.
Proof. intros Hm st x st' E. by apply Hm in E as [-> _]. Qed.

Lemma keeps_bind {A B} (m : M U A) (k : A -> M U B) :
  keeps m -> (forall a, keeps (k a)) -> keeps (bind m k).
Proof.
  intros Hm Hk st x st'. unfold bind.
  destruct (m st) as [[a|e] st1] eqn:E; intros E' r o Hr.
  - eapply Hk; [exact E'|]. by eapply Hm.
  - simplify_eq. by eapply Hm.
Qed.

Lemma keeps_ret {A} (a : A) : keeps (ret (U := U) a).
Proof. by intros st x st' [= <- <-]. Qed.

Lemma keeps_raise {A} c msg : keeps (raise (U := U) (A := A) c msg).
Proof. by intros st x st' [= <- <-]. Qed.

Lemma keeps_lift {A} (r : result A) : keeps (lift (U := U) r).
Proof. by intros st x st' [= <- <-]. Qed.

Lemma keeps_get_obj r : keeps (get_obj (U := U) r).
Proof. eapply keeps_reads, reads_get_obj. Qed.

Lemma keeps_alloc o : keeps (alloc (U := U) o).
Proof.
  intros st x st' [= <- <-] r o' Hr. cbn. by apply lookup_app_l_Some.
Qed.

Ltac keeps_step :=
  repeat first
    [ apply keeps_ret | apply keeps_raise | apply keeps_lift
    | apply keeps_get_obj | apply keeps_alloc
    | apply keeps_bind; [|intros ?]
    | match goal with
      | |- keeps (match ?x with _ => _ end) => destruct x
      | |- keeps (if ?b then _ else _) => destruct b
      | |- keeps (let '(_, _) := ?x in _) => destruct x
      end ].

Lemma keeps_shape_of x : keeps (shape_of (U := U) x).
Proof. unfold shape_of. keeps_step. Qed.

Lemma keeps_item0 x : keeps (item0 (U := U) x).
Proof. eapply keeps_reads, reads_item0. Qed.

Lemma keeps_nth_input inputs k : keeps (nth_input (U := U) inputs k).
Proof. eapply keeps_reads, reads_nth_input. Qed.

Lemma keeps_item_of inputs k : keeps (item_of (U := U) inputs k).
Proof.
  unfold item_of. apply keeps_bind; [apply keeps_nth_input|].
  intros x. apply keeps_item0.
Qed.

Lemma keeps_np_asarray x d : keeps (np_asarray x d).
Proof. unfold np_asarray. keeps_step. Qed.

(** [older st0 st]: the objects of [st0] are in [st], unchanged. *)
Definition older (st0 st : state U) : Prop :=
  forall r o, heap st0 !! r = Some o -> heap st !! r = Some o.

Lemma older_update_fresh (st0 st st' : state U) r f x :
  older st0 st ->
  length (heap st0) <= r ->
  update_obj r f st = (x, st') ->
  older st0 st'.
Proof.
  intros Hold Hr. unfold update_obj.
  destruct (heap st !! r) as [o|] eqn:Ho; intros [= <- <-]; [|done].
  intros r' o' Ho'. cbn. rewrite list_lookup_insert_ne; [by apply Hold|].
  apply lookup_lt_Some in Ho'. lia.
Qed.

Lemma older_itemset_fresh (st0 st st' : state U) a i v x :
  older st0 st ->
  length (heap st0) <= a ->
  itemset a i v st = (x, st') ->
  older st0 st'.
Proof.
  intros Hold Ha. unfold itemset, get_obj. mred.
  destruct (heap st !! a) as [o|] eqn:Ho; [|by intros [= <- <-]].
  destruct (i <? length (data o)); [|by intros [= <- <-]].
  destruct (cast (dtype_of o) v); [|by intros [= <- <-]].
  by apply older_update_fresh.
Qed.

Lemma older_fill_fresh (st0 : state U) arr its : forall i f st x st',
  older st0 st ->
  length (heap st0) <= arr ->
  fill_from arr i its f st = (x, st') ->
  older st0 st'.
Proof.
  induction its as [|y t IH]; intros i f st x st' Hold Harr; simpl.
  - by intros [= <- <-].
  - mred. destruct (f y); [|by intros [= <- <-]].
    destruct (itemset arr i a st) as [[[]|e] st1] eqn:E.
    + apply IH; [|done]. by eapply older_itemset_fresh.
    + intros [= <- <-]. by eapply older_itemset_fresh.
Qed.

Lemma keeps_view_label a (f : arrobj U -> arrobj U) :
  keeps (let* obj := view a in
         let* _ := update_obj obj f in
         ret obj).
Proof.
  intros st x st'. unfold view, get_obj, alloc. mred.
  destruct (heap st !! a) as [o|]; [|by intros [= <- <-]].
  match goal with
  | |- context [update_obj ?r ?g ?s] =>
      destruct (update_obj r g s) as [[[]|e] st2] eqn:E
  end; intros [= <- <-];
    (eapply (older_update_fresh st); [| |exact E]);
    [ intros r o' Hr; cbn; by apply lookup_app_l_Some | done
    | intros r o' Hr; cbn; by apply lookup_app_l_Some | done ].
Qed.

Lemma keeps_new array d label : keeps (__new__ array d label).
Proof.
  unfold __new__. apply keeps_bind; [keeps_step|]. intros dt.
  apply keeps_bind; [apply keeps_np_asarray|]. intros a.
  apply keeps_view_label.
Qed.

Lemma keeps_wrap arr : keeps (wrap (U := U) arr).
Proof.
  unfold wrap. apply keeps_bind; [apply keeps_new|].
  intros r. apply keeps_ret.
Qed.

Lemma older_refl (st : state U) : older st st.
Proof. by intros r o Hr. Qed.

Lemma older_app (st : state U) l w : older st (State (heap st ++ l) w).
Proof. intros r o Hr. cbn. by apply lookup_app_l_Some. Qed.

(** [_create_empty] adds the buffer and changes nothing. *)
Lemma create_empty_older (st st1 : state U) self inputs dt x :
  _create_empty self inputs dt st = (x, st1) ->
  older st st1
  /\ forall arr it, x = Ok (arr, it) -> length (heap st) <= arr.
Proof.
  unfold _create_empty, get_obj. unfold bind at 1.
  destruct (heap st !! self) as [o|];
    [|intros [= <- <-]; split; [apply older_refl|done]].
  unfold np_empty. erewrite bind_ok by reflexivity.
  match goal with
  | |- ?m ?s = _ -> _ =>
      assert (reads (fun p : ref * list (item U) => p.1 = length (heap st)) m)
        as Hro
  end.
  { repeat first
      [ apply reads_flat | apply reads_nth_input | apply reads_iter_all
      | apply reads_ret; done
      | eapply reads_bind; [|intros ? ?]
      | match goal with
        | |- reads _ (match ?x with _ => _ end) => destruct x
        | |- reads _ (if ?b then _ else _) => destruct b
        end ]. }
  intros E. apply Hro in E as [-> E]. split; [apply older_app|].
  intros arr it ->. specialize (E _ eq_refl). cbn in E. lia.
Qed.

Lemma keeps_loop self inputs dt f (k : ref -> M U (pyarg U)) :
  (forall arr, keeps (k arr)) ->
  keeps (let* '(arr, iterator) := _create_empty self inputs dt in
         let* _ := fill arr iterator f in
         k arr).
Proof.
  intros Hk st x st'. unfold bind at 1.
  destruct (_create_empty self inputs dt st) as [[[arr it]|e] st1] eqn:E;
    apply create_empty_older in E as [Hold Harr]; [|by intros [= <- <-]].
  specialize (Harr _ _ eq_refl). unfold bind at 1, fill.
  destruct (fill_from arr 0 it f st1) as [[[]|e] st2] eqn:E.
  - intros E' r o Hr. eapply Hk; [exact E'|].
    by eapply (older_fill_fresh st).
  - intros [= <- <-]. by eapply (older_fill_fresh st).
Qed.

Lemma keeps_ndim self : keeps (ndim (U := U) self).
Proof. unfold ndim. keeps_step. Qed.

Lemma keeps_elementwise_self self op dt : keeps (elementwise_self self op dt).
Proof.
  unfold elementwise_self. apply keeps_bind; [apply keeps_shape_of|].
  intros sh. destruct (decide (sh = [])).
  - apply keeps_bind; [apply keeps_item0|]. intros x. keeps_step.
  - apply keeps_loop. intros arr. apply keeps_wrap.
Qed.

Lemma keeps_elementwise_inputs self inputs op0 op dt w :
  keeps (elementwise_inputs self inputs op0 op dt w).
Proof.
  unfold elementwise_inputs. apply keeps_bind; [apply keeps_ndim|].
  intros nd. destruct (nd =? 0).
  - apply keeps_bind; [apply keeps_item0|]. intros x. keeps_step.
  - apply keeps_loop. intros arr.
    destruct w; [apply keeps_wrap|apply keeps_ret].
Qed.

Lemma keeps_pairwise self inputs scalar0 op dt w :
  keeps scalar0 -> keeps (pairwise self inputs scalar0 op dt w).
Proof.
  intros H0. unfold pairwise. apply keeps_bind; [apply keeps_ndim|].
  intros nd. destruct (nd =? 0).
  - apply keeps_bind; [done|]. intros v. apply keeps_ret.
  - apply keeps_loop. intros arr.
    destruct w; [apply keeps_wrap|apply keeps_ret].
Qed.

Lemma keeps_strict0 inputs op : keeps (strict0 inputs op).
Proof.
  unfold strict0. apply keeps_bind; [apply keeps_item_of|]. intros a.
  apply keeps_bind; [apply keeps_item_of|]. intros b. apply keeps_lift.
Qed.

Lemma keeps_and0 inputs : keeps (and0 inputs).
Proof.
  unfold and0. apply keeps_bind; [apply keeps_item_of|]. intros a.
  apply keeps_bind; [apply keeps_lift|]. intros [|];
    [apply keeps_item_of|apply keeps_ret].
Qed.

Lemma keeps_or0 inputs : keeps (or0 inputs).
Proof.
  unfold or0. apply keeps_bind; [apply keeps_item_of|]. intros a.
  apply keeps_bind; [apply keeps_lift|]. intros [|];
    [apply keeps_ret|apply keeps_item_of].
Qed.

Lemma keeps_atan2 self inputs : keeps (_atan2 self inputs).
Proof.
  unfold _atan2. apply keeps_bind; [apply keeps_ndim|].
  intros nd. destruct (nd =? 0).
  - apply keeps_bind; [apply keeps_item0|]. intros a.
    apply keeps_bind; [apply keeps_item_of|]. intros b. keeps_step.
  - apply keeps_bind; [apply keeps_nth_input|]. intros x0.
    apply keeps_loop. intros arr. apply keeps_wrap.
Qed.

Lemma keeps_arctan2 self inputs : keeps (_arctan2 self inputs).
Proof.
  unfold _arctan2. apply keeps_bind; [apply keeps_nth_input|].
  intros x1. apply keeps_atan2.
Qed.

Lemma keeps_logical_not self inputs : keeps (_logical_not self inputs).
Proof. unfold _logical_not. apply keeps_loop. intros arr. apply keeps_ret. Qed.

(** No handler of the table writes to an object that was in the
    store. *)
Lemma keeps_methods name attr self inputs :
  getattr methods name = Some attr -> keeps (attr self inputs).
Proof.
  unfold methods. cbn [getattr].
  repeat (destruct (String.eqb _ name);
          [ intros [= <-];
            first [ apply keeps_elementwise_self
                  | apply keeps_elementwise_inputs
                  | apply keeps_pairwise;
                    first [ apply keeps_strict0 | apply keeps_and0
                          | apply keeps_or0 ]
                  | apply keeps_arctan2
                  | apply keeps_logical_not
                  | apply keeps_raise ]
          | ]).
  done.
Qed.

(** X17.  A call with one input changes no object that was in the store: in
    particular it leaves the broadcast shape that an earlier two-input
    call recorded on [self] where it is. *)
Theorem one_input_changes_nothing (self : ref) (ufunc method : string)
    (input : pyarg U) (kwargs : list (string * pyarg U))
    (st st' : state U) (x : result (pyarg U)) (r : ref) (o : arrobj U) :
  __array_ufunc__ self ufunc method [input] kwargs st = (x, st') ->
  heap st !! r = Some o ->
  heap st' !! r = Some o.
Proof.
  unfold __array_ufunc__.
  destruct (getattr methods ("_" +:+ ufunc)) as [attr|] eqn:Hattr;
    [|by intros [= <- <-]].
  cbn [length Nat.eqb]. intros E Hr.
  destruct kwargs as [|kw kws].
  - exact (keeps_methods _ _ self [input] Hattr _ _ _ E r o Hr).
  - unfold bind at 1, warn in E.
    exact (keeps_methods _ _ self [input] Hattr _ _ _ E r o Hr).
Qed.

(** [scratch self m]: [m] leaves every object that was in the store as
    it was, but for the attribute [_broadcasted_shape] of [self]. *)
Definition scratch {A} (self : ref) (m : M U A) : Prop :=
  forall st x st', m st = (x, st') ->
    forall r o, heap st !! r = Some o ->
      exists o', heap st' !! r = Some o'
        /\ (o' = o \/ (r = self /\ exists s, o' = set_bshape o s)).

Lemma scratch_keeps {A} self (m : M U A) : keeps m -> scratch self m.
Proof. intros Hm st x st' E r o Hr. exists o. split; [by eapply Hm|by left]. Qed.

Lemma scratch_bind {A B} self (m : M U A) (k : A -> M U B) :
  scratch self m -> (forall a, scratch self (k a)) -> scratch self (bind m k).
Proof.
  intros Hm Hk st x st'. unfold bind.
  destruct (m st) as [[a|e] st1] eqn:E; intros E' r o Hr.
  - destruct (Hm _ _ _ E r o Hr) as (o1 & Hr1 & H1).
    destruct (Hk a _ _ _ E' r o1 Hr1) as (o2 & Hr2 & H2).
    exists o2. split; [done|].
    destruct H1 as [->|(-> & s1 & ->)]; [done|].
    destruct H2 as [->|(_ & s2 & ->)]; right; (split; [done|]); by eexists.
  - simplify_eq. by eapply Hm.
Qed.

Lemma scratch_set_broadcasted_shape self s :
  scratch self (set_broadcasted_shape (U := U) self s).
Proof.
  intros st x st'. unfold set_broadcasted_shape, update_obj.
  destruct (heap st !! self) as [o|] eqn:Ho; intros [= <- <-] r o' Hr.
  - cbn. destruct (decide (self = r)) as [->|Hne].
    + rewrite list_lookup_insert_eq by (by eapply lookup_lt_Some).
      simplify_eq. eexists. split; [done|]. right. split; [done|]. by exists s.
    + rewrite list_lookup_insert_ne by done. exists o'. by split; [|left].
  - exists o'. by split; [|left].
Qed.

Lemma keeps_np_full sh v : keeps (np_full (U := U) sh v).
Proof. apply keeps_alloc. Qed.

Lemma keeps_np_broadcast a b : keeps (np_broadcast (U := U) a b).
Proof. unfold np_broadcast. keeps_step. Qed.

Lemma keeps_warn kw : keeps (warn (U := U) kw).
Proof. by intros st x st' [= <- <-]. Qed.

(** X16.  Whatever a dispatched call is given and however it ends, every
    array that was in the store is still there, unchanged but for the
    attribute [_broadcasted_shape] of [self]: class, shape, element
    kind, elements and label are never written. *)
Theorem dispatch_writes_scratch_only (self : ref) (ufunc method : string)
    (inputs : list (pyarg U)) (kwargs : list (string * pyarg U))
    (st st' : state U) (x : result (pyarg U)) (r : ref) (o : arrobj U) :
  __array_ufunc__ self ufunc method inputs kwargs st = (x, st') ->
  heap st !! r = Some o ->
  exists o',
    heap st' !! r = Some o'
    /\ (o' = o \/ (r = self /\ exists s, o' = set_bshape o s)).
Proof.
  intros E Hr.
  enough (scratch self (__array_ufunc__ self ufunc method inputs kwargs)) as Hs
    by exact (Hs _ _ _ E r o Hr).
  clear. unfold __array_ufunc__.
  destruct (getattr methods ("_" +:+ ufunc)) as [attr|] eqn:Hattr;
    [|apply scratch_keeps, keeps_raise].
  pose proof (fun inputs =>
    scratch_keeps self _ (keeps_methods _ _ self inputs Hattr)) as Hm.
  apply scratch_bind.
  { apply scratch_keeps. destruct kwargs; [apply keeps_ret|apply keeps_warn]. }
  intros _.
  destruct (length inputs =? 1); [apply Hm|].
  destruct (length inputs =? 2); [|apply scratch_keeps, keeps_raise].
  repeat first
    [ apply Hm
    | apply scratch_set_broadcasted_shape
    | apply scratch_keeps;
      first [ apply keeps_nth_input | apply keeps_shape_of
            | apply keeps_np_full | apply keeps_np_asarray
            | apply keeps_np_broadcast | apply keeps_ret
            | apply keeps_raise ]
    | apply scratch_bind; [|intros ?]
    | match goal with
      | |- scratch _ (match ?x with _ => _ end) => destruct x
      | |- scratch _ (if ?b then _ else _) => destruct b
      | |- scratch _ (let '(_, _) := ?x in _) => destruct x
      end ].
Qed.
End Exact.

Section FromSequences.
Context {U : Type} `{Scalar U} `{ElementMethods U} `{NdarrayMethods U}.

(** X27.  Constructing an [UncertainArray] from a flat list, without a hint:
    the array has one axis and holds the objects of the list as they
    are, none converted to a numpy number; it carries the label given
    and no broadcast shape.  [np.asarray] leaves its own array in the
    store. *)
Theorem constructed_from_sequence (l : list (pyval U)) (lbl : option string)
    (st : state U) :
  let r := S (length (heap st)) in
  let st' :=
    set_heap st (heap st ++ [ArrObj Ndarray [length l] DObject l None None;
                             ArrObj Uarray [length l] DObject l lbl None]) in
  __new__ (Seq l) None lbl st = (Ok r, st')
  /\ label r st' = (Ok lbl, st').
Proof.
  intros r st'. split.
  - unfold __new__. set (tail := fun a : ref => bind (view a) _).
    unfold np_asarray, alloc. mred. cbn [default from_option id].
    rewrite map_result_cast_object. mred. unfold tail.
    rewrite (new_tail _ (length (heap st))
               (ArrObj Ndarray [length l] DObject l None None) lbl)
      by apply lookup_alloc.
    cbn [set_heap heap warnings shape dtype_of data].
    rewrite length_app. cbn [length]. rewrite Nat.add_1_r.
    by rewrite <- app_assoc.
  - unfold label. mred.
    rewrite (get_obj_ok st' r (ArrObj Uarray [length l] DObject l lbl None));
      [done|].
    unfold st', r. cbn [set_heap heap].
    rewrite lookup_app_r by lia.
    by replace (S (length (heap st)) - length (heap st)) with 1 by lia.
Qed.
End FromSequences.

(** ** IEEE facts used below *)

Section Floats.

Lemma SFsub_diag (s : spec_float) :
  SFabs (SFsub prec emax s s) = S754_zero false
  \/ SFabs (SFsub prec emax s s) = S754_nan.
Proof.
  destruct s as [[]|[]| |sx m e]; cbn; auto.
  rewrite Z.sub_diag. by left.
Qed.

Lemma SFadd_opp_diag (s : spec_float) :
  SFabs (SFadd prec emax (SFopp s) s) = S754_zero false
  \/ SFabs (SFadd prec emax (SFopp s) s) = S754_nan.
Proof.
  destruct s as [[]|[]| |sx m e]; cbn; auto.
  destruct sx; cbn;
    rewrite ?Z.add_opp_diag_r, ?Z.add_opp_diag_l; by left.
Qed.

Lemma SFltb_nan_r (s : spec_float) : SFltb s S754_nan = false.
Proof. unfold SFltb, SFcompare. by destruct s as [| | |[] ? ?]. Qed.

(** A tolerance that is not negative is exceeded neither by [|x - x|]
    nor by [|-y + y|], which are 0 or NaN. *)
Lemma sub_diag_within (eps x : float) :
  (eps <? 0)%float = false -> (eps <? abs (x - x))%float = false.
Proof.
  intros He. rewrite FloatAxioms.ltb_spec in He |- *.
  rewrite FloatAxioms.abs_spec, FloatAxioms.sub_spec. unfold SF64sub.
  destruct (SFsub_diag (Prim2SF x)) as [-> | ->];
    [exact He | apply SFltb_nan_r].
Qed.

Lemma add_opp_within (eps y : float) :
  (eps <? 0)%float = false -> (eps <? abs (- y + y))%float = false.
Proof.
  intros He. rewrite FloatAxioms.ltb_spec in He |- *.
  rewrite FloatAxioms.abs_spec, FloatAxioms.add_spec, FloatAxioms.opp_spec.
  unfold SF64add.
  destruct (SFadd_opp_diag (Prim2SF y)) as [-> | ->];
    [exact He | apply SFltb_nan_r].
Qed.

Lemma SFadd_comm (s t : spec_float) :
  SFadd prec emax s t = SFadd prec emax t s.
Proof.
  destruct s as [[]|[]| |sx mx ex], t as [[]|[]| |sy my ey]; cbn; try done.
  by rewrite (Z.min_comm ex ey), Z.add_comm.
Qed.

Lemma float_add_comm (a b : float) : (a + b = b + a)%float.
Proof.
  apply Prim2SF_inj. rewrite !FloatAxioms.add_spec. apply SFadd_comm.
Qed.

End Floats.

(** ** The module [function] *)

Module FunctionProperties.
Import Function.

(** X23.  [seq_to_complex] inverts [complex_to_seq] on numbers: for every
    [bool], [int], [float] or [complex] that [complex] converts, NaN and
    the infinities included, and every tolerance [EPSILON] that is not
    negative, the four numbers of [complex_to_seq(z)] pass the test of
    conditioning and give back [complex(z)]. *)
Theorem seq_to_complex_inverts_complex_to_seq (EPSILON : float)
    (z : pyval Env.unum) (re im : float) (st : state Env.unum) :
  (EPSILON <? 0)%float = false ->
  complex1 z = Ok (re, im) ->
  exists l,
    complex_to_seq z = Ok l
    /\ seq_to_complex EPSILON st (Seq l) = Return (VComplex re im).
Proof.
  intros He Hz. unfold complex_to_seq. rewrite Hz. cbn [result_bind].
  eexists. split; [reflexivity|].
  unfold seq_to_complex, conditioned, ill_conditioned, exceeds.
  cbn -[PrimFloat.ltb PrimFloat.abs PrimFloat.sub PrimFloat.add PrimFloat.opp].
  rewrite (sub_diag_within _ _ He).
  cbn -[PrimFloat.ltb PrimFloat.abs PrimFloat.sub PrimFloat.add PrimFloat.opp].
  rewrite (add_opp_within _ _ He). reflexivity.
Qed.

Lemma binop_plain_add_comm (b c : pyval Env.unum) :
  Env.binop_plain Add b c = Env.binop_plain Add c b.
Proof.
  unfold Env.binop_plain.
  destruct (Env.as_num b) as [[x|x]|], (Env.as_num c) as [[y|y]|]; try done.
  - cbn. by rewrite Z.add_comm.
  - unfold Env.arith_mixed. cbn [Env.is_comparison andb Env.to_float].
    destruct (Helpers.float_overflows x); [done|]. cbn.
    by rewrite float_add_comm.
  - unfold Env.arith_mixed. cbn [Env.is_comparison andb Env.to_float].
    destruct (Helpers.float_overflows y); [done|]. cbn.
    by rewrite float_add_comm.
  - cbn. by rewrite float_add_comm.
Qed.

(** X24.  An array of kind object and shape (2,2) is read as the flat
    sequence of its four elements: the two branches of [seq_to_complex]
    give the same complex number, or fail alike.  (The elements of an
    integer array are 64-bit numpy integers, whose sums wrap around
    where those of Python's [int] do not.) *)
Theorem seq_to_complex_array_as_flat (EPSILON : float) (st : state Env.unum)
    (r : ref) (o : arrobj Env.unum) :
  heap st !! r = Some o ->
  shape o = [2; 2] ->
  dtype_of o = DObject ->
  well_formed o ->
  seq_to_complex EPSILON st (Arr r) = seq_to_complex EPSILON st (Seq (data o)).
Proof.
  intros Ho Hs Hd Wo. unfold well_formed in Wo. rewrite Hs in Wo.
  unfold seq_to_complex. rewrite Ho, Hs, Hd. cbn [decide_rel].
  rewrite !decide_True by done.
  destruct (data o) as [|a [|b [|c [|d [|]]]]]; try done.
  unfold conditioned, ill_conditioned, element_binop.
  cbn [ravel size_of foldr Nat.mul Nat.add index lookup list_lookup result_bind].
  cbn [py_binop Env.plain].
  by rewrite (binop_plain_add_comm c b).
Qed.

(** X25.  [mul2] returns for no arguments.  As the module is imported, the
    name [UncertainComplex] is bound nowhere, and the first test raises
    [NameError]; were that name bound, every path that does not raise
    [RuntimeError] would still call a function that is defined
    nowhere. *)
Theorem mul2_never_returns {U : Type} (is_real is_complex : pyval U -> bool)
    (call : string -> list (pyval U) -> outcome (pyval U))
    (arg1 arg2 : pyval U) (estimated : bool) :
  mul2 in_module is_real is_complex call arg1 arg2 estimated
    = Fail (NameError "UncertainComplex")
  /\ forall bound : string -> bool,
       bound "_simple_variance" = false ->
       bound "mult_2nd_real_pair" = false ->
       exists f,
         mul2 bound is_real is_complex call arg1 arg2 estimated = Fail f.
Proof.
  split; [reflexivity|].
  intros bound H1 H2.
  unfold mul2, is_uncertain, isinstance, required, simple_variance,
    call_named, name.
  rewrite H1, H2.
  repeat match goal with
  | |- context [if bound ?n then _ else _] => destruct (bound n)
  | |- context [if negb ?b then _ else _] => destruct b
  | |- context [if is_real ?a then _ else _] => destruct (is_real a)
  | |- context [if is_complex ?a then _ else _] => destruct (is_complex a)
  | |- context [is_real ?a || _] => destruct (is_real a)
  | |- context [is_complex ?a] => destruct (is_complex a)
  | _ => progress cbn [outcome_bind negb orb]
  end; try (by eexists).
Qed.

Lemma builtins_sum_ints (zs : list Z) (acc : Z) :
  foldl (fun acc b => result_bind acc (fun s => py_binop Add s b))
        (Ok (VInt acc)) (map VInt zs)
  = Ok (VInt (acc + foldr Z.add 0 zs)%Z : pyval Env.unum).
Proof.
  revert acc. induction zs as [|z zs IH]; intros acc; cbn.
  - by rewrite Z.add_0_r.
  - rewrite IH. by rewrite Z.add_assoc.
Qed.

(** X26.  The module's [sum] of a list of [int]s is their exact sum, also
    when the list is empty or the sum is large.  [mean] of a list that
    is not empty, whose sum and length are at most [2^53] in magnitude
    and so convert to [float] exactly, is the quotient of the two as
    floats; the mean of the empty list raises [ZeroDivisionError]. *)
Theorem sum_and_mean_of_ints (zs : list Z) (axis : option nat)
    (st : state Env.unum) :
  Function.sum (Seq (map VInt zs)) axis st
    = (Return (Obj (VInt (foldr Z.add 0%Z zs))), st)
  /\ (zs <> [] ->
      (Z.abs (foldr Z.add 0 zs) <= 2 ^ 53)%Z ->
      (Z.of_nat (length zs) <= 2 ^ 53)%Z ->
      Function.mean (Seq (map VInt zs)) axis st
      = (Return (Obj (VFloat (Env.float_of_Z (foldr Z.add 0%Z zs)
                              / Env.float_of_Z (Z.of_nat (length zs))))), st))
  /\ Function.mean (Seq []) axis st
    = (Fail (Raised (Raise ZeroDivisionError "division by zero")), st).
Proof.
  assert (Function.sum (Seq (map VInt zs)) axis st
          = (Return (Obj (VInt (foldr Z.add 0%Z zs))), st)) as Hsum.
  { unfold Function.sum. cbn [is_ndarray Helpers.is_sequence orb elements
      of_result outcome_bind]. unfold builtins_sum.
    by rewrite builtins_sum_ints. }
  split; [exact Hsum|]. split; [|reflexivity].
  intros Hne Hs Hl.
  unfold Function.mean. cbn [Helpers.is_sequence].
  unfold Function.sum in *. cbn [is_ndarray Helpers.is_sequence orb elements
      of_result outcome_bind] in *. unfold builtins_sum in *.
  rewrite builtins_sum_ints. cbn [of_result outcome_bind len divide].
  rewrite length_map.
  cbn [py_binop Env.plain Env.binop_plain Env.as_num]. unfold Env.arith_int.
  destruct (Z.eqb_spec (Z.of_nat (length zs)) 0) as [E|_].
  { destruct zs; [done|]. cbn in E. lia. }
  unfold Env.small. rewrite !Z.add_0_l.
  rewrite (proj2 (Z.leb_le _ _) Hs).
  rewrite (proj2 (Z.leb_le (Z.abs (Z.of_nat (length zs))) _)) by lia.
  reflexivity.
Qed.

End FunctionProperties.

(** ** The engine on concrete arrays, in the executable environment *)

Module Examples.

Abbreviation elem := (pyval Env.unum).

(** An [UncertainArray] of kind object, as [uarray(...)] builds it. *)
Definition uarray (sh : shape_t) (l : list elem) : arrobj Env.unum :=
  ArrObj Uarray sh DObject l None None.

Definition store (h : list (arrobj Env.unum)) : state Env.unum := State h [].

(** The object a call returned, when it returned an array. *)
Definition returned (x : result (pyarg Env.unum) * state Env.unum)
  : option (arrobj Env.unum) :=
  match x with
  | (Ok (Arr r), st') => heap st' !! r
  | _ => None
  end.

(** A numpy ufunc called with positional inputs only; numpy hands the
    call to the [__array_ufunc__] of the array [self]. *)
Definition call (ufunc : string) (self : ref) (inputs : list (pyarg Env.unum))
  : M Env.unum (pyarg Env.unum) :=
  __array_ufunc__ self ufunc "__call__" inputs [].

(** Two 0-dimensional arrays holding 1 and 2. *)
Definition scalars : state Env.unum :=
  store [uarray [] [VInt 1]; uarray [] [VInt 2]].

(** C1, counterexample.  The sum of two 0-dimensional arrays is the bare
    scalar sum: no array is returned. *)
Lemma C1_add_0d_returns_scalar :
  call "add" 0 [Arr 0; Arr 1] scalars = (Ok (Obj (VInt 3)), scalars).
Proof. reflexivity. Qed.

(** A row [[1, 2, 3]] and a matrix [[1, 2, 3], [4, 5, 6]]. *)
Definition row_matrix : state Env.unum :=
  store [uarray [1; 3] [VInt 1; VInt 2; VInt 3];
         uarray [2; 3] [VInt 1; VInt 2; VInt 3; VInt 4; VInt 5; VInt 6]].

(** A row added to a matrix. *)
Lemma C1_witness :
  broadcast_shapes [1; 3] [2; 3] = Some [2; 3]
  /\ exists st' r o,
       call "add" 0 [Arr 0; Arr 1] row_matrix = (Ok (Arr r), st')
       /\ length (heap row_matrix) <= r
       /\ heap st' !! r = Some o
       /\ cls o = Uarray
       /\ shape o = [2; 3]
       /\ data o = [VInt 2; VInt 4; VInt 6; VInt 5; VInt 7; VInt 9].
Proof.
  split; [reflexivity|].
  apply (C1_add_broadcasts row_matrix 0 1
           (uarray [1; 3] [VInt 1; VInt 2; VInt 3])
           (uarray [2; 3] [VInt 1; VInt 2; VInt 3; VInt 4; VInt 5; VInt 6])
           [2; 3]
           (fun i => nth i [VInt 2; VInt 4; VInt 6; VInt 5; VInt 7; VInt 9]
                         VNone));
    try reflexivity.
  - discriminate.
  - intros i Hi.
    do 6 (destruct i as [|i]; [reflexivity|]).
    exfalso. cbn in Hi. lia.
Defined.

(** A 0-dimensional array holding 1.0. *)
Definition one : state Env.unum := store [uarray [] [VFloat 1]].

(** C2, the code at the failing input.  On the 0-dimensional array
    holding 1.0, [isfinite] returns [False], the answer of the infinity
    test, while the finiteness test the array branch applies to the same
    element is [True]. *)
Theorem C2_isfinite_0d_answers_isinf :
  call "isfinite" 0 [Arr 0] one = (Ok (Obj (VBool false)), one)
  /\ isfinite_item (VFloat 1 : elem) = Ok (VBool true).
Proof. split; reflexivity. Qed.

(** [logical_not] on the same array allocates a 0-dimensional [bool]
    array and returns it. *)
Lemma logical_not_0d_materializes :
  returned (call "logical_not" 0 [Arr 0] one)
  = Some (ArrObj Ndarray [] DBool [VBool false] None None).
Proof. reflexivity. Qed.

(** [[1, NaN]] and [[NaN, 2]]. *)
Definition nans : state Env.unum :=
  store [uarray [2] [VInt 1; VFloat nan]; uarray [2] [VFloat nan; VInt 2]].

(** C3, counterexample.  Element 0 of the maximum is NaN, not 1, and
    element 1 is NaN, not 2. *)
Lemma C3_maximum_element_is_nan :
  data <$> returned (call "maximum" 0 [Arr 0; Arr 1] nans)
  = Some [VFloat nan; VFloat nan].
Proof. reflexivity. Qed.

(** C3, witness.  On [[1, NaN]] and [[NaN, 2]] both elements of the
    elementwise maximum and of the elementwise minimum are NaN. *)
Lemma C3_witness :
  (exists st' r res,
     call "maximum" 0 [Arr 0; Arr 1] nans = (Ok (Arr r), st')
     /\ heap st' !! r = Some res
     /\ data res !! 0 = Some (VFloat nan)
     /\ data res !! 1 = Some (VFloat nan))
  /\ (exists st' r res,
        call "minimum" 0 [Arr 0; Arr 1] nans = (Ok (Arr r), st')
        /\ heap st' !! r = Some res
        /\ data res !! 0 = Some (VFloat nan)
        /\ data res !! 1 = Some (VFloat nan)).
Proof.
  set (A := uarray [2] [VInt 1; VFloat nan]).
  set (B := uarray [2] [VFloat nan; VInt 2]).
  assert (forall cmp i, i < size_of [2] ->
            comparable cmp (broadcast_elem A [2] i) (broadcast_elem B [2] i))
    as Hcmp.
  { intros cmp i Hi. destruct i as [|[|i]].
    - right. left. split; reflexivity.
    - left. reflexivity.
    - cbn in Hi. lia. }
  split.
  - destruct (C3_nan_operand_always_wins "maximum" "__call__" Gt nans 0 0 1
                A A B [2]) as (st' & r & res & E & Hr & _ & _ & Hlaw);
      [unfold extremum_ufuncs; repeat constructor | by left | reflexivity
      | reflexivity | reflexivity | reflexivity | reflexivity | discriminate
      | reflexivity | apply Hcmp |].
    exists st', r, res. split_and!; [exact E | exact Hr | |].
    + destruct (Hlaw 0 ltac:(cbn; lia)) as (_ & H0 & _).
      exact (H0 eq_refl eq_refl).
    + destruct (Hlaw 1 ltac:(cbn; lia)) as (H1 & _).
      exact (H1 eq_refl).
  - destruct (C3_nan_operand_always_wins "minimum" "__call__" Lt nans 0 0 1
                A A B [2]) as (st' & r & res & E & Hr & _ & _ & Hlaw);
      [unfold extremum_ufuncs; repeat constructor | by left | reflexivity
      | reflexivity | reflexivity | reflexivity | reflexivity | discriminate
      | reflexivity | apply Hcmp |].
    exists st', r, res. split_and!; [exact E | exact Hr | |].
    + destruct (Hlaw 0 ltac:(cbn; lia)) as (_ & H0 & _).
      exact (H0 eq_refl eq_refl).
    + destruct (Hlaw 1 ltac:(cbn; lia)) as (H1 & _).
      exact (H1 eq_refl).
Defined.

(** Two arrays [[1, 0]] and [[2, 3]]. *)
Definition pairs : state Env.unum :=
  store [uarray [2] [VInt 1; VInt 0]; uarray [2] [VInt 2; VInt 3]].

(** C4, counterexample.  [logical_and] on arrays with one axis returns
    an [UncertainArray] of kind object that holds operands, not a plain
    [bool] array. *)
Lemma C4_logical_and_returns_uarray :
  returned (call "logical_and" 0 [Arr 0; Arr 1] pairs)
  = Some (uarray [2] [VInt 2; VInt 0]).
Proof. reflexivity. Qed.

(** [less] on the same two arrays. *)
Lemma C4_witness :
  "less" ∈ boolean_ufuncs
  /\ exists r o',
       Arr 2 = Arr (U := Env.unum) r
       /\ length (heap pairs) <= r
       /\ heap (snd (call "less" 0 [Arr 0; Arr 1] pairs)) !! r = Some o'
       /\ bool_ndarray o'
       /\ extends pairs (snd (call "less" 0 [Arr 0; Arr 1] pairs)).
Proof.
  assert ("less" ∈ boolean_ufuncs) as Hin
    by (unfold boolean_ufuncs; repeat constructor).
  split; [exact Hin|].
  apply (C4_boolean_ufuncs_return_bool_ndarray "less" "__call__" 0
           [Arr 0; Arr 1] [] pairs _ (uarray [2] [VInt 1; VInt 0]) (Arr 2) Hin);
    [reflexivity | discriminate | reflexivity].
Defined.

(** C5, the code at the failing input.  The negation of the row has the
    shape and the elements of the row; after the row was added to the
    matrix, the same negation returns an array of the shape of the
    matrix, its second half left at [None].  (What the calls do keep is
    the content of their inputs: [preserves_array_ufunc].) *)
Theorem C5_broadcast_shape_outlives_the_call :
  returned (call "negative" 0 [Arr 0] row_matrix)
    = Some (uarray [1; 3] [VInt (-1); VInt (-2); VInt (-3)])
  /\ returned
       (let '(_, st) := call "add" 0 [Arr 0; Arr 1] row_matrix in
        call "negative" 0 [Arr 0] st)
     = Some (uarray [2; 3] [VInt (-1); VInt (-2); VInt (-3);
                            VNone; VNone; VNone]).
Proof. split; reflexivity. Qed.

(** [uarray([1, 2, 3])] constructed in an empty store, then reduced. *)
Definition reduce_123 (reduction : ref -> option nat -> M Env.unum (pyarg Env.unum))
  : result (pyarg Env.unum) :=
  fst ((let* a := __new__ (Seq [VInt 1; VInt 2; VInt 3]) None None in
        reduction a None) (store [])).

(** C7, counterexample.  The sum of [[1, 2, 3]] is 6, not 2. *)
Lemma C7_sum_is_6_not_2 :
  reduce_123 sum = Ok (Obj (VInt 6)) /\ reduce_123 sum <> Ok (Obj (VInt 2)).
Proof. split; [reflexivity|discriminate]. Qed.

(** C7 (as amended).  For the 1-dimensional array holding [[1, 2, 3]]
    the sum is 6 and the mean is 2.0, each a bare scalar and not an
    array. *)
Theorem C7_sum_6_mean_2 :
  reduce_123 sum = Ok (Obj (VInt 6))
  /\ reduce_123 mean = Ok (Obj (VFloat 2)).
Proof. split; reflexivity. Qed.

(** A plain [ndarray] of kind float. *)
Definition floats : state Env.unum :=
  store [ArrObj Ndarray [2] DFloat [VFloat 1; VFloat 2] None None].

(** C8, counterexample.  A float [ndarray] constructed with the hint
    [bool] gives an array of kind float. *)
Lemma C8_hint_is_overridden :
  (let '(r, st') := __new__ (Arr 0) (Some DBool) None floats in
   match r with
   | Ok r => dtype_of <$> heap st' !! r
   | Err _ => None
   end) = Some DFloat.
Proof. reflexivity. Qed.

(** The same construction, with a label. *)
Lemma C8_witness :
  ndarray_dtype floats (Arr 0) = Some DFloat
  /\ exists r st' o,
       __new__ (Arr 0) (Some DBool) (Some "amps") floats = (Ok r, st')
       /\ heap st' !! r = Some o
       /\ cls o = Uarray
       /\ dtype_of o = DFloat
       /\ _label o = Some "amps".
Proof.
  split; [reflexivity|].
  apply (C8_constructed_dtype (Arr 0) (Some DBool) (Some "amps") floats).
  - intros r [= <-]. by eexists.
  - left. by eexists.
Defined.

(** Three uncertain numbers in a column. *)
Definition column : state Env.unum :=
  store [uarray [3; 1] [VUncertain (Env.UNum 1 2 3 None);
                        VUncertain (Env.UNum 4 5 6 None);
                        VUncertain (Env.UNum 7 8 9 None)]].

(** The column labelled ["x"]. *)
Lemma shared_label_witness :
  exists st' r o,
    _intermediate 0 (Some (Obj (VStr "x"))) column = (Ok (Arr r), st')
    /\ heap st' !! r = Some o
    /\ cls o = Uarray
    /\ shape o = [3; 1]
    /\ data o = [VUncertain (Env.UNum 1 2 3 (Some "x[0]"));
                 VUncertain (Env.UNum 4 5 6 (Some "x[1]"));
                 VUncertain (Env.UNum 7 8 9 (Some "x[2]"))].
Proof.
  apply (shared_label_is_indexed column 0
           (uarray [3; 1] [VUncertain (Env.UNum 1 2 3 None);
                           VUncertain (Env.UNum 4 5 6 None);
                           VUncertain (Env.UNum 7 8 9 None)])
           (VUncertain (Env.UNum 1 2 3 None))
           (VUncertain (Env.UNum 4 5 6 None))
           (VUncertain (Env.UNum 7 8 9 None)));
    reflexivity.
Defined.

(** The column, and an array of shape (3,0), which has no elements. *)
Definition column_and_empty : state Env.unum :=
  store [uarray [3; 1] [VUncertain (Env.UNum 1 2 3 None);
                        VUncertain (Env.UNum 4 5 6 None);
                        VUncertain (Env.UNum 7 8 9 None)];
         uarray [3; 0] []].

(** C9, the code at the failing input.  The column as constructed is
    labelled ["x[0]"], ["x[1]"], ["x[2]"].  After the column was added
    to the array of shape (3,0), which leaves the broadcast shape (3,0)
    on the column, the same call raises [IndexError] at the first
    element: the buffer is allocated with the shape left behind and has
    no room.  The column itself still holds its three elements. *)
Theorem C9_stale_shape_breaks_labelling :
  data <$> returned (_intermediate 0 (Some (Obj (VStr "x"))) column_and_empty)
    = Some [VUncertain (Env.UNum 1 2 3 (Some "x[0]"));
            VUncertain (Env.UNum 4 5 6 (Some "x[1]"));
            VUncertain (Env.UNum 7 8 9 (Some "x[2]"))]
  /\ (let '(sum, st) := call "add" 0 [Arr 0; Arr 1] column_and_empty in
      (shape <$> returned (sum, st),
       _broadcasted_shape <$> heap st !! 0,
       length <$> (data <$> heap st !! 0),
       fst (_intermediate 0 (Some (Obj (VStr "x"))) st)))
     = (Some [3; 0], Some (Some [3; 0]), Some 3,
        Err (Raise IndexError "index out of bounds")).
Proof. split; reflexivity. Qed.

(** Arrays of three and of two elements. *)
Definition three_two : state Env.unum :=
  store [uarray [3] [VInt 1; VInt 2; VInt 3]; uarray [2] [VInt 1; VInt 2]].

(** C10, counterexample.  With shapes (3,) and (2,) the exception is
    the [ValueError] of [np.broadcast], not the [TypeError]. *)
Lemma C10_incompatible_shapes_raise_ValueError :
  call "logical_xor" 0 [Arr 0; Arr 1] three_two
  = (Err (Raise ValueError
            "shape mismatch: objects cannot be broadcast to a single shape"),
     three_two).
Proof. reflexivity. Qed.

(** [logical_xor] of the row and the matrix. *)
Lemma C10_witness :
  is_Some (broadcast_shapes [1; 3] [2; 3])
  /\ exists st',
       call "logical_xor" 0 [Arr 0; Arr 1] row_matrix
       = (Err (Raise TypeError xor_message), st').
Proof.
  assert (is_Some (broadcast_shapes [1; 3] [2; 3])) as Hb by (by eexists).
  split; [exact Hb|].
  destruct (C10_logical_xor_raises 0 "__call__" [Arr 0; Arr 1] []
              row_matrix) as (_ & _ & Hxor).
  apply (Hxor 0 1 (uarray [1; 3] [VInt 1; VInt 2; VInt 3])
           (uarray [1; 3] [VInt 1; VInt 2; VInt 3])
           (uarray [2; 3] [VInt 1; VInt 2; VInt 3; VInt 4; VInt 5; VInt 6])
           eq_refl eq_refl eq_refl eq_refl Hb).
Defined.

(** ** Further examples *)

Lemma ltb_nan_r (f : float) : (f <? nan)%float = false.
Proof.
  rewrite FloatAxioms.ltb_spec. change (Prim2SF nan) with S754_nan.
  unfold SFltb, SFcompare. by destruct (Prim2SF f) as [| | |[] ? ?].
Qed.

Lemma ltb_nan_l (f : float) : (nan <? f)%float = false.
Proof.
  rewrite FloatAxioms.ltb_spec. change (Prim2SF nan) with S754_nan. reflexivity.
Qed.

Definition zero_dim_pair (x y : elem) : state Env.unum :=
  store [uarray [] [x]; uarray [] [y]].

Definition one_dim_pair (x y : elem) : state Env.unum :=
  store [uarray [1] [x]; uarray [1] [y]].

(** X18.  [maximum] and [minimum] of NaN and a float [f], in that order: on
    0-dimensional arrays the result is [f], because the branch for them
    compares without the test for NaN that the loop makes; on arrays of
    one element the result is NaN. *)
Theorem zero_dim_maximum_ignores_nan (f : float) :
  fst (call "maximum" 0 [Arr 0; Arr 1] (zero_dim_pair (VFloat nan) (VFloat f)))
    = Ok (Obj (VFloat f))
  /\ fst (call "minimum" 0 [Arr 0; Arr 1] (zero_dim_pair (VFloat nan) (VFloat f)))
    = Ok (Obj (VFloat f))
  /\ data <$> returned (call "maximum" 0 [Arr 0; Arr 1]
                          (one_dim_pair (VFloat nan) (VFloat f)))
    = Some [VFloat nan]
  /\ data <$> returned (call "minimum" 0 [Arr 0; Arr 1]
                          (one_dim_pair (VFloat nan) (VFloat f)))
    = Some [VFloat nan].
Proof.
  split_and!.
  - cbv -[PrimFloat.ltb]. rewrite ltb_nan_r. reflexivity.
  - cbv -[PrimFloat.ltb]. rewrite ltb_nan_l. reflexivity.
  - reflexivity.
  - reflexivity.
Qed.

Lemma unimplemented_witness :
  ("floor_divide" ∉ implemented_ufuncs)
  /\ ("floor_divide" ∉ private_names)
  /\ String.prefix "_" "floor_divide" = false
  /\ call "floor_divide" 0 [Arr 0; Arr 1] row_matrix
     = (Err (Raise NotImplementedError
               "The <ufunc 'floor_divide'> function has not been implemented"),
        row_matrix).
Proof.
  assert ("floor_divide" ∉ implemented_ufuncs) as Hn.
  { unfold implemented_ufuncs. intros Hin.
    repeat (apply elem_of_cons in Hin as [?|Hin]; [done|]).
    by apply elem_of_nil in Hin. }
  assert ("floor_divide" ∉ private_names) as Hp.
  { unfold private_names. intros Hin.
    repeat (apply elem_of_cons in Hin as [?|Hin]; [done|]).
    by apply elem_of_nil in Hin. }
  split; [exact Hn|]. split; [exact Hp|]. split; [reflexivity|].
  exact (unimplemented_ufunc_raises 0 "floor_divide" "__call__"
           [Arr 0; Arr 1] [] row_matrix Hn Hp eq_refl).
Defined.

(** [np.negative(a, out=None)] *)
Lemma kwargs_witness :
  __array_ufunc__ 0 "negative" "__call__" [Arr 0] [("out", Obj VNone)] row_matrix
  = ((call "negative" 0 [Arr 0] row_matrix).1,
     State (heap (call "negative" 0 [Arr 0] row_matrix).2)
           (warnings row_matrix ++ [[("out", Obj VNone)]]))
  /\ warnings (call "negative" 0 [Arr 0] row_matrix).2 = warnings row_matrix.
Proof.
  apply (kwargs_only_warn 0 "negative" "__call__" [Arr 0] [("out", Obj VNone)]
           row_matrix).
  - unfold implemented_ufuncs. repeat constructor.
  - discriminate.
  - reflexivity.
Defined.

(** The row subtracted from the matrix, and the matrix from the row. *)
Lemma binary_witness :
  exists st' r res,
    call "subtract" 1 [Arr 1; Arr 0] row_matrix = (Ok (Arr r), st')
    /\ length (heap row_matrix) <= r
    /\ heap st' !! r = Some res
    /\ cls res = Uarray
    /\ shape res = [2; 3]
    /\ dtype_of res = DObject
    /\ data res = [VInt 0; VInt 0; VInt 0; VInt 3; VInt 3; VInt 3].
Proof.
  apply (binary_ufunc_broadcasts "subtract" "__call__" (py_binop Sub) None true
           row_matrix 1 1 0
           (uarray [2; 3] [VInt 1; VInt 2; VInt 3; VInt 4; VInt 5; VInt 6])
           (uarray [2; 3] [VInt 1; VInt 2; VInt 3; VInt 4; VInt 5; VInt 6])
           (uarray [1; 3] [VInt 1; VInt 2; VInt 3])
           [2; 3]
           (fun i => nth i [VInt 0; VInt 0; VInt 0; VInt 3; VInt 3; VInt 3]
                         VNone));
    try reflexivity.
  - unfold binary_ufuncs. repeat constructor.
  - by left.
  - discriminate.
  - intros i Hi.
    do 6 (destruct i as [|i]; [reflexivity|]).
    exfalso. cbn in Hi. lia.
Defined.

Lemma incompatible_witness :
  call "add" 0 [Arr 0; Arr 1] three_two
  = (Err (Raise ValueError shape_mismatch), three_two).
Proof.
  apply (incompatible_shapes_raise "add" "__call__" three_two 0 0 1
           (uarray [3] [VInt 1; VInt 2; VInt 3])
           (uarray [3] [VInt 1; VInt 2; VInt 3])
           (uarray [2] [VInt 1; VInt 2]));
    try reflexivity.
  unfold implemented_ufuncs. repeat constructor.
Defined.

(** A 0-dimensional array holding 1 and the array [[1, 2]]. *)
Definition point_and_pair : state Env.unum :=
  store [uarray [] [VInt 1]; uarray [2] [VInt 1; VInt 2]].

Lemma zero_dim_self_witness :
  exists msg,
    call "add" 0 [Arr 0; Arr 1] point_and_pair
    = (Err (Raise AttributeError msg),
       set_heap point_and_pair
         (<[0 := set_bshape (uarray [] [VInt 1]) (Some [2])]>
            (heap point_and_pair))).
Proof.
  apply (zero_dim_self_cannot_broadcast "add" "__call__" (py_binop Add) None
           true point_and_pair 0 1 (uarray [] [VInt 1])
           (uarray [2] [VInt 1; VInt 2]));
    try reflexivity.
  - unfold binary_ufuncs. repeat constructor.
  - discriminate.
Defined.

Lemma zero_dim_binary_witness :
  call "multiply" 0 [Arr 0; Arr 1] scalars
  = (Ok (Obj (VInt 2)),
     set_heap scalars
       (<[0 := set_bshape (uarray [] [VInt 1]) None]> (heap scalars))).
Proof.
  assert (("multiply", py_binop Mul) ∈ binary_scalars (U := Env.unum)) as Hin
    by (unfold binary_scalars; repeat constructor).
  exact (zero_dim_binary_returns_scalar "multiply" "__call__" (py_binop Mul)
           scalars 0 1 (uarray [] [VInt 1]) (uarray [] [VInt 2])
           (VInt 1) (VInt 2) Hin eq_refl eq_refl eq_refl eq_refl eq_refl
           eq_refl).
Defined.

(** [10 - a] for the row [a]. *)
Lemma scalar_operand_witness :
  exists st' r res,
    call "subtract" 0 [Obj (VInt 10); Arr 0] row_matrix = (Ok (Arr r), st')
    /\ length (heap row_matrix) <= r
    /\ heap st' !! r = Some res
    /\ cls res = Uarray
    /\ shape res = [1; 3]
    /\ dtype_of res = DObject
    /\ data res = [VInt 9; VInt 8; VInt 7].
Proof.
  apply (scalar_operand_is_spread "subtract" "__call__" (py_binop Sub) None
           true true row_matrix 0 (uarray [1; 3] [VInt 1; VInt 2; VInt 3])
           (VInt 10) [VInt 9; VInt 8; VInt 7]);
    try reflexivity.
  - unfold binary_ufuncs. repeat constructor.
  - discriminate.
  - repeat constructor.
Defined.

Lemma unary_witness :
  exists st' r res,
    call "negative" 0 [Arr 0] row_matrix = (Ok (Arr r), st')
    /\ length (heap row_matrix) <= r
    /\ heap st' !! r = Some res
    /\ cls res = Uarray
    /\ shape res = [1; 3]
    /\ dtype_of res = DObject
    /\ data res = [VInt (-1); VInt (-2); VInt (-3)].
Proof.
  apply (unary_ufunc_maps "negative" "__call__" (py_unop Neg) None true
           row_matrix 0 (uarray [1; 3] [VInt 1; VInt 2; VInt 3])
           [VInt (-1); VInt (-2); VInt (-3)]);
    try reflexivity.
  - unfold unary_ufuncs. repeat constructor.
  - discriminate.
  - repeat constructor.
Defined.

Lemma zero_dim_unary_witness :
  call "negative" 0 [Arr 0] one = (Ok (Obj (VFloat (-1))), one).
Proof.
  assert (("negative", py_unop Neg, None, true) ∈ unary_ufuncs (U := Env.unum))
    as Hin by (unfold unary_ufuncs; repeat constructor).
  exact (zero_dim_unary_returns_scalar "negative" "__call__" (py_unop Neg) None
           true one 0 (uarray [] [VFloat 1]) (VFloat 1) Hin
           ltac:(discriminate) ltac:(discriminate) eq_refl eq_refl eq_refl).
Defined.

(** The values of the column, as floats. *)
Lemma accessor_witness :
  exists st' r res,
    value 0 (Some DFloat) column = (Ok (Arr r), st')
    /\ length (heap column) <= r
    /\ heap st' !! r = Some res
    /\ cls res = Uarray
    /\ shape res = [3; 1]
    /\ dtype_of res = DFloat
    /\ data res = [VFloat 1; VFloat 4; VFloat 7].
Proof.
  apply (accessor_maps (Some DFloat) (Some DFloat)
           (fun self => value self (Some DFloat)) (core_fn Value) column 0
           (uarray [3; 1] [VUncertain (Env.UNum 1 2 3 None);
                           VUncertain (Env.UNum 4 5 6 None);
                           VUncertain (Env.UNum 7 8 9 None)])
           [VFloat 1; VFloat 4; VFloat 7]);
    try reflexivity.
  - unfold accessors. repeat constructor.
  - discriminate.
  - repeat constructor.
Defined.

(** The scalar environment with one more function computed: the angle
    [atan2(y, x)] of a zero [y] and a positive [x] is [y]. *)
Definition atan2_at_zero (y x : elem) : result elem :=
  match y, x with
  | VFloat fy, VFloat fx =>
      if (fy =? 0)%float && (0 <? fx)%float then Ok (VFloat fy)
      else Env.unmodelled
  | _, _ => Env.unmodelled
  end.

Definition with_atan2 : Scalar Env.unum := {|
  py_binop := Env.binop_plain;
  py_unop := Env.unop_plain;
  py_bool := Env.bool_plain;
  py_attr := Env.attr_plain;
  core_fn := Env.core_plain;
  core_atan2 := atan2_at_zero;
  core_result := Env.result_plain;
  py_str := Env.str_plain;
  np_convert := Env.convert_plain;
  np_discover := Env.discover_plain
|}.

(** [[0.0, 0.0]] and [[1.0, 2.0]]. *)
Definition zeros_and_ones : state Env.unum :=
  store [uarray [2] [VFloat 0; VFloat 0]; uarray [2] [VFloat 1; VFloat 2]].

(** [np.arctan2(a, b)] dispatched to [a]. *)
Lemma arctan2_witness :
  exists st' r res,
    @__array_ufunc__ _ with_atan2 0 "arctan2" "__call__" [Arr 0; Arr 1] []
      zeros_and_ones = (Ok (Arr r), st')
    /\ length (heap zeros_and_ones) <= r
    /\ heap st' !! r = Some res
    /\ cls res = Uarray
    /\ shape res = [2]
    /\ data res = [VFloat 0; VFloat 0].
Proof.
  apply (@arctan2_pairs_self _ with_atan2 "__call__" zeros_and_ones 0 0 1
           (uarray [2] [VFloat 0; VFloat 0]) (uarray [2] [VFloat 0; VFloat 0])
           (uarray [2] [VFloat 1; VFloat 2]) [VFloat 0; VFloat 0]);
    try reflexivity.
  - discriminate.
  - repeat constructor.
Defined.

Lemma arctan2_broadcast_witness :
  exists msg st',
    call "arctan2" 0 [Arr 0; Arr 1] row_matrix
    = (Err (Raise AttributeError msg), st').
Proof.
  apply (arctan2_never_broadcasts "__call__" row_matrix 0 0 1
           (uarray [1; 3] [VInt 1; VInt 2; VInt 3])
           (uarray [1; 3] [VInt 1; VInt 2; VInt 3])
           (uarray [2; 3] [VInt 1; VInt 2; VInt 3; VInt 4; VInt 5; VInt 6]));
    try reflexivity.
  - discriminate.
  - by eexists.
Defined.

(** A labelled array. *)
Definition amps : state Env.unum :=
  store [ArrObj Uarray [3] DObject [VInt 1; VInt 2; VInt 3] (Some "amps") None].

Lemma copy_witness :
  exists st' r res,
    copy 0 amps = (Ok (Arr r), st')
    /\ length (heap amps) <= r
    /\ heap st' !! r = Some res
    /\ cls res = Uarray
    /\ shape res = [3]
    /\ data res = [VInt 1; VInt 2; VInt 3]
    /\ _label res = Some "amps"
    /\ heap st' !! 0
       = Some (ArrObj Uarray [3] DObject [VInt 1; VInt 2; VInt 3]
                      (Some "amps") None).
Proof.
  apply (copy_keeps_shape_and_label amps 0
           (ArrObj Uarray [3] DObject [VInt 1; VInt 2; VInt 3] (Some "amps")
                   None)
           [VInt 1; VInt 2; VInt 3]);
    try reflexivity.
  repeat constructor.
Defined.

(** Two labels for the three elements of the column. *)
Lemma intermediate_witness :
  exists st' r res,
    _intermediate 0 (Some (Seq [VStr "a"; VStr "b"])) column = (Ok (Arr r), st')
    /\ length (heap column) <= r
    /\ heap st' !! r = Some res
    /\ cls res = Uarray
    /\ shape res = [3; 1]
    /\ data res = [VUncertain (Env.UNum 1 2 3 (Some "a"));
                   VUncertain (Env.UNum 4 5 6 (Some "b"));
                   VNone].
Proof.
  apply (intermediate_pairs_labels column 0
           (uarray [3; 1] [VUncertain (Env.UNum 1 2 3 None);
                           VUncertain (Env.UNum 4 5 6 None);
                           VUncertain (Env.UNum 7 8 9 None)])
           [VStr "a"; VStr "b"]
           [VUncertain (Env.UNum 1 2 3 (Some "a"));
            VUncertain (Env.UNum 4 5 6 (Some "b"))]);
    try reflexivity.
  - discriminate.
  - repeat constructor.
Defined.

(** The array [[1, 2, 3]]. *)
Definition one_two_three : state Env.unum :=
  store [uarray [3] [VInt 1; VInt 2; VInt 3]].


(** The matrix is as it was after the row was added to it; the row has
    got the broadcast shape. *)
Lemma scratch_witness :
  exists o',
    heap (call "add" 0 [Arr 0; Arr 1] row_matrix).2 !! 0 = Some o'
    /\ (o' = uarray [1; 3] [VInt 1; VInt 2; VInt 3]
        \/ (0 = 0
            /\ exists s, o' = set_bshape (uarray [1; 3] [VInt 1; VInt 2; VInt 3])
                                         s)).
Proof.
  exact (dispatch_writes_scratch_only 0 "add" "__call__" [Arr 0; Arr 1] []
           row_matrix (call "add" 0 [Arr 0; Arr 1] row_matrix).2
           (call "add" 0 [Arr 0; Arr 1] row_matrix).1 0
           (uarray [1; 3] [VInt 1; VInt 2; VInt 3]) eq_refl eq_refl).
Defined.

(** The store that the addition of the row and the matrix leaves. *)
Definition after_add : state Env.unum :=
  (call "add" 0 [Arr 0; Arr 1] row_matrix).2.

(** The negation of the row, after the addition, leaves the broadcast
    shape on the row. *)
Lemma one_input_witness :
  heap (call "negative" 0 [Arr 0] after_add).2 !! 0
  = Some (set_bshape (uarray [1; 3] [VInt 1; VInt 2; VInt 3]) (Some [2; 3])).
Proof.
  exact (one_input_changes_nothing 0 "negative" "__call__" (Arr 0) []
           after_add (call "negative" 0 [Arr 0] after_add).2
           (call "negative" 0 [Arr 0] after_add).1 0
           (set_bshape (uarray [1; 3] [VInt 1; VInt 2; VInt 3]) (Some [2; 3]))
           eq_refl eq_refl).
Defined.

(** Three inputs [a], [b], [c] and an array of the first two. *)
Definition inputs_abc : state Env.unum :=
  store [uarray [3] [VUncertain (Env.UNum 1 2 3 (Some "a"));
                     VUncertain (Env.UNum 4 5 6 (Some "b"));
                     VUncertain (Env.UNum 7 8 9 (Some "c"))];
         uarray [2] [VUncertain (Env.UNum 1 2 3 (Some "a"));
                     VUncertain (Env.UNum 4 5 6 (Some "b"))]].

Lemma reporting_witness :
  exists st' r res,
    u_component 0 (Arr 1) inputs_abc = (Ok (Arr r), st')
    /\ length (heap inputs_abc) <= r
    /\ heap st' !! r = Some res
    /\ cls res = Uarray
    /\ shape res = [3]
    /\ data res = [VFloat 2; VFloat 5; VNone].
Proof.
  apply (reporting_pairs_in_flat_order "u_component" u_component inputs_abc 0 1
           (uarray [3] [VUncertain (Env.UNum 1 2 3 (Some "a"));
                        VUncertain (Env.UNum 4 5 6 (Some "b"));
                        VUncertain (Env.UNum 7 8 9 (Some "c"))])
           (uarray [2] [VUncertain (Env.UNum 1 2 3 (Some "a"));
                        VUncertain (Env.UNum 4 5 6 (Some "b"))])
           [VFloat 2; VFloat 5]);
    try reflexivity.
  - unfold reporting_methods. repeat constructor.
  - discriminate.
  - repeat constructor.
Defined.

(** The sensitivity of the three inputs to the input [a] alone. *)
Lemma reporting_single_witness :
  exists st' r res,
    sensitivity 0 (Obj (VUncertain (Env.UNum 1 2 3 (Some "a")))) inputs_abc
    = (Ok (Arr r), st')
    /\ length (heap inputs_abc) <= r
    /\ heap st' !! r = Some res
    /\ cls res = Uarray
    /\ shape res = [3]
    /\ data res = [VFloat 1; VNone; VNone].
Proof.
  apply (reporting_single_fills_first "sensitivity" sensitivity inputs_abc 0
           (uarray [3] [VUncertain (Env.UNum 1 2 3 (Some "a"));
                        VUncertain (Env.UNum 4 5 6 (Some "b"));
                        VUncertain (Env.UNum 7 8 9 (Some "c"))])
           (VUncertain (Env.UNum 1 2 3 (Some "a")))
           (VUncertain (Env.UNum 1 2 3 (Some "a")))
           (VUncertain (Env.UNum 1 2 3 (Some "a")))
           (VFloat 1)
           [VUncertain (Env.UNum 4 5 6 (Some "b"));
            VUncertain (Env.UNum 7 8 9 (Some "c"))]);
    try reflexivity.
  - unfold reporting_methods. repeat constructor.
  - discriminate.
Defined.

(** [a.round(digits=2)] on the array [[1, 2, 3]] of [int]s. *)
Lemma round_witness :
  exists st' r res,
    round 0 (VInt 0) [("digits", VInt 2)] one_two_three = (Ok (Arr r), st')
    /\ length (heap one_two_three) <= r
    /\ heap st' !! r = Some res
    /\ cls res = Uarray
    /\ shape res = [3]
    /\ data res = [VInt 1; VInt 2; VInt 3].
Proof.
  apply (round_maps one_two_three 0 (uarray [3] [VInt 1; VInt 2; VInt 3])
           (VInt 0) [("digits", VInt 2)] [VInt 1; VInt 2; VInt 3]);
    try reflexivity.
  do 3 (apply Forall2_cons_2; [right; split; [by eexists|reflexivity]|]).
  apply Forall2_nil_2.
Defined.

(** The sum of the matrix along its first axis: numpy is handed the
    array 2 and returns the array 3, which comes back as the
    [UncertainArray] 4. *)
Lemma reduction_witness :
  exists st',
    sum 1 (Some 0) row_matrix = (Ok (Arr 4), st')
    /\ heap st' !! 4
       = Some (ArrObj Uarray [3] DObject [VInt 5; VInt 7; VInt 9] None None).
Proof.
  destruct (reduction_wraps_arrays (Some 0) [] []
              (fun self => sum self (Some 0)) (fun a => np_sum a (Some 0)) None
              row_matrix (np_asarray (Arr 1) None row_matrix).2
              (np_sum 2 (Some 0) (np_asarray (Arr 1) None row_matrix).2).2
              1 2 (Arr 3)) as (Hwrap & _ & _).
  - unfold reductions. repeat constructor.
  - reflexivity.
  - reflexivity.
  - eexists. split.
    + exact (Hwrap 3 (ArrObj Ndarray [3] DObject [VInt 5; VInt 7; VInt 9] None
                             None)
               eq_refl eq_refl eq_refl ltac:(discriminate)).
    + reflexivity.
Defined.

(** The machine epsilon of binary64, [2^-52]. *)
Definition epsilon : float := 0x1p-52%float.

Lemma seq_to_complex_witness :
  (epsilon <? 0)%float = false
  /\ exists l,
       Function.complex_to_seq (VComplex 1 2 : elem) = Ok l
       /\ Function.seq_to_complex epsilon (store []) (Seq l)
          = Function.Return (VComplex 1 2).
Proof.
  split; [reflexivity|].
  exact (FunctionProperties.seq_to_complex_inverts_complex_to_seq epsilon (VComplex 1 2) 1 2
           (store []) eq_refl eq_refl).
Defined.

(** The matrix [[1, -2], [2, 1]] of the number [1 + 2j], as an array of
    kind object. *)
Definition matrix_1_2j : state Env.unum :=
  store [ArrObj Ndarray [2; 2] DObject [VInt 1; VInt (-2); VInt 2; VInt 1]
                None None].

Lemma seq_to_complex_array_witness :
  Function.seq_to_complex epsilon matrix_1_2j (Arr 0)
  = Function.seq_to_complex epsilon matrix_1_2j
      (Seq [VInt 1; VInt (-2); VInt 2; VInt 1]).
Proof.
  exact (FunctionProperties.seq_to_complex_array_as_flat epsilon matrix_1_2j 0
           (ArrObj Ndarray [2; 2] DObject [VInt 1; VInt (-2); VInt 2; VInt 1]
                   None None)
           eq_refl eq_refl eq_refl eq_refl).
Defined.

(** An integer matrix whose off-diagonal sum leaves the 64-bit range. *)
Definition matrix_int64 : state Env.unum :=
  store [ArrObj Ndarray [2; 2] DInt
                [VInt 1; VInt (- 2 ^ 63); VInt (- 2 ^ 63); VInt 1] None None].

(** On the integer array the sum of the off-diagonal elements wraps to
    0 and the matrix passes for well-conditioned; the list of the same
    Python integers does not. *)
Lemma seq_to_complex_int64_wraps :
  Function.seq_to_complex epsilon matrix_int64 (Arr 0)
  = Function.Return (VComplex 1 (-0x1p63))
  /\ Function.seq_to_complex epsilon matrix_int64
       (Seq [VInt 1; VInt (- 2 ^ 63); VInt (- 2 ^ 63); VInt 1])
     = Function.Fail (Function.RuntimeError "ill-conditioned sequence").
Proof. split; reflexivity. Qed.

Lemma sum_and_mean_of_ints_witness :
  Function.mean (Seq (map VInt [1; 2; 3]%Z)) None (store [])
  = (Function.Return (Obj (VFloat 2)), store []).
Proof.
  destruct (FunctionProperties.sum_and_mean_of_ints [1; 2; 3]%Z None (store []))
    as (_ & Hmean & _).
  apply Hmean; [discriminate|cbn; lia|cbn; lia].
Defined.

End Examples.
